(** * ProcessM8: diagram graph engine

    A shallow embedding of the conversion module (wire export and the three
    cross-notation lifts), of the pointer handling and fit-to-view code of the
    value-stream and case editors, and of the derived project metrics,
    followed by the properties established about them.

    Conventions of the embedding.
    - A JavaScript number is an exact rational ([Q]); NaN and the infinities
      are outside the model, and every statement about a number is up to
      [Qeq].
    - A JavaScript string is a [string] of 8-bit characters.
    - An optional field, or one read through the optional chaining operator,
      is an [option].
    - [crypto.randomUUID] is a sequence of draws [nat -> string] together with
      the index of the next draw, threaded through a small state monad.
    - Number to text conversion inside template literals is a parameter
      [showNum]. *)

From Stdlib Require Import String Ascii List Bool ZArith QArith Qround Qabs Qminmax.
From Stdlib Require Import Lia Lqa Permutation Sorted.
Import ListNotations.

(* ================================================================== *)
(** ** JavaScript primitives used by the sources *)

Module Js.

Local Open Scope Q_scope.

(** Truthiness of a number: zero is falsy. *)
Definition truthy (x : Q) : bool := negb (Qeq_bool x 0).

(** [x || d] on numbers. *)
Definition or_else (x d : Q) : Q := if truthy x then x else d.

(** [o || d] where [o] may be undefined. *)
Definition opt_or_else (o : option Q) (d : Q) : Q :=
  match o with
  | Some x => or_else x d
  | None => d
  end.

(** [o ?? d]: only undefined is replaced. *)
Definition nullish (o : option Q) (d : Q) : Q :=
  match o with
  | Some x => x
  | None => d
  end.

(** Truthiness of an optional number, as in [a && b] used as a condition. *)
Definition opt_truthy (o : option Q) : bool :=
  match o with
  | Some x => truthy x
  | None => false
  end.

(** [Math.round]: nearest integer, ties towards plus infinity. *)
Definition Math_round (x : Q) : Q := inject_Z (Qfloor (x + (1 # 2))).

Definition Math_abs (x : Q) : Q := Qabs x.

(** [Math.min(x, ...l)] and [Math.max(x, ...l)] on a non-empty argument list. *)
Definition Math_min (x : Q) (l : list Q) : Q := fold_left Qmin l x.
Definition Math_max (x : Q) (l : list Q) : Q := fold_left Qmax l x.

(** [Number(x.toFixed(2))]: the nearest multiple of one hundredth, the sign
    being split off first so that ties move away from zero. *)
Definition toFixed2 (x : Q) : Q :=
  if Qle_bool 0 x
  then inject_Z (Qfloor (x * 100 + (1 # 2))) / 100
  else - (inject_Z (Qfloor ((- x) * 100 + (1 # 2))) / 100).

Local Open Scope string_scope.

Definition dq : string := String "034"%char EmptyString.
Definition nl : string := String "010"%char EmptyString.

(** [s.replace(/c/g, by)] for a single character [c]. *)
Fixpoint replaceAll (c : ascii) (by_ : string) (s : string) : string :=
  match s with
  | EmptyString => EmptyString
  | String a r =>
      if Ascii.eqb a c then by_ ++ replaceAll c by_ r
      else String a (replaceAll c by_ r)
  end.

(** Truthiness of a string: the empty string is falsy. *)
Definition str_truthy (s : string) : bool :=
  match s with
  | EmptyString => false
  | String _ _ => true
  end.

Definition opt_str_truthy (o : option string) : bool :=
  match o with
  | Some s => str_truthy s
  | None => false
  end.

(** [l[0] || d] on a list of strings. *)
Definition first_or (l : list string) (d : string) : string :=
  match l with
  | s :: _ => if str_truthy s then s else d
  | [] => d
  end.

(** Occurrence of a character in a string. *)
Fixpoint occurs (c : ascii) (s : string) : bool :=
  match s with
  | EmptyString => false
  | String a r => Ascii.eqb a c || occurs c r
  end.




(** [l.map((a, i) => f(a, i))], the index counted from [i]. *)
Fixpoint mapiFrom {A B : Type} (f : A -> nat -> B) (i : nat) (l : list A) : list B :=
  match l with
  | [] => []
  | a :: r => f a i :: mapiFrom f (S i) r
  end.

Definition mapi {A B : Type} (f : A -> nat -> B) (l : list A) : list B := mapiFrom f 0 l.

(** An array index as a number. *)
Definition num (i : nat) : Q := inject_Z (Z.of_nat i).

End Js.

(* ================================================================== *)
(** ** types.ts *)

Module Types.

Inductive NodeType := START | TASK | GATEWAY | END.

Record Metrics := {
  cycleTime : option Q;
  cost : option Q;
  errorRate : option Q;
  waitingTime : option Q;
  changeoverTime : option Q;
  uptime : option Q;
  resourceCost : option Q
}.

Record ProcessNode := {
  node_id : string;
  node_type : NodeType;
  node_label : string;
  node_x : Q;
  node_y : Q;
  node_metrics : option Metrics
}.

Record ProcessEdge := {
  edge_id : string;
  edge_source : string;
  edge_target : string;
  edge_label : option string;
  edge_probability : option Q
}.

Record ProcessMap := {
  nodes : list ProcessNode;
  edges : list ProcessEdge;
  xml : option string
}.

Record MetricData := {
  metric_name : string;
  metric_value : Q;
  metric_unit : string;
  metric_trend : string;
  metric_delta : Q
}.

Inductive VSMRole :=
  supplier | customer | process | inventory | production_control | transport | kaizen.

Record VSMStepData := {
  step_cycleTime : option Q;
  step_changeoverTime : option Q;
  step_uptime : option Q;
  step_inventoryCount : option Q;
  step_leadTime : option Q
}.

Record VSMStep := {
  step_id : string;
  step_name : string;
  step_role : VSMRole;
  step_x : Q;
  step_y : Q;
  step_data : option VSMStepData
}.

(** The connector kinds of [VSMConnector], and the kind [transport_link]
    that [convertSipocToVsm] writes into its untyped connector list. *)
Inductive ConnectorType := electronic | manual | push | pull | transport_link.

Record VSMConnector := {
  conn_id : string;
  conn_source : string;
  conn_target : string;
  conn_type : ConnectorType
}.

Record VSMData := {
  steps : list VSMStep;
  connectors : list VSMConnector;
  totalLeadTime : Q;
  totalProcessTime : Q;
  efficiency : Q;
  customerDemand : option Q;
  availableTime : option Q
}.

Record SIPOCData := {
  suppliers : list string;
  inputs : list string;
  process_steps : list string;
  outputs : list string;
  customers : list string
}.

Inductive CMMNNodeType := STAGE | CMMN_TASK | MILESTONE | EVENT_LISTENER.

Record CMMNNode := {
  cnode_id : string;
  cnode_type : CMMNNodeType;
  cnode_label : string;
  cnode_x : Q;
  cnode_y : Q;
  cnode_width : option Q;
  cnode_height : option Q
}.

Inductive CMMNEdgeType := association | dependency.

Record CMMNEdge := {
  cedge_id : string;
  cedge_source : string;
  cedge_target : string;
  cedge_type : CMMNEdgeType
}.

Record CMMNModel := {
  cmmn_nodes : list CMMNNode;
  cmmn_edges : list CMMNEdge
}.

(** The two parts of [ProjectData] read by the metric derivation. *)
Record ProjectData := {
  vsm : option VSMData;
  processMap : option ProcessMap
}.

Definition role_is_process (r : VSMRole) : bool :=
  match r with
  | process => true
  | _ => false
  end.

End Types.

(* ================================================================== *)
(** ** A state monad for the draws of crypto.randomUUID *)

Module Rand.

(** A computation that starts at the index of the next draw and returns a
    value together with the index after its own draws. *)
Definition M (A : Type) : Type := nat -> A * nat.

Definition ret {A : Type} (a : A) : M A := fun i => (a, i).

Definition bind {A B : Type} (m : M A) (k : A -> M B) : M B :=
  fun i => let (a, j) := m i in k a j.

(** [forEach] with a mutable accumulator. *)
Fixpoint foldM {A S : Type} (body : S -> A -> M S) (l : list A) (s : S) : M S :=
  match l with
  | [] => ret s
  | a :: r => bind (body s a) (foldM body r)
  end.

End Rand.

Declare Scope rand_scope.
Delimit Scope rand_scope with rand.
Notation "x <- m ;; k" := (Rand.bind m (fun x => k))
  (at level 61, m at next level, right associativity) : rand_scope.

(* ================================================================== *)
(** ** services/bpmnConverter.ts *)

Module BpmnConverter.

Import Js Types.
Local Open Scope string_scope.
Local Open Scope Q_scope.
Local Open Scope rand_scope.

Section Converter.

(** Text of a number inside a template literal. *)
Variable showNum : Q -> string.

(** The sequence of values returned by successive [crypto.randomUUID] calls. *)
Variable crypto : nat -> string.

Definition randomUUID : Rand.M string := fun i => (crypto i, S i).

Definition attr (k v : string) : string := (k ++ "=" ++ dq ++ v ++ dq)%string.

(** *** jsonToBpmnXml *)

Definition xmlHeader (processId : string) : string :=
  ("<?xml " ++ attr "version" "1.0" ++ " " ++ attr "encoding" "UTF-8" ++ "?>" ++ nl
   ++ "<bpmn:definitions "
   ++ attr "xmlns:xsi" "http://www.w3.org/2001/XMLSchema-instance" ++ " "
   ++ attr "xmlns:bpmn" "http://www.omg.org/spec/BPMN/20100524/MODEL" ++ " "
   ++ attr "xmlns:bpmndi" "http://www.omg.org/spec/BPMN/20100524/DI" ++ " "
   ++ attr "xmlns:dc" "http://www.omg.org/spec/DD/20100524/DC" ++ " "
   ++ attr "xmlns:di" "http://www.omg.org/spec/DD/20100524/DI" ++ " "
   ++ attr "id" "Definitions_1" ++ " "
   ++ attr "targetNamespace" "http://bpmn.io/schema/bpmn" ++ ">" ++ nl
   ++ "  <bpmn:process " ++ attr "id" processId ++ " "
   ++ attr "isExecutable" "false" ++ ">")%string.

(** The label of a node as written into its name attribute. *)
Definition sanitizedLabel (label : string) : string :=
  replaceAll ">" "&gt;" (replaceAll "<" "&lt;" (replaceAll "&" "&amp;" label)).

Definition flowElementTag (t : NodeType) : string :=
  match t with
  | START => "bpmn:startEvent"
  | END => "bpmn:endEvent"
  | GATEWAY => "bpmn:exclusiveGateway"
  | TASK => "bpmn:task"
  end.

(** The text appended for one node by the first loop. *)
Definition flowElementXml (node : ProcessNode) : string :=
  (nl ++ "    <" ++ flowElementTag (node_type node) ++ " "
   ++ attr "id" (node_id node) ++ " "
   ++ attr "name" (sanitizedLabel (node_label node)) ++ " />")%string.

(** The label of an edge as written into its name attribute. *)
Definition edgeLabelText (label : string) : string := replaceAll "034" "&quot;" label.

Definition nameAttr (edge : ProcessEdge) : string :=
  match edge_label edge with
  | Some l => if str_truthy l then (" " ++ attr "name" (edgeLabelText l))%string
              else EmptyString
  | None => EmptyString
  end.

Definition nodeExists (data : ProcessMap) (i : string) : bool :=
  existsb (fun n => String.eqb (node_id n) i) (nodes data).

(** The text appended for one edge by the second loop. *)
Definition sequenceFlowXml (data : ProcessMap) (edge : ProcessEdge) : string :=
  let sourceExists := nodeExists data (edge_source edge) in
  let targetExists := nodeExists data (edge_target edge) in
  if sourceExists && targetExists
  then (nl ++ "    <bpmn:sequenceFlow " ++ attr "id" (edge_id edge) ++ " "
        ++ attr "sourceRef" (edge_source edge) ++ " "
        ++ attr "targetRef" (edge_target edge) ++ nameAttr edge ++ " />")%string
  else EmptyString.

Definition getNodeDim (t : NodeType) : Q * Q :=
  match t with
  | START | END => (36, 36)
  | GATEWAY => (50, 50)
  | TASK => (100, 80)
  end.

(** The text appended for one node by the shape loop. *)
Definition shapeXml (node : ProcessNode) : string :=
  let (w, h) := getNodeDim (node_type node) in
  (nl ++ "      <bpmndi:BPMNShape " ++ attr "id" (node_id node ++ "_di") ++ " "
   ++ attr "bpmnElement" (node_id node) ++ ">" ++ nl
   ++ "        <dc:Bounds " ++ attr "x" (showNum (node_x node)) ++ " "
   ++ attr "y" (showNum (node_y node)) ++ " "
   ++ attr "width" (showNum w) ++ " " ++ attr "height" (showNum h) ++ " />" ++ nl
   ++ "        <bpmndi:BPMNLabel />" ++ nl
   ++ "      </bpmndi:BPMNShape>")%string.

Definition findNode (data : ProcessMap) (i : string) : option ProcessNode :=
  find (fun n => String.eqb (node_id n) i) (nodes data).

Definition waypointXml (p : Q * Q) : string :=
  (nl ++ "        <di:waypoint " ++ attr "x" (showNum (fst p)) ++ " "
   ++ attr "y" (showNum (snd p)) ++ " />")%string.

(** The way points written for an edge from [source] to [target], in the
    order in which the edge loop appends them. *)
Definition edgeWaypoints (source target : ProcessNode) : list (Q * Q) :=
  let sDim := getNodeDim (node_type source) in
  let tDim := getNodeDim (node_type target) in
  let sx := node_x source + fst sDim in
  let sy := node_y source + snd sDim / 2 in
  let tx := node_x target in
  let ty := node_y target + snd tDim / 2 in
  [(sx, sy)]
  ++ (if Qlt_le_dec 10 (Math_abs (sy - ty))
      then let midX := sx + (tx - sx) / 2 in [(midX, sy); (midX, ty)]
      else [])
  ++ [(tx, ty)].

Definition edgeShapeOpen (edge : ProcessEdge) : string :=
  (nl ++ "      <bpmndi:BPMNEdge " ++ attr "id" (edge_id edge ++ "_di") ++ " "
   ++ attr "bpmnElement" (edge_id edge) ++ ">")%string.

Definition edgeShapeClose (edge : ProcessEdge) : string :=
  (nl ++ "        "
   ++ (if opt_str_truthy (edge_label edge) then "<bpmndi:BPMNLabel />" else EmptyString)
   ++ nl ++ "      </bpmndi:BPMNEdge>")%string.

(** The text appended for one edge by the edge shape loop. *)
Definition edgeShapeXml (data : ProcessMap) (edge : ProcessEdge) : string :=
  match findNode data (edge_source edge), findNode data (edge_target edge) with
  | Some source, Some target =>
      (edgeShapeOpen edge
       ++ String.concat EmptyString (map waypointXml (edgeWaypoints source target))
       ++ edgeShapeClose edge)%string
  | _, _ => EmptyString
  end.

Definition appendEach {A : Type} (f : A -> string) (l : list A) (xml : string) : string :=
  fold_left (fun acc a => (acc ++ f a)%string) l xml.

Definition jsonToBpmnXml (data : ProcessMap) : Rand.M string :=
  uuid <- randomUUID ;;
  let processId := ("Process_" ++ substring 0 7 (replaceAll "-" EmptyString uuid))%string in
  let xml := xmlHeader processId in
  let xml := appendEach flowElementXml (nodes data) xml in
  let xml := appendEach (sequenceFlowXml data) (edges data) xml in
  let xml := (xml ++ nl ++ "  </bpmn:process>")%string in
  let xml := (xml ++ nl ++ "  <bpmndi:BPMNDiagram " ++ attr "id" "BPMNDiagram_1" ++ ">" ++ nl
              ++ "    <bpmndi:BPMNPlane " ++ attr "id" "BPMNPlane_1" ++ " "
              ++ attr "bpmnElement" processId ++ ">")%string in
  let xml := appendEach shapeXml (nodes data) xml in
  let xml := appendEach (edgeShapeXml data) (edges data) xml in
  let xml := (xml ++ nl ++ "    </bpmndi:BPMNPlane>" ++ nl
              ++ "  </bpmndi:BPMNDiagram>" ++ nl ++ "</bpmn:definitions>")%string in
  Rand.ret xml.

End Converter.

(** *** convertVsmToBpmn *)

Definition eventMetrics : Metrics :=
  {| cycleTime := Some 0; cost := Some 0; errorRate := None; waitingTime := Some 0;
     changeoverTime := Some 0; uptime := Some 100; resourceCost := None |}.

(** [steps.sort((a, b) => a.x - b.x)]: a stable sort by ascending x. *)
Fixpoint insertByX (s : VSMStep) (l : list VSMStep) : list VSMStep :=
  match l with
  | [] => [s]
  | t :: r => if Qle_bool (step_x s) (step_x t) then s :: t :: r
              else t :: insertByX s r
  end.

Fixpoint sortByX (l : list VSMStep) : list VSMStep :=
  match l with
  | [] => []
  | s :: r => insertByX s (sortByX r)
  end.

Definition processStepsOf (vsm : VSMData) : list VSMStep :=
  sortByX (filter (fun s => role_is_process (step_role s)) (steps vsm)).

(** The variables the task loop updates. *)
Record TaskLoop := {
  tl_nodes : list ProcessNode;
  tl_edges : list ProcessEdge;
  tl_previousNodeId : string;
  tl_xOffset : Q
}.

Definition cycleTimeMin (step : VSMStep) : Q :=
  match step_data step with
  | Some d =>
      match step_cycleTime d with
      | Some ct => if truthy ct then toFixed2 (ct / 60) else 0
      | None => 0
      end
  | None => 0
  end.

Definition stepChangeoverTime (step : VSMStep) : Q :=
  match step_data step with
  | Some d => nullish (step_changeoverTime d) 0
  | None => 0
  end.

Definition stepUptime (step : VSMStep) : Q :=
  match step_data step with
  | Some d => nullish (step_uptime d) 100
  | None => 100
  end.

Definition taskNode (step : VSMStep) (xOffset yFixed : Q) : ProcessNode :=
  {| node_id := "Task_" ++ step_id step;
     node_type := TASK;
     node_label := step_name step;
     node_x := xOffset;
     node_y := yFixed;
     node_metrics := Some {| cycleTime := Some (cycleTimeMin step);
                             cost := Some 0;
                             errorRate := None;
                             waitingTime := Some 0;
                             changeoverTime := Some (stepChangeoverTime step);
                             uptime := Some (stepUptime step);
                             resourceCost := None |} |}.

Definition flowEdge (source target : string) (label : option string) : ProcessEdge :=
  {| edge_id := "Flow_" ++ source ++ "_" ++ target;
     edge_source := source;
     edge_target := target;
     edge_label := label;
     edge_probability := None |}.

Definition yFixed : Q := 250.

Definition taskLoopBody (st : TaskLoop) (step : VSMStep) : TaskLoop :=
  let nodeId := ("Task_" ++ step_id step)%string in
  {| tl_nodes := tl_nodes st ++ [taskNode step (tl_xOffset st) yFixed];
     tl_edges := tl_edges st ++ [flowEdge (tl_previousNodeId st) nodeId None];
     tl_previousNodeId := nodeId;
     tl_xOffset := tl_xOffset st + 180 |}.

Definition vsmStartNode : ProcessNode :=
  {| node_id := "StartEvent_1"; node_type := START; node_label := "Process Start";
     node_x := 150; node_y := yFixed; node_metrics := Some eventMetrics |}.

Definition vsmEndNode (xOffset : Q) : ProcessNode :=
  {| node_id := "EndEvent_1"; node_type := END; node_label := "Process End";
     node_x := xOffset; node_y := yFixed; node_metrics := Some eventMetrics |}.

Definition convertVsmToBpmn (vsm : VSMData) : ProcessMap :=
  let startId := "StartEvent_1"%string in
  let st0 := {| tl_nodes := [vsmStartNode]; tl_edges := [];
                tl_previousNodeId := startId; tl_xOffset := 150 + 150 |} in
  let st := fold_left taskLoopBody (processStepsOf vsm) st0 in
  let endId := "EndEvent_1"%string in
  {| nodes := tl_nodes st ++ [vsmEndNode (tl_xOffset st)];
     edges := tl_edges st ++ [flowEdge (tl_previousNodeId st) endId None];
     xml := None |}.

Section ScopeLifts.

Variable crypto : nat -> string.

Let uuid : Rand.M string := randomUUID crypto.

Definition emptyStepData : VSMStepData :=
  {| step_cycleTime := Some 0; step_changeoverTime := Some 0; step_uptime := Some 100;
     step_inventoryCount := Some 0; step_leadTime := Some 0 |}.

Definition vsmStep (i name : string) (role : VSMRole) (x y : Q) : VSMStep :=
  {| step_id := i; step_name := name; step_role := role;
     step_x := x; step_y := y; step_data := Some emptyStepData |}.

(** *** convertSipocToVsm *)

(** The variables the process loop updates. *)
Record VsmLoop := {
  vl_steps : list VSMStep;
  vl_connectors : list VSMConnector;
  vl_prevProcessId : option string;
  vl_x : Q
}.

Definition topY : Q := 100.
Definition processY : Q := 400.

Definition vsmLoopBody (st : VsmLoop) (pName : string) : Rand.M VsmLoop :=
  pId <- uuid ;;
  let steps1 := (vl_steps st ++ [vsmStep pId pName process (vl_x st) processY])%list in
  conns1 <- (if opt_str_truthy (vl_prevProcessId st)
             then cId <- uuid ;;
                  Rand.ret (vl_connectors st
                            ++ [{| conn_id := cId;
                                   conn_source := match vl_prevProcessId st with
                                                  | Some p => p
                                                  | None => EmptyString
                                                  end;
                                   conn_target := pId;
                                   conn_type := push |}])%list
             else Rand.ret (vl_connectors st)) ;;
  Rand.ret {| vl_steps := steps1; vl_connectors := conns1;
              vl_prevProcessId := Some pId; vl_x := vl_x st + 200 |}.

Definition vsmProcessList (sipoc : SIPOCData) : list string :=
  match process_steps sipoc with
  | [] => ["Process Step 1"%string]
  | _ :: _ => process_steps sipoc
  end.

Definition convertSipocToVsm (sipoc : SIPOCData) : Rand.M VSMData :=
  let x := 100 in
  let supplierName := first_or (suppliers sipoc) "Supplier" in
  supplierId <- uuid ;;
  let steps0 := [vsmStep supplierId supplierName supplier x topY] in
  pcId <- uuid ;;
  let steps1 := (steps0 ++ [vsmStep pcId "Production Control" production_control 450 topY])%list in
  let x := 100 in
  st <- Rand.foldM vsmLoopBody (vsmProcessList sipoc)
          {| vl_steps := steps1; vl_connectors := [];
             vl_prevProcessId := None; vl_x := x |} ;;
  let customerName := first_or (customers sipoc) "Customer" in
  customerId <- uuid ;;
  let customerX := Qmax (vl_x st) 800 in
  let steps2 := (vl_steps st ++ [vsmStep customerId customerName customer customerX topY])%list in
  conns <- (if opt_str_truthy (vl_prevProcessId st)
            then cId <- uuid ;;
                 Rand.ret (vl_connectors st
                           ++ [{| conn_id := cId;
                                  conn_source := match vl_prevProcessId st with
                                                 | Some p => p
                                                 | None => EmptyString
                                                 end;
                                  conn_target := customerId;
                                  conn_type := transport_link |}])%list
            else Rand.ret (vl_connectors st)) ;;
  Rand.ret {| steps := steps2; connectors := conns;
              totalLeadTime := 0; totalProcessTime := 0; efficiency := 0;
              customerDemand := Some 100; availableTime := Some 27000 |}.

(** *** convertSipocToBpmn *)

Definition sipocMetrics : Metrics :=
  {| cycleTime := Some 0; cost := None; errorRate := None; waitingTime := Some 0;
     changeoverTime := None; uptime := None; resourceCost := None |}.

Definition sipocNode (i : string) (t : NodeType) (label : string) (x y : Q) : ProcessNode :=
  {| node_id := i; node_type := t; node_label := label;
     node_x := x; node_y := y; node_metrics := Some sipocMetrics |}.

(** The variables the task loop updates. *)
Record BpmnLoop := {
  bl_nodes : list ProcessNode;
  bl_edges : list ProcessEdge;
  bl_prevId : string;
  bl_x : Q
}.

Definition sipocY : Q := 250.

Definition bpmnLoopBody (st : BpmnLoop) (pName : string) : Rand.M BpmnLoop :=
  u <- uuid ;;
  let tId := ("Task_" ++ substring 0 5 u)%string in
  Rand.ret {| bl_nodes := bl_nodes st ++ [sipocNode tId TASK pName (bl_x st) sipocY];
              bl_edges := bl_edges st ++ [flowEdge (bl_prevId st) tId (Some EmptyString)];
              bl_prevId := tId;
              bl_x := bl_x st + 180 |}.

Definition bpmnProcessList (sipoc : SIPOCData) : list string :=
  match process_steps sipoc with
  | [] => ["New Task"%string]
  | _ :: _ => process_steps sipoc
  end.

Definition startLabel (sipoc : SIPOCData) : string :=
  match inputs sipoc with
  | i :: _ => ("Input: " ++ i)%string
  | [] => "Start"%string
  end.

Definition endLabel (sipoc : SIPOCData) : string :=
  match outputs sipoc with
  | o :: _ => ("Output: " ++ o)%string
  | [] => "End"%string
  end.

Definition convertSipocToBpmn (sipoc : SIPOCData) : Rand.M ProcessMap :=
  let startId := "StartEvent_SIPOC"%string in
  let nodes0 := [sipocNode startId START (startLabel sipoc) 150 sipocY] in
  st <- Rand.foldM bpmnLoopBody (bpmnProcessList sipoc)
          {| bl_nodes := nodes0; bl_edges := []; bl_prevId := startId; bl_x := 150 + 180 |} ;;
  let endId := "EndEvent_SIPOC"%string in
  Rand.ret {| nodes := bl_nodes st ++ [sipocNode endId END (endLabel sipoc) (bl_x st) sipocY];
              edges := bl_edges st ++ [flowEdge (bl_prevId st) endId (Some EmptyString)];
              xml := None |}.

End ScopeLifts.

(** *** extractProcessMapFromModeler *)

(** What the bridge reads of the element registry of the modelling widget.
    Reading a field of a business object that is not there throws. *)
Record BusinessRef := { ref_id : string }.

Record BusinessObject := {
  bo_id : string;
  bo_name : option string;
  bo_sourceRef : option BusinessRef;
  bo_targetRef : option BusinessRef
}.

Record Element := {
  el_type : string;
  el_x : Q;
  el_y : Q;
  el_businessObject : option BusinessObject
}.

Definition defaultMetrics : Metrics :=
  {| cycleTime := Some 0; cost := Some 0; errorRate := Some 0; waitingTime := Some 0;
     changeoverTime := Some 0; uptime := Some 100; resourceCost := None |}.

Definition getMetrics (existingNodes : list ProcessNode) (i : string) : Metrics :=
  match find (fun n => String.eqb (node_id n) i) existingNodes with
  | Some existing =>
      match node_metrics existing with
      | Some m => m
      | None => defaultMetrics
      end
  | None => defaultMetrics
  end.

(** [name || d] *)
Definition nameOr (name : option string) (d : string) : string :=
  match name with
  | Some s => if str_truthy s then s else d
  | None => d
  end.

Definition importedNode (bo : BusinessObject) (t : NodeType) (d : string)
    (element : Element) (m : option Metrics) : ProcessNode :=
  {| node_id := bo_id bo; node_type := t; node_label := nameOr (bo_name bo) d;
     node_x := el_x element; node_y := el_y element; node_metrics := m |}.

(** The body of the loop over the registry; [None] stands for an exception
    thrown inside it. *)
Definition importElement (existingNodes : list ProcessNode)
    (acc : list ProcessNode * list ProcessEdge) (element : Element)
  : option (list ProcessNode * list ProcessEdge) :=
  let (ns, es) := acc in
  let t := el_type element in
  if String.eqb t "bpmn:Process" then Some acc
  else if String.eqb t "label" then Some acc
  else if String.eqb t "bpmn:Task" || String.eqb t "bpmn:UserTask"
          || String.eqb t "bpmn:ServiceTask" then
    match el_businessObject element with
    | None => None
    | Some bo =>
        Some ((ns ++ [importedNode bo TASK "Task" element
                        (Some (getMetrics existingNodes (bo_id bo)))])%list, es)
    end
  else if String.eqb t "bpmn:StartEvent" then
    match el_businessObject element with
    | None => None
    | Some bo =>
        Some ((ns ++ [importedNode bo START "Start" element
                        (Some (getMetrics existingNodes (bo_id bo)))])%list, es)
    end
  else if String.eqb t "bpmn:EndEvent" then
    match el_businessObject element with
    | None => None
    | Some bo =>
        Some ((ns ++ [importedNode bo END "End" element
                        (Some (getMetrics existingNodes (bo_id bo)))])%list, es)
    end
  else if String.eqb t "bpmn:ExclusiveGateway" || String.eqb t "bpmn:InclusiveGateway" then
    match el_businessObject element with
    | None => None
    | Some bo => Some ((ns ++ [importedNode bo GATEWAY "Gateway" element None])%list, es)
    end
  else if String.eqb t "bpmn:SequenceFlow" then
    match el_businessObject element with
    | None => None
    | Some bo =>
        match bo_sourceRef bo, bo_targetRef bo with
        | Some sourceRef, Some targetRef =>
            Some (ns, (es ++ [{| edge_id := bo_id bo;
                                 edge_source := ref_id sourceRef;
                                 edge_target := ref_id targetRef;
                                 edge_label := bo_name bo;
                                 edge_probability := None |}])%list)
        | _, _ => Some acc
        end
    end
  else Some acc.

Fixpoint importElements (existingNodes : list ProcessNode) (registry : list Element)
    (acc : list ProcessNode * list ProcessEdge)
  : option (list ProcessNode * list ProcessEdge) :=
  match registry with
  | [] => Some acc
  | element :: rest =>
      match importElement existingNodes acc element with
      | Some acc' => importElements existingNodes rest acc'
      | None => None
      end
  end.

Definition emptyProcessMap : ProcessMap := {| nodes := []; edges := []; xml := None |}.

(** [modeler] is the element registry the modeler hands out, [None] when
    asking for it throws. *)
Definition extractProcessMapFromModeler (modeler : option (list Element))
    (existingNodes : list ProcessNode) : ProcessMap :=
  match modeler with
  | None => emptyProcessMap
  | Some elementRegistry =>
      match importElements existingNodes elementRegistry ([], []) with
      | Some (ns, es) => {| nodes := ns; edges := es; xml := None |}
      | None => emptyProcessMap
      end
  end.

End BpmnConverter.

(* ================================================================== *)
(** ** The browser objects the editors talk to *)

Module Dom.

Record Point := { px : Q; py : Q }.

Record MouseEvent := { clientX : Q; clientY : Q; button : nat }.

(** What the two element references of an editor give access to: the
    top-left corner of the bounding rectangle of the svg element, and the
    client width and height of the container. A reference that is not set
    is [None]. *)
Record Refs := {
  svgRect : option Point;
  containerSize : option (Q * Q)
}.

Inductive EventType := mousemove | mouseup.

(** A registered listener: the event type and the identity of the callback. *)
Definition Listener : Type := EventType * nat.

Definition eventType_eqb (a b : EventType) : bool :=
  match a, b with
  | mousemove, mousemove => true
  | mouseup, mouseup => true
  | _, _ => false
  end.

Definition listener_eqb (a b : Listener) : bool :=
  eventType_eqb (fst a) (fst b) && Nat.eqb (snd a) (snd b).

(** [window.addEventListener]: a pair already registered is not added again. *)
Definition addEventListener (l : Listener) (w : list Listener) : list Listener :=
  if existsb (listener_eqb l) w then w else w ++ [l].

(** [window.removeEventListener]. *)
Definition removeEventListener (l : Listener) (w : list Listener) : list Listener :=
  filter (fun x => negb (listener_eqb l x)) w.

End Dom.

(** The view transform of an editor surface. *)
Record ViewState := { view_x : Q; view_y : Q; view_scale : Q }.

Definition identityView : ViewState := {| view_x := 0; view_y := 0; view_scale := 1 |}.

(* ================================================================== *)
(** ** components/VSMEditor.tsx *)

Module VSMEditor.

Import Js Types Dom.
Local Open Scope Q_scope.

Record State := {
  data : VSMData;
  selectedStepId : option string;
  selectedConnectorId : option string;
  viewState : ViewState;
  isPanning : bool;
  lastMousePos : Point;
  hasPanningMoved : bool;
  draggedStepId : option string;
  dragOffset : Point;
  connectMode : option ConnectorType;
  connectionSource : option string
}.

Definition initialState (d : VSMData) : State :=
  {| data := d; selectedStepId := None; selectedConnectorId := None;
     viewState := identityView; isPanning := false;
     lastMousePos := {| px := 0; py := 0 |}; hasPanningMoved := false;
     draggedStepId := None; dragOffset := {| px := 0; py := 0 |};
     connectMode := None; connectionSource := None |}.

Definition GRID_SIZE : Q := 10.
Definition LADDER_Y : Q := 600.

Definition toLocalCoordinates (refs : Refs) (v : ViewState) (cx cy : Q) : Point :=
  match svgRect refs with
  | None => {| px := 0; py := 0 |}
  | Some rect =>
      {| px := (cx - px rect - view_x v) / view_scale v;
         py := (cy - py rect - view_y v) / view_scale v |}
  end.

Definition withSteps (d : VSMData) (l : list VSMStep) : VSMData :=
  {| steps := l; connectors := connectors d; totalLeadTime := totalLeadTime d;
     totalProcessTime := totalProcessTime d; efficiency := efficiency d;
     customerDemand := customerDemand d; availableTime := availableTime d |}.

Definition withConnectors (d : VSMData) (l : list VSMConnector) : VSMData :=
  {| steps := steps d; connectors := l; totalLeadTime := totalLeadTime d;
     totalProcessTime := totalProcessTime d; efficiency := efficiency d;
     customerDemand := customerDemand d; availableTime := availableTime d |}.

Definition moveStep (s : VSMStep) (x y : Q) : VSMStep :=
  {| step_id := step_id s; step_name := step_name s; step_role := step_role s;
     step_x := x; step_y := y; step_data := step_data s |}.

Definition isDragged (dragged : option string) (i : string) : bool :=
  match dragged with
  | Some d => String.eqb i d
  | None => false
  end.

Definition handleCanvasMouseDown (e : MouseEvent) (st : State) : State :=
  {| data := data st; selectedStepId := selectedStepId st;
     selectedConnectorId := selectedConnectorId st; viewState := viewState st;
     isPanning := true;
     lastMousePos := {| px := clientX e; py := clientY e |};
     hasPanningMoved := false;
     draggedStepId := draggedStepId st; dragOffset := dragOffset st;
     connectMode := connectMode st; connectionSource := connectionSource st |}.

Definition handleMouseMove (refs : Refs) (e : MouseEvent) (st : State) : State :=
  if isPanning st then
    let dx := clientX e - px (lastMousePos st) in
    let dy := clientY e - py (lastMousePos st) in
    let prev := viewState st in
    {| data := data st; selectedStepId := selectedStepId st;
       selectedConnectorId := selectedConnectorId st;
       viewState := {| view_x := view_x prev + dx; view_y := view_y prev + dy;
                       view_scale := view_scale prev |};
       isPanning := isPanning st;
       lastMousePos := {| px := clientX e; py := clientY e |};
       hasPanningMoved := true;
       draggedStepId := draggedStepId st; dragOffset := dragOffset st;
       connectMode := connectMode st; connectionSource := connectionSource st |}
  else if opt_str_truthy (draggedStepId st) then
    let local := toLocalCoordinates refs (viewState st) (clientX e) (clientY e) in
    let snappedX := Math_round ((px local - px (dragOffset st)) / GRID_SIZE) * GRID_SIZE in
    let snappedY := Math_round ((py local - py (dragOffset st)) / GRID_SIZE) * GRID_SIZE in
    {| data := withSteps (data st)
                 (map (fun s => if isDragged (draggedStepId st) (step_id s)
                                then moveStep s snappedX snappedY else s)
                      (steps (data st)));
       selectedStepId := selectedStepId st;
       selectedConnectorId := selectedConnectorId st; viewState := viewState st;
       isPanning := isPanning st; lastMousePos := lastMousePos st;
       hasPanningMoved := hasPanningMoved st;
       draggedStepId := draggedStepId st; dragOffset := dragOffset st;
       connectMode := connectMode st; connectionSource := connectionSource st |}
  else st.

Definition handleMouseUp (st : State) : State :=
  {| data := data st; selectedStepId := selectedStepId st;
     selectedConnectorId := selectedConnectorId st; viewState := viewState st;
     isPanning := false; lastMousePos := lastMousePos st;
     hasPanningMoved := hasPanningMoved st;
     draggedStepId := None; dragOffset := dragOffset st;
     connectMode := connectMode st; connectionSource := connectionSource st |}.

(** [fresh] is the value [crypto.randomUUID] returns if the handler creates
    a connector. *)
Definition handleNodeMouseDown (refs : Refs) (fresh : string) (e : MouseEvent)
    (stepId : string) (st : State) : State :=
  match connectMode st with
  | Some mode =>
      if opt_str_truthy (connectionSource st) then
        let src := match connectionSource st with Some s => s | None => EmptyString end in
        {| data := if negb (String.eqb src stepId)
                   then withConnectors (data st)
                          (connectors (data st)
                           ++ [{| conn_id := fresh; conn_source := src;
                                  conn_target := stepId; conn_type := mode |}])
                   else data st;
           selectedStepId := selectedStepId st;
           selectedConnectorId := selectedConnectorId st; viewState := viewState st;
           isPanning := isPanning st; lastMousePos := lastMousePos st;
           hasPanningMoved := hasPanningMoved st;
           draggedStepId := draggedStepId st; dragOffset := dragOffset st;
           connectMode := None; connectionSource := None |}
      else
        {| data := data st; selectedStepId := selectedStepId st;
           selectedConnectorId := selectedConnectorId st; viewState := viewState st;
           isPanning := isPanning st; lastMousePos := lastMousePos st;
           hasPanningMoved := hasPanningMoved st;
           draggedStepId := draggedStepId st; dragOffset := dragOffset st;
           connectMode := connectMode st; connectionSource := Some stepId |}
  | None =>
      let local := toLocalCoordinates refs (viewState st) (clientX e) (clientY e) in
      {| data := data st; selectedStepId := Some stepId;
         selectedConnectorId := None; viewState := viewState st;
         isPanning := isPanning st; lastMousePos := lastMousePos st;
         hasPanningMoved := hasPanningMoved st;
         draggedStepId := Some stepId;
         dragOffset := match find (fun s => String.eqb (step_id s) stepId) (steps (data st)) with
                       | Some step => {| px := px local - step_x step;
                                         py := py local - step_y step |}
                       | None => dragOffset st
                       end;
         connectMode := connectMode st; connectionSource := connectionSource st |}
  end.

Definition setViewState (v : ViewState) (st : State) : State :=
  {| data := data st; selectedStepId := selectedStepId st;
     selectedConnectorId := selectedConnectorId st; viewState := v;
     isPanning := isPanning st; lastMousePos := lastMousePos st;
     hasPanningMoved := hasPanningMoved st;
     draggedStepId := draggedStepId st; dragOffset := dragOffset st;
     connectMode := connectMode st; connectionSource := connectionSource st |}.

Definition handleFitView (refs : Refs) (st : State) : State :=
  match steps (data st) with
  | [] => setViewState {| view_x := 0; view_y := 0; view_scale := 1 |} st
  | s0 :: rest =>
      let padding := 50 in
      let minX := Math_min (step_x s0) (map step_x rest) in
      let maxX := Math_max (step_x s0) (map step_x rest) in
      let minY := Math_min (step_y s0) (map step_y rest) in
      let maxY := Math_max (step_y s0) (map step_y rest ++ [LADDER_Y + 100]) in
      let width := maxX - minX + 200 in
      let height := maxY - minY + 200 in
      match containerSize refs with
      | None => st
      | Some (clientWidth, clientHeight) =>
          let scaleX := clientWidth / (width + padding * 2) in
          let scaleY := clientHeight / (height + padding * 2) in
          let scale := Math_min scaleX [scaleY; 1] in
          setViewState
            {| view_x := (clientWidth - width * scale) / 2 - minX * scale + 50;
               view_y := (clientHeight - height * scale) / 2 - minY * scale + 50;
               view_scale := scale |} st
      end
  end.

(** *** Connector rendering *)

Definition getSnapRect (step : VSMStep) : Q * Q * Q * Q :=
  let (w, h) := match step_role step with
                | process => (120, 60)
                | supplier | customer => (90, 45)
                | production_control => (120, 40)
                | inventory => (30, 30)
                | kaizen => (50, 50)
                | transport => (40, 40)
                end in
  (step_x step, step_y step, w, h).

(** The end points x1, y1, x2, y2 of a connector. *)
Definition getConnectorPoints (source target : VSMStep) : Q * Q * Q * Q :=
  let '(sX, sY, sW, sH) := getSnapRect source in
  let '(tX, tY, tW, tH) := getSnapRect target in
  let dx := tX - sX in
  let dy := tY - sY in
  let horizontal := if Qlt_le_dec (Math_abs dy) (Math_abs dx) then true else false in
  let positive (d : Q) := if Qlt_le_dec 0 d then true else false in
  let (sx, sy) := if horizontal
                  then (if positive dx then sX + sW / 2 else sX - sW / 2, sY)
                  else (sX, if positive dy then sY + sH / 2 else sY - sH / 2) in
  let (tx, ty) := if horizontal
                  then (if positive dx then tX - tW / 2 else tX + tW / 2, tY)
                  else (tX, if positive dy then tY - tH / 2 else tY + tH / 2) in
  (sx, sy, tx, ty).

(** What [renderConnector] draws for a connector. *)
Record ConnectorView := {
  cv_key : string;
  cv_pathD : string;
  cv_stroke : string;
  cv_strokeWidth : Q;
  cv_markerEnd : string;
  cv_selected : bool
}.

Section Render.

Variable showNum : Q -> string.
Variable Math_sqrt : Q -> Q.

Local Open Scope string_scope.

Definition sp (x : Q) : string := " " ++ showNum x.

Definition lineTo (x1 y1 x2 y2 : Q) : string :=
  "M" ++ sp x1 ++ sp y1 ++ " L" ++ sp x2 ++ sp y2.

Definition renderConnector (st : State) (conn : VSMConnector) : option ConnectorView :=
  let d := data st in
  match find (fun s => String.eqb (step_id s) (conn_source conn)) (steps d),
        find (fun s => String.eqb (step_id s) (conn_target conn)) (steps d) with
  | Some source, Some target =>
      let '(x1, y1, x2, y2) := getConnectorPoints source target in
      let midX := (x1 + (x2 - x1) / 2)%Q in
      let midY := (y1 + (y2 - y1) / 2)%Q in
      let '(pathD, markerEnd, stroke, strokeWidth) :=
        match conn_type conn with
        | electronic =>
            let dx := (x2 - x1)%Q in
            let dy := (y2 - y1)%Q in
            let len := Math_sqrt (dx * dx + dy * dy)%Q in
            let pathD :=
              if Qlt_le_dec len 1 then lineTo x1 y1 x2 y2
              else
                let ux := (dx / len)%Q in
                let uy := (dy / len)%Q in
                let px_ := (- uy)%Q in
                let py_ := ux in
                let p1x := (midX - 12 * ux)%Q in
                let p1y := (midY - 12 * uy)%Q in
                let p2x := (midX - 4 * ux - 8 * px_)%Q in
                let p2y := (midY - 4 * uy - 8 * py_)%Q in
                let p3x := (midX + 4 * ux + 8 * px_)%Q in
                let p3y := (midY + 4 * uy + 8 * py_)%Q in
                let p4x := (midX + 12 * ux)%Q in
                let p4y := (midY + 12 * uy)%Q in
                "M" ++ sp x1 ++ sp y1 ++ " L" ++ sp p1x ++ sp p1y
                ++ " L" ++ sp p2x ++ sp p2y ++ " L" ++ sp p3x ++ sp p3y
                ++ " L" ++ sp p4x ++ sp p4y ++ " L" ++ sp x2 ++ sp y2 in
            (pathD, "url(#arrow-electronic)", "#3b82f6", 3%Q)
        | manual => (lineTo x1 y1 x2 y2, "url(#arrow-manual)", "#64748b", 3%Q)
        | push => (lineTo x1 y1 x2 y2, "url(#arrow-push)", "url(#push-stripes)", 6%Q)
        | pull => ("M" ++ sp x1 ++ sp y1 ++ " Q" ++ sp midX ++ sp (y1 + 50)%Q
                   ++ sp x2 ++ sp y2, "url(#arrow-pull)", "#64748b", 3%Q)
        | transport_link => (EmptyString, EmptyString, "#64748b", (3 # 2)%Q)
        end in
      let isSelected := match selectedConnectorId st with
                        | Some i => String.eqb (conn_id conn) i
                        | None => false
                        end in
      Some {| cv_key := conn_id conn; cv_pathD := pathD;
              cv_stroke := if isSelected then "#4f46e5" else stroke;
              cv_strokeWidth := strokeWidth; cv_markerEnd := markerEnd;
              cv_selected := isSelected |}
  | _, _ => None
  end.

(** The connectors drawn: React skips the [null] entries. *)
Definition renderConnectors (st : State) : list ConnectorView :=
  flat_map (fun conn => match renderConnector st conn with
                        | Some v => [v]
                        | None => []
                        end) (connectors (data st)).

End Render.

(** The pointer effect: its body registers the two handlers on the window,
    its clean-up removes them. [hMove] and [hUp] are the identities of the
    current [handleMouseMove] and [handleMouseUp] callbacks. *)
Definition pointerEffect (hMove hUp : nat) (w : list Listener) : list Listener :=
  addEventListener (mouseup, hUp) (addEventListener (mousemove, hMove) w).

Definition pointerCleanup (hMove hUp : nat) (w : list Listener) : list Listener :=
  removeEventListener (mouseup, hUp) (removeEventListener (mousemove, hMove) w).

(** *** The other handlers of the editor *)

Definition setData (d : VSMData) (st : State) : State :=
  {| data := d; selectedStepId := selectedStepId st;
     selectedConnectorId := selectedConnectorId st; viewState := viewState st;
     isPanning := isPanning st; lastMousePos := lastMousePos st;
     hasPanningMoved := hasPanningMoved st;
     draggedStepId := draggedStepId st; dragOffset := dragOffset st;
     connectMode := connectMode st; connectionSource := connectionSource st |}.

Definition setSelection (step conn : option string) (st : State) : State :=
  {| data := data st; selectedStepId := step;
     selectedConnectorId := conn; viewState := viewState st;
     isPanning := isPanning st; lastMousePos := lastMousePos st;
     hasPanningMoved := hasPanningMoved st;
     draggedStepId := draggedStepId st; dragOffset := dragOffset st;
     connectMode := connectMode st; connectionSource := connectionSource st |}.

Definition setConnectMode (mode : option ConnectorType) (st : State) : State :=
  {| data := data st; selectedStepId := selectedStepId st;
     selectedConnectorId := selectedConnectorId st; viewState := viewState st;
     isPanning := isPanning st; lastMousePos := lastMousePos st;
     hasPanningMoved := hasPanningMoved st;
     draggedStepId := draggedStepId st; dragOffset := dragOffset st;
     connectMode := mode; connectionSource := connectionSource st |}.

Definition stepCycleTime (s : VSMStep) : Q :=
  match step_data s with
  | Some d => opt_or_else (step_cycleTime d) 0
  | None => 0
  end.

Definition stepLeadTime (s : VSMStep) : Q :=
  match step_data s with
  | Some d => opt_or_else (step_leadTime d) 0
  | None => 0
  end.

Definition withTotals (d : VSMData) (pt lt : Q) : VSMData :=
  {| steps := steps d; connectors := connectors d; totalLeadTime := lt;
     totalProcessTime := pt; efficiency := efficiency d;
     customerDemand := customerDemand d; availableTime := availableTime d |}.

Definition totalPT (d : VSMData) : Q :=
  fold_left (fun acc s => acc + stepCycleTime s)
            (filter (fun s => role_is_process (step_role s)) (steps d)) 0.

Definition totalLT (d : VSMData) : Q :=
  fold_left (fun acc s => acc + stepLeadTime s) (steps d) 0.

(** The effect that keeps the two totals of the diagram up to date. *)
Definition recalculateTotals (isGenerating : bool) (st : State) : State :=
  if negb isGenerating then
    let d := data st in
    if negb (Qeq_bool (totalPT d) (totalProcessTime d))
       || negb (Qeq_bool (totalLT d) (totalLeadTime d))
    then setData (withTotals d (totalPT d) (totalLT d)) st
    else st
  else st.

Definition taktTime (d : VSMData) : Q :=
  if opt_truthy (availableTime d) && opt_truthy (customerDemand d)
  then Math_round (nullish (availableTime d) 0 / nullish (customerDemand d) 0)
  else 0.

Definition handleZoom (delta : Q) (st : State) : State :=
  let prev := viewState st in
  setViewState {| view_x := view_x prev; view_y := view_y prev;
                  view_scale := Qmax 0.2 (Qmin 3 (view_scale prev + delta)) |} st.

Definition handleWheel (deltaY : Q) (st : State) : State :=
  let delta := if Qlt_le_dec 0 deltaY then - 0.1 else 0.1 in
  handleZoom delta st.

Definition role_eqb (a b : VSMRole) : bool :=
  match a, b with
  | supplier, supplier | customer, customer | process, process
  | inventory, inventory | production_control, production_control
  | transport, transport | kaizen, kaizen => true
  | _, _ => false
  end.

Definition connectorType_eqb (a b : ConnectorType) : bool :=
  match a, b with
  | electronic, electronic | manual, manual | push, push | pull, pull
  | transport_link, transport_link => true
  | _, _ => false
  end.

Definition START_X : Q := 150.
Definition SPACING_X : Q := 220.
Definition TOP_Y : Q := 100.
Definition FLOW_Y : Q := 400.

(** The list [updates] that the auto layout builds. *)
Definition tidySteps (all : list VSMStep) : list VSMStep :=
  let suppliers := filter (fun s => role_eqb (step_role s) supplier) all in
  let customers := filter (fun s => role_eqb (step_role s) customer) all in
  let control := filter (fun s => role_eqb (step_role s) production_control) all in
  let flowSteps :=
    BpmnConverter.sortByX
      (filter (fun s => role_eqb (step_role s) process || role_eqb (step_role s) inventory)
              all) in
  let others :=
    filter (fun s => negb (existsb (role_eqb (step_role s))
                             [supplier; customer; production_control; process; inventory]))
           all in
  let updates1 := mapi (fun s i => moveStep s (START_X + num i * 150) TOP_Y) suppliers in
  let updates2 := mapi (fun s i => moveStep s (START_X + num i * SPACING_X) FLOW_Y)
                       flowSteps in
  let maxX := last (map step_x updates2) 0 in
  let custX := Qmax (maxX + 200) 800 in
  let updates3 := mapi (fun s i => moveStep s (custX + num i * 150) TOP_Y) customers in
  let updates4 :=
    match control with
    | [] => []
    | _ :: _ =>
        let centerX := (START_X + custX) / 2 in
        mapi (fun s i => moveStep s (centerX + num i * 150
                                     - (num (length control) - 1) * 75) TOP_Y)
             control
    end in
  let updates5 := mapi (fun s i => moveStep s (START_X + num i * 150) (FLOW_Y + 180)) others in
  updates1 ++ updates2 ++ updates3 ++ updates4 ++ updates5.

(** The auto layout. It also schedules a call of the [handleFitView] of the
    render in which it was created. *)
Definition handleTidyDiagram (st : State) : State :=
  setData (withSteps (data st) (tidySteps (steps (data st)))) st.

Definition handleConnectorClick (i : string) (st : State) : State :=
  setSelection None (Some i) st.

(** [c.id === selectedConnectorId] *)
Definition isSelected (selected : option string) (i : string) : bool :=
  match selected with
  | Some d => String.eqb i d
  | None => false
  end.

Definition handleToolbarTypeClick (t : ConnectorType) (st : State) : State :=
  if opt_str_truthy (selectedConnectorId st) then
    setData (withConnectors (data st)
               (map (fun c => if isSelected (selectedConnectorId st) (conn_id c)
                              then {| conn_id := conn_id c; conn_source := conn_source c;
                                      conn_target := conn_target c; conn_type := t |}
                              else c)
                    (connectors (data st)))) st
  else
    setConnectMode (match connectMode st with
                    | Some m => if connectorType_eqb m t then None else Some t
                    | None => Some t
                    end) st.




Definition handleDeleteSelection (st : State) : State :=
  if opt_str_truthy (selectedStepId st) then
    let sel := match selectedStepId st with Some i => i | None => EmptyString end in
    setSelection None (selectedConnectorId st)
      (setData
         {| steps := filter (fun s => negb (String.eqb (step_id s) sel)) (steps (data st));
            connectors := filter (fun c => negb (String.eqb (conn_source c) sel)
                                           && negb (String.eqb (conn_target c) sel))
                                 (connectors (data st));
            totalLeadTime := totalLeadTime (data st);
            totalProcessTime := totalProcessTime (data st);
            efficiency := efficiency (data st);
            customerDemand := customerDemand (data st);
            availableTime := availableTime (data st) |} st)
  else if opt_str_truthy (selectedConnectorId st) then
    let sel := match selectedConnectorId st with Some i => i | None => EmptyString end in
    setSelection (selectedStepId st) None
      (setData (withConnectors (data st)
                  (filter (fun c => negb (String.eqb (conn_id c) sel))
                          (connectors (data st)))) st)
  else st.

End VSMEditor.

(* ================================================================== *)
(** ** components/CMMNEditor.tsx *)

Module CMMNEditor.

Import Js Types Dom.
Local Open Scope Q_scope.

Record State := {
  data : CMMNModel;
  selectedNodeId : option string;
  selectedEdgeId : option string;
  viewState : ViewState;
  isPanning : bool;
  lastMousePos : Point;
  hasPanningMoved : bool;
  draggedNodeId : option string;
  dragOffset : Point;
  connectMode : option CMMNEdgeType;
  connectionSource : option string
}.

Definition initialState (d : CMMNModel) : State :=
  {| data := d; selectedNodeId := None; selectedEdgeId := None;
     viewState := identityView; isPanning := false;
     lastMousePos := {| px := 0; py := 0 |}; hasPanningMoved := false;
     draggedNodeId := None; dragOffset := {| px := 0; py := 0 |};
     connectMode := None; connectionSource := None |}.

Definition GRID_SIZE : Q := 10.

Definition toLocalCoordinates (refs : Refs) (v : ViewState) (cx cy : Q) : Point :=
  match svgRect refs with
  | None => {| px := 0; py := 0 |}
  | Some rect =>
      {| px := (cx - px rect - view_x v) / view_scale v;
         py := (cy - py rect - view_y v) / view_scale v |}
  end.

Definition moveNode (n : CMMNNode) (x y : Q) : CMMNNode :=
  {| cnode_id := cnode_id n; cnode_type := cnode_type n; cnode_label := cnode_label n;
     cnode_x := x; cnode_y := y;
     cnode_width := cnode_width n; cnode_height := cnode_height n |}.

Definition isDragged (dragged : option string) (i : string) : bool :=
  match dragged with
  | Some d => String.eqb i d
  | None => false
  end.

Definition handleCanvasMouseDown (e : MouseEvent) (st : State) : State :=
  if negb (Nat.eqb (button e) 0) then st
  else
    {| data := data st; selectedNodeId := selectedNodeId st;
       selectedEdgeId := selectedEdgeId st; viewState := viewState st;
       isPanning := true;
       lastMousePos := {| px := clientX e; py := clientY e |};
       hasPanningMoved := false;
       draggedNodeId := draggedNodeId st; dragOffset := dragOffset st;
       connectMode := connectMode st; connectionSource := connectionSource st |}.

Definition handleMouseMove (refs : Refs) (e : MouseEvent) (st : State) : State :=
  if isPanning st then
    let dx := clientX e - px (lastMousePos st) in
    let dy := clientY e - py (lastMousePos st) in
    let prev := viewState st in
    {| data := data st; selectedNodeId := selectedNodeId st;
       selectedEdgeId := selectedEdgeId st;
       viewState := {| view_x := view_x prev + dx; view_y := view_y prev + dy;
                       view_scale := view_scale prev |};
       isPanning := isPanning st;
       lastMousePos := {| px := clientX e; py := clientY e |};
       hasPanningMoved := true;
       draggedNodeId := draggedNodeId st; dragOffset := dragOffset st;
       connectMode := connectMode st; connectionSource := connectionSource st |}
  else if opt_str_truthy (draggedNodeId st) then
    let local := toLocalCoordinates refs (viewState st) (clientX e) (clientY e) in
    let snappedX := Math_round ((px local - px (dragOffset st)) / GRID_SIZE) * GRID_SIZE in
    let snappedY := Math_round ((py local - py (dragOffset st)) / GRID_SIZE) * GRID_SIZE in
    {| data := {| cmmn_nodes :=
                    map (fun n => if isDragged (draggedNodeId st) (cnode_id n)
                                  then moveNode n snappedX snappedY else n)
                        (cmmn_nodes (data st));
                  cmmn_edges := cmmn_edges (data st) |};
       selectedNodeId := selectedNodeId st;
       selectedEdgeId := selectedEdgeId st; viewState := viewState st;
       isPanning := isPanning st; lastMousePos := lastMousePos st;
       hasPanningMoved := hasPanningMoved st;
       draggedNodeId := draggedNodeId st; dragOffset := dragOffset st;
       connectMode := connectMode st; connectionSource := connectionSource st |}
  else st.

Definition handleMouseUp (st : State) : State :=
  {| data := data st; selectedNodeId := selectedNodeId st;
     selectedEdgeId := selectedEdgeId st; viewState := viewState st;
     isPanning := false; lastMousePos := lastMousePos st;
     hasPanningMoved := hasPanningMoved st;
     draggedNodeId := None; dragOffset := dragOffset st;
     connectMode := connectMode st; connectionSource := connectionSource st |}.

(** [fresh] is the value [crypto.randomUUID] returns if the handler creates
    an edge. *)
Definition handleNodeMouseDown (refs : Refs) (fresh : string) (e : MouseEvent)
    (i : string) (st : State) : State :=
  match connectMode st with
  | Some mode =>
      if opt_str_truthy (connectionSource st) then
        let src := match connectionSource st with Some s => s | None => EmptyString end in
        {| data := if negb (String.eqb src i)
                   then {| cmmn_nodes := cmmn_nodes (data st);
                           cmmn_edges := cmmn_edges (data st)
                                         ++ [{| cedge_id := fresh; cedge_source := src;
                                                cedge_target := i; cedge_type := mode |}] |}
                   else data st;
           selectedNodeId := selectedNodeId st;
           selectedEdgeId := selectedEdgeId st; viewState := viewState st;
           isPanning := isPanning st; lastMousePos := lastMousePos st;
           hasPanningMoved := hasPanningMoved st;
           draggedNodeId := draggedNodeId st; dragOffset := dragOffset st;
           connectMode := None; connectionSource := None |}
      else
        {| data := data st; selectedNodeId := selectedNodeId st;
           selectedEdgeId := selectedEdgeId st; viewState := viewState st;
           isPanning := isPanning st; lastMousePos := lastMousePos st;
           hasPanningMoved := hasPanningMoved st;
           draggedNodeId := draggedNodeId st; dragOffset := dragOffset st;
           connectMode := connectMode st; connectionSource := Some i |}
  | None =>
      let local := toLocalCoordinates refs (viewState st) (clientX e) (clientY e) in
      {| data := data st; selectedNodeId := Some i;
         selectedEdgeId := None; viewState := viewState st;
         isPanning := isPanning st; lastMousePos := lastMousePos st;
         hasPanningMoved := hasPanningMoved st;
         draggedNodeId := Some i;
         dragOffset := match find (fun n => String.eqb (cnode_id n) i) (cmmn_nodes (data st)) with
                       | Some node => {| px := px local - cnode_x node;
                                         py := py local - cnode_y node |}
                       | None => dragOffset st
                       end;
         connectMode := connectMode st; connectionSource := connectionSource st |}
  end.

Definition setViewState (v : ViewState) (st : State) : State :=
  {| data := data st; selectedNodeId := selectedNodeId st;
     selectedEdgeId := selectedEdgeId st; viewState := v;
     isPanning := isPanning st; lastMousePos := lastMousePos st;
     hasPanningMoved := hasPanningMoved st;
     draggedNodeId := draggedNodeId st; dragOffset := dragOffset st;
     connectMode := connectMode st; connectionSource := connectionSource st |}.

Definition handleFitView (refs : Refs) (st : State) : State :=
  match cmmn_nodes (data st), containerSize refs with
  | n0 :: rest, Some (clientWidth, clientHeight) =>
      let right n := cnode_x n + opt_or_else (cnode_width n) 120 in
      let bottom n := cnode_y n + opt_or_else (cnode_height n) 60 in
      let minX := Math_min (cnode_x n0) (map cnode_x rest) in
      let maxX := Math_max (right n0) (map right rest) in
      let minY := Math_min (cnode_y n0) (map cnode_y rest) in
      let maxY := Math_max (bottom n0) (map bottom rest) in
      let width := maxX - minX in
      let height := maxY - minY in
      let scale := Math_min (clientWidth / (width + 200)) [clientHeight / (height + 200); 1] in
      setViewState
        {| view_x := (clientWidth - width * scale) / 2 - minX * scale;
           view_y := (clientHeight - height * scale) / 2 - minY * scale;
           view_scale := scale |} st
  | _, _ => st
  end.

(** *** Edge rendering *)

Record LineView := {
  lv_key : string;
  lv_x1 : Q; lv_y1 : Q; lv_x2 : Q; lv_y2 : Q;
  lv_dash : string
}.

Definition renderEdge (st : State) (edge : CMMNEdge) : option LineView :=
  match find (fun n => String.eqb (cnode_id n) (cedge_source edge)) (cmmn_nodes (data st)),
        find (fun n => String.eqb (cnode_id n) (cedge_target edge)) (cmmn_nodes (data st)) with
  | Some s, Some t =>
      Some {| lv_key := cedge_id edge;
              lv_x1 := cnode_x s + opt_or_else (cnode_width s) 0 / 2;
              lv_y1 := cnode_y s + opt_or_else (cnode_height s) 0 / 2;
              lv_x2 := cnode_x t + opt_or_else (cnode_width t) 0 / 2;
              lv_y2 := cnode_y t + opt_or_else (cnode_height t) 0 / 2;
              lv_dash := match cedge_type edge with
                         | dependency => "5,5"%string
                         | association => EmptyString
                         end |}
  | _, _ => None
  end.

(** The lines drawn: React skips the [null] entries. *)
Definition renderEdges (st : State) : list LineView :=
  flat_map (fun edge => match renderEdge st edge with
                        | Some v => [v]
                        | None => []
                        end) (cmmn_edges (data st)).

Definition pointerEffect (hMove hUp : nat) (w : list Listener) : list Listener :=
  addEventListener (mouseup, hUp) (addEventListener (mousemove, hMove) w).

Definition pointerCleanup (hMove hUp : nat) (w : list Listener) : list Listener :=
  removeEventListener (mouseup, hUp) (removeEventListener (mousemove, hMove) w).

(** *** The other handlers of the editor *)

Definition setData (d : CMMNModel) (st : State) : State :=
  {| data := d; selectedNodeId := selectedNodeId st;
     selectedEdgeId := selectedEdgeId st; viewState := viewState st;
     isPanning := isPanning st; lastMousePos := lastMousePos st;
     hasPanningMoved := hasPanningMoved st;
     draggedNodeId := draggedNodeId st; dragOffset := dragOffset st;
     connectMode := connectMode st; connectionSource := connectionSource st |}.

Definition setSelection (node edge : option string) (st : State) : State :=
  {| data := data st; selectedNodeId := node;
     selectedEdgeId := edge; viewState := viewState st;
     isPanning := isPanning st; lastMousePos := lastMousePos st;
     hasPanningMoved := hasPanningMoved st;
     draggedNodeId := draggedNodeId st; dragOffset := dragOffset st;
     connectMode := connectMode st; connectionSource := connectionSource st |}.

Definition handleZoom (delta : Q) (st : State) : State :=
  let prev := viewState st in
  setViewState {| view_x := view_x prev; view_y := view_y prev;
                  view_scale := Qmax 0.2 (Qmin 3 (view_scale prev + delta)) |} st.





Definition deleteSelection (st : State) : State :=
  if opt_str_truthy (selectedNodeId st) then
    let sel := match selectedNodeId st with Some i => i | None => EmptyString end in
    setSelection None (selectedEdgeId st)
      (setData
         {| cmmn_nodes := filter (fun n => negb (String.eqb (cnode_id n) sel))
                                 (cmmn_nodes (data st));
            cmmn_edges := filter (fun e => negb (String.eqb (cedge_source e) sel)
                                           && negb (String.eqb (cedge_target e) sel))
                                 (cmmn_edges (data st)) |} st)
  else if opt_str_truthy (selectedEdgeId st) then
    let sel := match selectedEdgeId st with Some i => i | None => EmptyString end in
    setSelection (selectedNodeId st) None
      (setData {| cmmn_nodes := cmmn_nodes (data st);
                  cmmn_edges := filter (fun e => negb (String.eqb (cedge_id e) sel))
                                       (cmmn_edges (data st)) |} st)
  else st.

End CMMNEditor.

(* ================================================================== *)
(** ** The life of an editor component

    Both editors register their pointer handlers in an effect whose
    dependencies are the two handler callbacks. The effect runs when the
    component is mounted; whenever a render produces a callback of a new
    identity the clean-up of the previous run is executed and the effect runs
    again; the clean-up of the last run is executed when the component is
    removed. [handleMouseUp] is memoised without dependencies and keeps the
    identity [upId]; [handleMouseMove] is memoised on the interaction state
    and receives a new identity when that state changes. *)

Module Lifecycle.

Import Dom.

Inductive Event :=
| CanvasMouseDown (e : MouseEvent)
| NodeMouseDown (refs : Refs) (fresh : string) (e : MouseEvent) (i : string)
| FitView (refs : Refs)
| WindowMouseMove (refs : Refs) (e : MouseEvent)
| WindowMouseUp.

(** The window event through which an event reaches the component, if any. *)
Definition viaWindow (ev : Event) : option EventType :=
  match ev with
  | WindowMouseMove _ _ => Some mousemove
  | WindowMouseUp => Some mouseup
  | _ => None
  end.

Definition upId : nat := 0.

Section Component.

Variable UI : Type.
Variable handle : Event -> UI -> UI.
Variable effect cleanup : nat -> nat -> list Listener -> list Listener.

Record Component := {
  mounted : bool;
  ui : UI;
  moveId : nat;
  window : list Listener
}.

Definition unmountedComponent (init : UI) : Component :=
  {| mounted := false; ui := init; moveId := 0; window := [] |}.

Definition delivered (c : Component) (ev : Event) : Prop :=
  match viaWindow ev with
  | Some mousemove => In (mousemove, moveId c) (window c)
  | Some mouseup => In (mouseup, upId) (window c)
  | None => True
  end.

Definition mount (c : Component) : Component :=
  {| mounted := true; ui := ui c; moveId := moveId c;
     window := effect (moveId c) upId (window c) |}.

(** An event after which the handlers keep their identities. *)
Definition dispatchKeep (ev : Event) (c : Component) : Component :=
  {| mounted := true; ui := handle ev (ui c); moveId := moveId c; window := window c |}.

(** An event after which [handleMouseMove] is a new callback. *)
Definition dispatchRenew (ev : Event) (c : Component) : Component :=
  {| mounted := true; ui := handle ev (ui c); moveId := S (moveId c);
     window := effect (S (moveId c)) upId (cleanup (moveId c) upId (window c)) |}.

Definition unmount (c : Component) : Component :=
  {| mounted := false; ui := ui c; moveId := moveId c;
     window := cleanup (moveId c) upId (window c) |}.

Inductive step : Component -> Component -> Prop :=
| step_mount c : mounted c = false -> step c (mount c)
| step_keep c ev : mounted c = true -> delivered c ev -> step c (dispatchKeep ev c)
| step_renew c ev : mounted c = true -> delivered c ev -> step c (dispatchRenew ev c)
| step_unmount c : mounted c = true -> step c (unmount c).

Inductive reachable (init : UI) : Component -> Prop :=
| reach_start : reachable init (unmountedComponent init)
| reach_step c c' : reachable init c -> step c c' -> reachable init c'.

End Component.

Arguments mounted {UI} _.
Arguments ui {UI} _.
Arguments moveId {UI} _.
Arguments window {UI} _.

Definition vsmHandle (ev : Event) (st : VSMEditor.State) : VSMEditor.State :=
  match ev with
  | CanvasMouseDown e => VSMEditor.handleCanvasMouseDown e st
  | NodeMouseDown refs fresh e i => VSMEditor.handleNodeMouseDown refs fresh e i st
  | FitView refs => VSMEditor.handleFitView refs st
  | WindowMouseMove refs e => VSMEditor.handleMouseMove refs e st
  | WindowMouseUp => VSMEditor.handleMouseUp st
  end.

Definition cmmnHandle (ev : Event) (st : CMMNEditor.State) : CMMNEditor.State :=
  match ev with
  | CanvasMouseDown e => CMMNEditor.handleCanvasMouseDown e st
  | NodeMouseDown refs fresh e i => CMMNEditor.handleNodeMouseDown refs fresh e i st
  | FitView refs => CMMNEditor.handleFitView refs st
  | WindowMouseMove refs e => CMMNEditor.handleMouseMove refs e st
  | WindowMouseUp => CMMNEditor.handleMouseUp st
  end.

Definition vsmReachable (d : Types.VSMData) : Component VSMEditor.State -> Prop :=
  reachable VSMEditor.State vsmHandle VSMEditor.pointerEffect VSMEditor.pointerCleanup
            (VSMEditor.initialState d).

Definition cmmnReachable (d : Types.CMMNModel) : Component CMMNEditor.State -> Prop :=
  reachable CMMNEditor.State cmmnHandle CMMNEditor.pointerEffect CMMNEditor.pointerCleanup
            (CMMNEditor.initialState d).

(** The interaction state of an editor: no gesture in progress. *)
Definition vsmIdle (st : VSMEditor.State) : Prop :=
  VSMEditor.isPanning st = false /\ VSMEditor.draggedStepId st = None.

Definition cmmnIdle (st : CMMNEditor.State) : Prop :=
  CMMNEditor.isPanning st = false /\ CMMNEditor.draggedNodeId st = None.

End Lifecycle.

(* ================================================================== *)
(** ** App.tsx: derived project metrics *)

Module App.

Import Js Types.
Local Open Scope string_scope.
Local Open Scope Q_scope.

Definition metric (name : string) (value : Q) (unit : string) : MetricData :=
  {| metric_name := name; metric_value := value; metric_unit := unit;
     metric_trend := "stable"; metric_delta := 0 |}.

Definition vsmMetrics (data : ProjectData) : list MetricData :=
  match vsm data with
  | Some v =>
      match steps v with
      | [] => []
      | _ :: _ =>
          ([metric "Lead Time" (totalLeadTime v) "days";
            metric "Flow Efficiency" (or_else (efficiency v) 0) "%"]
           ++ if opt_truthy (customerDemand v) && opt_truthy (availableTime v)
              then let takt := Math_round (nullish (availableTime v) 0
                                           / nullish (customerDemand v) 0) in
                   [metric "Takt Time" takt "s"]
              else [])%list
      end
  | None => []
  end.

Definition nodeCycleTime (n : ProcessNode) : Q :=
  match node_metrics n with
  | Some m => opt_or_else (cycleTime m) 0
  | None => 0
  end.

Definition nodeCost (acc : Q) (n : ProcessNode) : Q :=
  match node_metrics n with
  | Some m => acc + opt_or_else (resourceCost m) 0 + opt_or_else (cost m) 0
  | None => acc + 0 + 0
  end.

Definition processMapMetrics (data : ProjectData) : list MetricData :=
  match processMap data with
  | Some pm =>
      match nodes pm with
      | [] => []
      | _ :: _ =>
          let totalCycle := fold_left (fun acc n => acc + nodeCycleTime n) (nodes pm) 0 in
          let totalCost := fold_left nodeCost (nodes pm) 0 in
          [metric "Designed Cycle Time" totalCycle "min";
           metric "Operating Cost" totalCost "USD"]
      end
  | None => []
  end.

(** [metrics.find(m => m.name === name)?.value] *)
Definition valueOf (metrics : list MetricData) (name : string) : option Q :=
  option_map metric_value (find (fun m => String.eqb (metric_name m) name) metrics).

Definition healthEff (metrics : list MetricData) : Q :=
  opt_or_else (valueOf metrics "Flow Efficiency") 50.

Definition healthCycle (metrics : list MetricData) : Q :=
  opt_or_else (valueOf metrics "Designed Cycle Time") 100.

Definition healthTakt (metrics : list MetricData) : Q :=
  opt_or_else (valueOf metrics "Takt Time") 100.

(** The two divisors of the health formula. *)
Definition taktDivisor (metrics : list MetricData) : Q := or_else (healthTakt metrics) 1.

Definition taktRatio (metrics : list MetricData) : Q :=
  Qmin 1.2 (healthCycle metrics * 60 / taktDivisor metrics).

Definition ratioDivisor (metrics : list MetricData) : Q := or_else (taktRatio metrics) 1.

(** The weighted formula before it is capped. *)
Definition healthFormula (metrics : list MetricData) : Q :=
  healthEff metrics * 0.4 + 100 * (1 / ratioDivisor metrics) * 0.6.

(** The formula is evaluated here in exact arithmetic. The program evaluates
    it in double precision, whose result can fall on the other side of a
    half, so that the rounded score of the program can differ from this one
    by one; what is stated of the score below does not depend on it. *)
Definition health (metrics : list MetricData) : Q := Math_round (healthFormula metrics).

Definition calculateDynamicMetrics (data : ProjectData) : list MetricData :=
  let metrics := (vsmMetrics data ++ processMapMetrics data)%list in
  if (2 <=? length metrics)%nat
  then metric "Process Health" (Qmin 100 (health metrics)) "Score" :: metrics
  else metrics.

End App.

(* ================================================================== *)
(** * Vocabulary of the properties and example inputs *)

Import Js Types.

(** *** The value-stream to execution-flow lift *)

Section VsmToBpmnTerms.

Import BpmnConverter.
Local Open Scope Q_scope.

Definition isProcessStep (s : VSMStep) : bool := role_is_process (step_role s).

Definition ascendingX (a b : VSMStep) : Prop := step_x a <= step_x b.

Definition taskId (s : VSMStep) : string := ("Task_" ++ step_id s)%string.

Definition ends (e : ProcessEdge) : string * string := (edge_source e, edge_target e).

(** The pairs that link [p] to the first element of [l] and every element of
    [l] to the next one. *)
Fixpoint chainPairs (p : string) (l : list string) : list (string * string) :=
  match l with
  | [] => []
  | a :: r => (p, a) :: chainPairs a r
  end.

End VsmToBpmnTerms.

(** *** Routing and cycle time *)

Section RoutingTerms.

Import BpmnConverter.
Local Open Scope Q_scope.







(** A process step with a cycle time of 90 seconds. *)
Definition timedData : VSMStepData :=
  {| step_cycleTime := Some 90; step_changeoverTime := Some 5; step_uptime := Some 95;
     step_inventoryCount := None; step_leadTime := None |}.

Definition timedStep : VSMStep :=
  {| step_id := "s1"; step_name := "Pack"; step_role := process;
     step_x := 40; step_y := 400; step_data := Some timedData |}.

Definition timedVsm : VSMData :=
  {| steps := [timedStep]; connectors := [];
     totalLeadTime := 0; totalProcessTime := 0; efficiency := 0;
     customerDemand := None; availableTime := None |}.

(** [r] is [q] rounded to two decimal places: a whole number of hundredths
    at distance at most half a hundredth from [q]. *)
Definition roundedTo2 (q r : Q) : Prop :=
  (exists n : Z, r == inject_Z n / 100) /\ Qabs (r - q) <= 1 # 200.

End RoutingTerms.

(** *** The scope lifts *)

Section ScopeLiftTerms.

Import BpmnConverter.
Local Open Scope Q_scope.

(** A step, node or edge without its identifiers. *)
Definition stepShape (s : VSMStep) : string * VSMRole * Q * Q * option VSMStepData :=
  (step_name s, step_role s, step_x s, step_y s, step_data s).

Definition nodeShape (n : ProcessNode) : NodeType * string * Q * Q * option Metrics :=
  (node_type n, node_label n, node_x n, node_y n, node_metrics n).

Definition vsmTotals (v : VSMData) : Q * Q * Q * option Q * option Q :=
  (totalLeadTime v, totalProcessTime v, efficiency v, customerDemand v, availableTime v).

Definition sipocExample : SIPOCData :=
  {| suppliers := ["Mill"%string]; inputs := ["Order"%string];
     process_steps := ["Receive Order"%string; "Pack"%string; "Ship"%string];
     outputs := ["Shipment"%string]; customers := ["Shop"%string] |}.

(** Two identifier sources: the n-th value starts with the n-th letter, lower
    case in the first source and upper case in the second. *)
Definition drawsA : nat -> string :=
  fun n => String (ascii_of_nat (97 + n)) "1c2d3e4-5f60-4a7b-8c9d-0e1f2a3b4c5d"%string.

Definition drawsB : nat -> string :=
  fun n => String (ascii_of_nat (65 + n)) "1c2d3e4-5f60-4a7b-8c9d-0e1f2a3b4c5d"%string.

(** Every draw is a non-empty string. *)
Definition nonEmptyDraws (c : nat -> string) : Prop := forall n, str_truthy (c n) = true.

(** The two sequences of draws agree from the given positions on. *)
Definition sameDraws (c1 c2 : nat -> string) (i1 i2 : nat) : Prop :=
  forall n, c1 (i1 + n)%nat = c2 (i2 + n)%nat.

Definition bpmnLoopRel (s1 s2 : BpmnLoop) : Prop :=
  map nodeShape (bl_nodes s1) = map nodeShape (bl_nodes s2)
  /\ map edge_label (bl_edges s1) = map edge_label (bl_edges s2)
  /\ bl_x s1 = bl_x s2.

Definition prevOr (o : option string) : string :=
  match o with
  | Some p => p
  | None => EmptyString
  end.

Definition connector (i src tgt : string) (t : ConnectorType) : VSMConnector :=
  {| conn_id := i; conn_source := src; conn_target := tgt; conn_type := t |}.

Definition vsmLoopRel (s1 s2 : VsmLoop) : Prop :=
  map stepShape (vl_steps s1) = map stepShape (vl_steps s2)
  /\ map conn_type (vl_connectors s1) = map conn_type (vl_connectors s2)
  /\ vl_x s1 = vl_x s2
  /\ opt_str_truthy (vl_prevProcessId s1) = opt_str_truthy (vl_prevProcessId s2).

(** What convertSipocToVsm does after the process loop. *)
Definition vsmFinish (c : nat -> string) (sipoc : SIPOCData) (st : VsmLoop) (j : nat)
  : VSMData * nat :=
  let steps2 := vl_steps st
                ++ [vsmStep (c j) (first_or (customers sipoc) "Customer") customer
                            (Qmax (vl_x st) 800) topY] in
  if opt_str_truthy (vl_prevProcessId st)
  then ({| steps := steps2;
           connectors := vl_connectors st
                         ++ [connector (c (S j)) (prevOr (vl_prevProcessId st)) (c j)
                                       transport_link];
           totalLeadTime := 0; totalProcessTime := 0; efficiency := 0;
           customerDemand := Some 100; availableTime := Some 27000 |}, S (S j))
  else ({| steps := steps2; connectors := vl_connectors st;
           totalLeadTime := 0; totalProcessTime := 0; efficiency := 0;
           customerDemand := Some 100; availableTime := Some 27000 |}, S j).

Definition vsmStart (c : nat -> string) (sipoc : SIPOCData) (i : nat) : VsmLoop :=
  {| vl_steps := [vsmStep (c i) (first_or (suppliers sipoc) "Supplier") supplier 100 topY;
                  vsmStep (c (S i)) "Production Control" production_control 450 topY];
     vl_connectors := []; vl_prevProcessId := None; vl_x := 100 |}.

End ScopeLiftTerms.

(** *** The wire export and dangling edges *)

Section WireExportTerms.

Import BpmnConverter.
Local Open Scope string_scope.

(** The identifier [i] names no node of the diagram. *)
Definition noNode (data : ProcessMap) (i : string) : Prop :=
  ~ In i (map node_id (nodes data)).

(** An edge one of whose ends names no node of the diagram. *)
Definition danglingEdge (data : ProcessMap) (edge : ProcessEdge) : Prop :=
  noNode data (edge_source edge) \/ noNode data (edge_target edge).

Definition danglingConnector (d : VSMData) (conn : VSMConnector) : Prop :=
  ~ In (conn_source conn) (map step_id (steps d))
  \/ ~ In (conn_target conn) (map step_id (steps d)).

Definition danglingCaseEdge (d : CMMNModel) (edge : CMMNEdge) : Prop :=
  ~ In (cedge_source edge) (map cnode_id (cmmn_nodes d))
  \/ ~ In (cedge_target edge) (map cnode_id (cmmn_nodes d)).

Definition withEdges (data : ProcessMap) (l : list ProcessEdge) : ProcessMap :=
  {| nodes := nodes data; edges := l; xml := xml data |}.

Definition plainNode (i label : string) : ProcessNode :=
  {| node_id := i; node_type := TASK; node_label := label;
     node_x := 0; node_y := 0; node_metrics := None |}.

Definition plainEdge (i src tgt : string) (label : option string) : ProcessEdge :=
  {| edge_id := i; edge_source := src; edge_target := tgt;
     edge_label := label; edge_probability := None |}.

(** A node whose label is [a], a double quote, [b]. *)
Definition quotedNode : ProcessNode := plainNode "n1" ("a" ++ dq ++ "b").

(** An edge whose label holds an ampersand and the two angle brackets. *)
Definition markupEdge : ProcessEdge := plainEdge "e1" "n1" "n1" (Some "a<b&c>").

(** A diagram with one node and one edge that leads to a missing node. *)
Definition danglingMap : ProcessMap :=
  {| nodes := [plainNode "n1" "A"];
     edges := [plainEdge "e1" "n1" "ghost" None];
     xml := None |}.

Definition danglingVsm : VSMData :=
  {| steps := [{| step_id := "s1"; step_name := "A"; step_role := process;
                  step_x := 0; step_y := 0; step_data := None |}];
     connectors := [{| conn_id := "c1"; conn_source := "s1"; conn_target := "ghost";
                       conn_type := push |}];
     totalLeadTime := 0; totalProcessTime := 0; efficiency := 0;
     customerDemand := None; availableTime := None |}.

Definition danglingCase : CMMNModel :=
  {| cmmn_nodes := [{| cnode_id := "k1"; cnode_type := CMMN_TASK; cnode_label := "A";
                       cnode_x := 0; cnode_y := 0;
                       cnode_width := None; cnode_height := None |}];
     cmmn_edges := [{| cedge_id := "d1"; cedge_source := "ghost"; cedge_target := "k1";
                       cedge_type := dependency |}] |}.

End WireExportTerms.

(** *** Snapping and fit to content *)

Section SnappingTerms.

Local Open Scope Q_scope.

(** [x] is a multiple of the grid size. *)
Definition onGrid (x : Q) : Prop := exists k : Z, x == inject_Z k * 10.

(** [x] is [raw] rounded to the nearest multiple of the grid size. *)
Definition snapOf (raw x : Q) : Prop := onGrid x /\ Qabs (x - raw) <= 5.

(** The position of the pointer in model space, less the grab offset. *)
Definition vsmRawPosition (refs : Dom.Refs) (e : Dom.MouseEvent) (st : VSMEditor.State)
  : Q * Q :=
  let local := VSMEditor.toLocalCoordinates refs (VSMEditor.viewState st)
                 (Dom.clientX e) (Dom.clientY e) in
  (Dom.px local - Dom.px (VSMEditor.dragOffset st),
   Dom.py local - Dom.py (VSMEditor.dragOffset st)).

Definition cmmnRawPosition (refs : Dom.Refs) (e : Dom.MouseEvent) (st : CMMNEditor.State)
  : Q * Q :=
  let local := CMMNEditor.toLocalCoordinates refs (CMMNEditor.viewState st)
                 (Dom.clientX e) (Dom.clientY e) in
  (Dom.px local - Dom.px (CMMNEditor.dragOffset st),
   Dom.py local - Dom.py (CMMNEditor.dragOffset st)).

Definition originRefs : Dom.Refs :=
  {| Dom.svgRect := Some {| Dom.px := 0; Dom.py := 0 |};
     Dom.containerSize := Some (800, 600) |}.

Definition pointerAt (x y : Q) : Dom.MouseEvent :=
  {| Dom.clientX := x; Dom.clientY := y; Dom.button := 0 |}.

Definition oneStep : VSMData :=
  {| steps := [{| step_id := "s1"; step_name := "A"; step_role := process;
                  step_x := 0; step_y := 0; step_data := None |}];
     connectors := [];
     totalLeadTime := 0; totalProcessTime := 0; efficiency := 0;
     customerDemand := None; availableTime := None |}.

(** The value-stream editor after the pointer went down on step s1 at the
    origin. *)
Definition draggingS1 : VSMEditor.State :=
  VSMEditor.handleNodeMouseDown originRefs "u" (pointerAt 0 0) "s1"
    (VSMEditor.initialState oneStep).

(** A pair of numbers in lowest terms. *)
Definition reduced (p : Q * Q) : Q * Q := (Qred (fst p), Qred (snd p)).

Definition positions (d : VSMData) : list (Q * Q) :=
  map (fun s => reduced (step_x s, step_y s)) (steps d).

(** Step s1 after the pointer moved to (13, 27) during the drag. *)
Definition movedS1 : VSMStep :=
  hd (VSMEditor.moveStep
        {| step_id := "s1"; step_name := "A"; step_role := process;
           step_x := 0; step_y := 0; step_data := None |} 0 0)
     (steps (VSMEditor.data
               (VSMEditor.handleMouseMove originRefs (pointerAt 13 27) draggingS1))).

Definition emptyCase : CMMNModel := {| cmmn_nodes := []; cmmn_edges := [] |}.

(** The case editor with an empty diagram after the surface was panned by
    (5, 7). *)
Definition pannedEmptyCase : CMMNEditor.State :=
  CMMNEditor.handleMouseUp
    (CMMNEditor.handleMouseMove originRefs (pointerAt 5 7)
       (CMMNEditor.handleCanvasMouseDown (pointerAt 0 0)
          (CMMNEditor.initialState emptyCase))).

End SnappingTerms.

(** *** Process health *)

Section ProcessHealthTerms.

Import App.
Local Open Scope string_scope.
Local Open Scope Q_scope.

(** The metrics to which the health score is added. *)
Definition baseMetrics (data : ProjectData) : list MetricData :=
  (vsmMetrics data ++ processMapMetrics data)%list.

(** A project with a fully efficient value stream and a one minute task. *)
Definition briskProject : ProjectData :=
  {| vsm := Some {| steps := [{| step_id := "s1"; step_name := "A"; step_role := process;
                                 step_x := 0; step_y := 0; step_data := None |}];
                    connectors := [];
                    totalLeadTime := 1; totalProcessTime := 60; efficiency := 100;
                    customerDemand := None; availableTime := None |};
     processMap := Some {| nodes := [{| node_id := "n1"; node_type := TASK;
                                        node_label := "A"; node_x := 0; node_y := 0;
                                        node_metrics :=
                                          Some {| cycleTime := Some 1; cost := None;
                                                  errorRate := None; waitingTime := None;
                                                  changeoverTime := None; uptime := None;
                                                  resourceCost := None |} |}];
                           edges := []; xml := None |} |}.

Definition briskHealth : MetricData :=
  hd (metric "none" 0 "none") (calculateDynamicMetrics briskProject).

(** A project whose value stream has one step, an available time of 2 and a
    customer demand of 7, and which has no process map. *)
Definition idleProject : ProjectData :=
  {| vsm := Some {| steps := [{| step_id := "s1"; step_name := "A"; step_role := process;
                                 step_x := 0; step_y := 0; step_data := None |}];
                    connectors := [];
                    totalLeadTime := 1; totalProcessTime := 60; efficiency := 80;
                    customerDemand := Some 7; availableTime := Some 2 |};
     processMap := None |}.

End ProcessHealthTerms.

(** *** Pointer listeners *)

Section ListenersTerms.

Import Dom Lifecycle.

(** The two pointer listeners of a component, and nothing else, are on the
    window. *)
Definition attached {UI : Type} (c : Component UI) : Prop :=
  window c = [(mousemove, moveId c); (mouseup, upId)].

Definition listenersFollowMount {UI : Type} (c : Component UI) : Prop :=
  (mounted c = true -> attached c) /\ (mounted c = false -> window c = []).

(** The value-stream editor just after it was mounted, and after a complete
    pan gesture: pointer down on the canvas, pointer up. *)
Definition vsmMounted : Component VSMEditor.State :=
  mount _ VSMEditor.pointerEffect (unmountedComponent _ (VSMEditor.initialState oneStep)).

Definition vsmPanning : Component VSMEditor.State :=
  dispatchRenew _ vsmHandle VSMEditor.pointerEffect VSMEditor.pointerCleanup
    (CanvasMouseDown (pointerAt 0 0)) vsmMounted.

Definition vsmAfterGesture : Component VSMEditor.State :=
  dispatchRenew _ vsmHandle VSMEditor.pointerEffect VSMEditor.pointerCleanup WindowMouseUp
    vsmPanning.

Definition cmmnMounted : Component CMMNEditor.State :=
  mount _ CMMNEditor.pointerEffect (unmountedComponent _ (CMMNEditor.initialState emptyCase)).

End ListenersTerms.

(** *** The import from the modelling widget *)

Section ImportBridgeTerms.

Import BpmnConverter.
Local Open Scope string_scope.

(** The type tags of the elements whose business object the import reads. *)
Definition readTypes : list string :=
  ["bpmn:Task"; "bpmn:UserTask"; "bpmn:ServiceTask"; "bpmn:StartEvent"; "bpmn:EndEvent";
   "bpmn:ExclusiveGateway"; "bpmn:InclusiveGateway"; "bpmn:SequenceFlow"].

Definition isRead (e : Element) : bool := existsb (String.eqb (el_type e)) readTypes.

(** A sequence flow one of whose two references is missing. *)
Definition isOpenFlow (e : Element) : bool :=
  String.eqb (el_type e) "bpmn:SequenceFlow"
  && match el_businessObject e with
     | Some bo =>
         match bo_sourceRef bo, bo_targetRef bo with
         | Some _, Some _ => false
         | _, _ => true
         end
     | None => false
     end.

(** What the import promises about the metrics of a node it creates. *)
Definition metricsRecovered (existingNodes : list ProcessNode) (n : ProcessNode) : Prop :=
  match node_type n with
  | GATEWAY => node_metrics n = None
  | _ => node_metrics n = Some (getMetrics existingNodes (node_id n))
  end.

(** The element and the sequence flow with which the modelling widget
    presents a node and an edge. *)
Definition elementTag (t : NodeType) : string :=
  match t with
  | START => "bpmn:StartEvent"
  | END => "bpmn:EndEvent"
  | GATEWAY => "bpmn:ExclusiveGateway"
  | TASK => "bpmn:Task"
  end.

Definition elementOf (n : ProcessNode) : Element :=
  {| el_type := elementTag (node_type n); el_x := node_x n; el_y := node_y n;
     el_businessObject :=
       Some {| bo_id := node_id n; bo_name := Some (node_label n);
               bo_sourceRef := None; bo_targetRef := None |} |}.

Definition flowOf (e : ProcessEdge) : Element :=
  {| el_type := "bpmn:SequenceFlow"; el_x := 0; el_y := 0;
     el_businessObject :=
       Some {| bo_id := edge_id e; bo_name := edge_label e;
               bo_sourceRef := Some {| ref_id := edge_source e |};
               bo_targetRef := Some {| ref_id := edge_target e |} |} |}.

Definition mirror (d : ProcessMap) : list Element :=
  (map elementOf (nodes d) ++ map flowOf (edges d))%list.

(** A node as the import can return it: a label that is not empty, metrics
    on every node but a gateway and none on a gateway. *)
Definition importable (n : ProcessNode) : Prop :=
  str_truthy (node_label n) = true
  /\ match node_type n with
     | GATEWAY => node_metrics n = None
     | _ => node_metrics n <> None
     end.

Definition importableMap (d : ProcessMap) : Prop :=
  NoDup (map node_id (nodes d))
  /\ Forall importable (nodes d)
  /\ Forall (fun e => edge_probability e = None) (edges d)
  /\ xml d = None.

(** A registry with a participant, a task that has lost its business object
    and a start event. *)
Definition brokenRegistry : list Element :=
  [{| el_type := "bpmn:Participant"; el_x := 0; el_y := 0; el_businessObject := None |};
   {| el_type := "bpmn:StartEvent"; el_x := 10; el_y := 20;
      el_businessObject := Some {| bo_id := "s"; bo_name := None;
                                   bo_sourceRef := None; bo_targetRef := None |} |};
   {| el_type := "bpmn:Task"; el_x := 100; el_y := 20; el_businessObject := None |}].

(** A start event, a gateway and a task with metrics, and two edges. *)
Definition reviewMap : ProcessMap :=
  {| nodes := [{| node_id := "a"; node_type := START; node_label := "Begin";
                  node_x := 50; node_y := 300; node_metrics := Some eventMetrics |};
               {| node_id := "g"; node_type := GATEWAY; node_label := "Ok?";
                  node_x := 200; node_y := 290; node_metrics := None |};
               {| node_id := "t"; node_type := TASK; node_label := "Review";
                  node_x := 350; node_y := 280;
                  node_metrics := Some {| cycleTime := Some 12; cost := Some 3;
                                          errorRate := None; waitingTime := Some 5;
                                          changeoverTime := None; uptime := None;
                                          resourceCost := Some 40 |} |}];
     edges := [{| edge_id := "f1"; edge_source := "a"; edge_target := "g";
                  edge_label := None; edge_probability := None |};
               {| edge_id := "f2"; edge_source := "g"; edge_target := "t";
                  edge_label := Some "yes"; edge_probability := None |}];
     xml := None |}.

End ImportBridgeTerms.

(** *** The text of the wire export *)

Section ExportTextTerms.

Import BpmnConverter.
Local Open Scope string_scope.

(** The text by which the export replaces one character of a node label. *)
Definition escapeChar (c : ascii) : string :=
  if Ascii.eqb c "&" then "&amp;"
  else if Ascii.eqb c "<" then "&lt;"
  else if Ascii.eqb c ">" then "&gt;"
  else String c EmptyString.

Fixpoint escapeText (s : string) : string :=
  match s with
  | EmptyString => EmptyString
  | String c r => escapeChar c ++ escapeText r
  end.

(** Reading the three entities back. *)
Fixpoint unescapeText (s : string) : string :=
  match s with
  | EmptyString => EmptyString
  | String c r =>
      if Ascii.eqb c "&" then
        match r with
        | String "a" (String "m" (String "p" (String ";" r'))) => String "&" (unescapeText r')
        | String "l" (String "t" (String ";" r')) => String "<" (unescapeText r')
        | String "g" (String "t" (String ";" r')) => String ">" (unescapeText r')
        | _ => String c (unescapeText r)
        end
      else String c (unescapeText r)
  end.

(** A text without ampersand and angle brackets. *)
Definition plainText (s : string) : Prop :=
  occurs "&" s = false /\ occurs "<" s = false /\ occurs ">" s = false.

End ExportTextTerms.

(** *** The structure of the lifted diagrams *)

Section LiftStructureTerms.

Import BpmnConverter.
Local Open Scope Q_scope.

(** The task nodes the loop of convertVsmToBpmn creates for the steps [l]
    when it starts at the abscissa [x]. *)
Fixpoint taskNodesFrom (x : Q) (l : list VSMStep) : list ProcessNode :=
  match l with
  | [] => []
  | s :: r => taskNode s x yFixed :: taskNodesFrom (x + 180) r
  end.

Fixpoint offsetAfter (x : Q) (l : list VSMStep) : Q :=
  match l with
  | [] => x
  | _ :: r => offsetAfter (x + 180) r
  end.

Definition packStep : VSMStep :=
  {| step_id := "b"; step_name := "Pack"; step_role := process;
     step_x := 300; step_y := 400; step_data := None |}.

(** A value-stream diagram with three process steps placed right to left
    and a supplier. *)
Definition shuffledVsm : VSMData :=
  {| steps := [{| step_id := "c"; step_name := "Ship"; step_role := process;
                  step_x := 500; step_y := 400; step_data := None |};
               {| step_id := "z"; step_name := "Mill"; step_role := supplier;
                  step_x := 100; step_y := 100; step_data := None |};
               packStep;
               {| step_id := "a"; step_name := "Receive"; step_role := process;
                  step_x := 100; step_y := 400; step_data := None |}];
     connectors := [];
     totalLeadTime := 0; totalProcessTime := 0; efficiency := 0;
     customerDemand := None; availableTime := None |}.

(** The ends of a connector. *)
Definition connEnds (c : VSMConnector) : string * string := (conn_source c, conn_target c).

(** The identifiers of the process steps of a list of steps. *)
Definition processIds (l : list VSMStep) : list string :=
  map step_id (filter isProcessStep l).

(** What the process loop of convertSipocToVsm keeps true of its variables. *)
Definition vsmLoopInv (c : nat -> string) (base : list VSMStep) (x0 : Q) (done : list string)
    (st : VsmLoop) : Prop :=
  map step_role (vl_steps st) = (map step_role base ++ repeat process (length done))%list
  /\ map step_name (vl_steps st) = (map step_name base ++ done)%list
  /\ Forall (fun s => step_data s = Some emptyStepData) (vl_steps st)
  /\ vl_x st == x0 + 200 * num (length done)
  /\ (forall j s, nth_error (vl_steps st) (length base + j) = Some s ->
                  step_x s == x0 + 200 * num j /\ step_y s = 400)
  /\ length (vl_steps st) = (length base + length done)%nat.

Definition vsmChainInv (st : VsmLoop) : Prop :=
  match processIds (vl_steps st) with
  | [] => vl_connectors st = [] /\ vl_prevProcessId st = None
  | p0 :: rest =>
      map connEnds (vl_connectors st) = chainPairs p0 rest
      /\ map conn_type (vl_connectors st) = repeat push (length rest)
      /\ vl_prevProcessId st = Some (last rest p0)
      /\ str_truthy (last rest p0) = true
  end.

(** The identifier the direct lift gives a task from the value drawn. *)
Definition sipocTaskId (u : string) : string := ("Task_" ++ substring 0 5 u)%string.

(** The task nodes and the edges the loop of convertSipocToBpmn creates for
    the names [l], when [i] is the position of the next draw, [x] the next
    abscissa and [prev] the identifier of the last node. *)
Fixpoint sipocTasksFrom (c : nat -> string) (i : nat) (x : Q) (l : list string)
  : list ProcessNode :=
  match l with
  | [] => []
  | p :: r => sipocNode (sipocTaskId (c i)) TASK p x sipocY
              :: sipocTasksFrom c (S i) (x + 180) r
  end.

Fixpoint sipocFlowsFrom (c : nat -> string) (i : nat) (prev : string) (l : list string)
  : list ProcessEdge :=
  match l with
  | [] => []
  | _ :: r => flowEdge prev (sipocTaskId (c i)) (Some EmptyString)
              :: sipocFlowsFrom c (S i) (sipocTaskId (c i)) r
  end.

(** What the process loop of convertSipocToVsm keeps true of the process
    steps it has made. *)
Definition vsmOrderInv (done : list string) (st : VsmLoop) : Prop :=
  StronglySorted ascendingX (filter isProcessStep (vl_steps st))
  /\ Forall (fun s => step_x s <= vl_x st) (filter isProcessStep (vl_steps st))
  /\ map step_name (filter isProcessStep (vl_steps st)) = done.

End LiftStructureTerms.

(** *** View geometry: zoom, pan, drag and fit *)

Section ViewGeometryTerms.

Local Open Scope Q_scope.

(** Where the surface draws the model point [p]: the group of the diagram
    is translated by the offsets of the view and then scaled, inside the svg
    element whose corner is [rect]. *)
Definition toScreen (rect : Dom.Point) (v : ViewState) (p : Q * Q) : Q * Q :=
  (Dom.px rect + (view_x v + view_scale v * fst p),
   Dom.py rect + (view_y v + view_scale v * snd p)).

(** The state of the value-stream editor after the pointer went down on the
    canvas at [e0] and then moved through the positions [moves]. *)
Definition vsmPan (refs : Dom.Refs) (e0 : Dom.MouseEvent) (moves : list Dom.MouseEvent)
    (st : VSMEditor.State) : VSMEditor.State :=
  fold_left (fun s e => VSMEditor.handleMouseMove refs e s) moves
            (VSMEditor.handleCanvasMouseDown e0 st).

Definition cmmnPan (refs : Dom.Refs) (e0 : Dom.MouseEvent) (moves : list Dom.MouseEvent)
    (st : CMMNEditor.State) : CMMNEditor.State :=
  fold_left (fun s e => CMMNEditor.handleMouseMove refs e s) moves
            (CMMNEditor.handleCanvasMouseDown e0 st).

(** The width and height the fit-to-content of the case editor gives a
    node. *)
Definition effectiveWidth (n : CMMNNode) : Q := opt_or_else (cnode_width n) 120.

Definition effectiveHeight (n : CMMNNode) : Q := opt_or_else (cnode_height n) 60.

(** A view scaled by a half and moved by (30, 40). *)
Definition halfView : ViewState := {| view_x := 30; view_y := 40; view_scale := 1 # 2 |}.

(** Two case nodes far apart. *)
Definition wideCase : CMMNModel :=
  {| cmmn_nodes := [{| cnode_id := "k1"; cnode_type := STAGE; cnode_label := "Intake";
                       cnode_x := -400; cnode_y := 0;
                       cnode_width := Some 220; cnode_height := Some 160 |};
                    {| cnode_id := "k2"; cnode_type := MILESTONE; cnode_label := "Paid";
                       cnode_x := 2000; cnode_y := 900;
                       cnode_width := None; cnode_height := None |}];
     cmmn_edges := [] |}.

End ViewGeometryTerms.

(** *** Editing: delete, connect, totals, new elements, auto layout *)

Section EditingTerms.

Local Open Scope string_scope.
Local Open Scope Q_scope.

(** Every connector of the value stream starts and ends at one of its
    steps. *)
Definition closedVsm (d : VSMData) : Prop :=
  forall c, In c (connectors d) ->
            (exists s, In s (steps d) /\ step_id s = conn_source c)
            /\ (exists s, In s (steps d) /\ step_id s = conn_target c).

(** Every edge of the case starts and ends at one of its nodes. *)
Definition closedCase (d : CMMNModel) : Prop :=
  forall e, In e (cmmn_edges d) ->
            (exists n, In n (cmmn_nodes d) /\ cnode_id n = cedge_source e)
            /\ (exists n, In n (cmmn_nodes d) /\ cnode_id n = cedge_target e).

(** What the auto layout leaves of a step: all but its position. *)
Definition stepIdentity (s : VSMStep) : string * string * VSMRole * option VSMStepData :=
  (step_id s, step_name s, step_role s, step_data s).

Definition isFlowStep (s : VSMStep) : bool :=
  VSMEditor.role_eqb (step_role s) process || VSMEditor.role_eqb (step_role s) inventory.

(** The group into which the auto layout puts a step: suppliers, flow
    steps, customers, production control, and the rest. *)
Definition layoutClass (r : VSMRole) : nat :=
  match r with
  | supplier => 0
  | process | inventory => 1
  | customer => 2
  | production_control => 3
  | transport | kaizen => 4
  end.

Definition inClass (j : nat) (s : VSMStep) : bool := Nat.eqb (layoutClass (step_role s)) j.

(** The placement the auto layout gives to its five groups, the flow steps
    being sorted already. *)
Definition place (suppliers flowSteps customers control others : list VSMStep)
  : list VSMStep :=
  let updates1 := mapi (fun s i => VSMEditor.moveStep s (VSMEditor.START_X + num i * 150)
                                     VSMEditor.TOP_Y) suppliers in
  let updates2 := mapi (fun s i => VSMEditor.moveStep s
                                     (VSMEditor.START_X + num i * VSMEditor.SPACING_X)
                                     VSMEditor.FLOW_Y) flowSteps in
  let maxX := last (map step_x updates2) 0 in
  let custX := Qmax (maxX + 200) 800 in
  let updates3 := mapi (fun s i => VSMEditor.moveStep s (custX + num i * 150)
                                     VSMEditor.TOP_Y) customers in
  let updates4 :=
    match control with
    | [] => []
    | _ :: _ =>
        let centerX := (VSMEditor.START_X + custX) / 2 in
        mapi (fun s i => VSMEditor.moveStep s (centerX + num i * 150
                                               - (num (length control) - 1) * 75)
                           VSMEditor.TOP_Y)
             control
    end in
  let updates5 := mapi (fun s i => VSMEditor.moveStep s (VSMEditor.START_X + num i * 150)
                                     (VSMEditor.FLOW_Y + 180)) others in
  (updates1 ++ updates2 ++ updates3 ++ updates4 ++ updates5)%list.

Definition deskStep (i : string) (role : VSMRole) (x y : Q) : VSMStep :=
  {| step_id := i; step_name := i; step_role := role; step_x := x; step_y := y;
     step_data := Some {| step_cycleTime := Some 30; step_changeoverTime := Some 0;
                          step_uptime := Some 100; step_inventoryCount := Some 0;
                          step_leadTime := Some 2 |} |}.

(** A value stream drawn out of order: a customer, two process steps with
    the later one first, a supplier and a kaizen burst, and two connectors. *)
Definition deskVsm : VSMData :=
  {| steps := [deskStep "cu" customer 10 10; deskStep "p2" process 700 55;
               deskStep "su" supplier 900 300; deskStep "p1" process 40 720;
               deskStep "kz" kaizen 5 5];
     connectors := [{| conn_id := "c1"; conn_source := "p1"; conn_target := "p2";
                       conn_type := push |};
                    {| conn_id := "c2"; conn_source := "su"; conn_target := "p1";
                       conn_type := manual |}];
     totalLeadTime := 0; totalProcessTime := 0; efficiency := 0;
     customerDemand := Some 100; availableTime := Some 27000 |}.

(** The editor on that value stream with step p1 selected. *)
Definition deskP1Selected : VSMEditor.State :=
  VSMEditor.setSelection (Some "p1") None (VSMEditor.initialState deskVsm).

Definition wideCaseLinked : CMMNModel :=
  {| cmmn_nodes := cmmn_nodes wideCase;
     cmmn_edges := [{| cedge_id := "e1"; cedge_source := "k1"; cedge_target := "k2";
                       cedge_type := dependency |}] |}.

Definition caseK1Selected : CMMNEditor.State :=
  CMMNEditor.setSelection (Some "k1") None (CMMNEditor.initialState wideCaseLinked).

End EditingTerms.

(** *** The derived metrics *)

Section DerivedMetricsTerms.

Import App.
Local Open Scope string_scope.
Local Open Scope Q_scope.

(** The value stream of the project has at least one step. *)
Definition hasSteps (data : ProjectData) : bool :=
  match vsm data with
  | Some v => match steps v with [] => false | _ :: _ => true end
  | None => false
  end.

(** The process map of the project has at least one node. *)
Definition hasNodes (data : ProjectData) : bool :=
  match processMap data with
  | Some pm => match nodes pm with [] => false | _ :: _ => true end
  | None => false
  end.

Definition metricNames (l : list MetricData) : list string := map metric_name l.

End DerivedMetricsTerms.

(** *** Drawing the connectors *)

Section DrawingTerms.

Local Open Scope string_scope.
Local Open Scope Q_scope.

(** Both ends of the connector are steps of the value stream. *)
Definition resolvable (d : VSMData) (c : VSMConnector) : bool :=
  existsb (fun s => String.eqb (step_id s) (conn_source c)) (steps d)
  && existsb (fun s => String.eqb (step_id s) (conn_target c)) (steps d).

(** Both ends of the edge are nodes of the case. *)
Definition resolvableEdge (d : CMMNModel) (e : CMMNEdge) : bool :=
  existsb (fun n => String.eqb (cnode_id n) (cedge_source e)) (cmmn_nodes d)
  && existsb (fun n => String.eqb (cnode_id n) (cedge_target e)) (cmmn_nodes d).

(** The two end points of a connector, exchanged. *)
Definition reversed (p : Q * Q * Q * Q) : Q * Q * Q * Q :=
  let '(x1, y1, x2, y2) := p in (x2, y2, x1, y1).

(** Two quadruples of numbers that are equal as numbers. *)
Definition samePoints (p q : Q * Q * Q * Q) : Prop :=
  let '(x1, y1, x2, y2) := p in
  let '(u1, v1, u2, v2) := q in
  x1 == u1 /\ y1 == v1 /\ x2 == u2 /\ y2 == v2.

End DrawingTerms.

(* ================================================================== *)
(** * Properties *)

(** ** The value-stream to execution-flow lift *)

Section VsmToBpmn.

Import BpmnConverter.
Local Open Scope Q_scope.

Lemma insertByX_perm s l : Permutation (insertByX s l) (s :: l).
Proof.
  induction l as [|t r IH]; simpl; [reflexivity|].
  destruct (Qle_bool (step_x s) (step_x t)); [reflexivity|].
  rewrite IH. apply perm_swap.
Qed.

Lemma sortByX_perm l : Permutation (sortByX l) l.
Proof.
  induction l as [|s r IH]; simpl; [constructor|].
  rewrite insertByX_perm. now constructor.
Qed.

Lemma insertByX_sorted s l :
  StronglySorted ascendingX l -> StronglySorted ascendingX (insertByX s l).
Proof.
  induction 1 as [|t r Hr IH Ht]; simpl.
  - repeat constructor.
  - destruct (Qle_bool (step_x s) (step_x t)) eqn:E.
    + apply Qle_bool_iff in E.
      constructor; [now constructor|].
      constructor; [exact E|].
      eapply Forall_impl; [|exact Ht].
      intros u Hu. unfold ascendingX in *. now apply Qle_trans with (step_x t).
    + assert (Hts : ascendingX t s).
      { unfold ascendingX. destruct (Qlt_le_dec (step_x t) (step_x s)) as [H|H].
        - now apply Qlt_le_weak.
        - apply Qle_bool_iff in H. congruence. }
      constructor; [exact IH|].
      eapply Permutation_Forall; [symmetry; apply insertByX_perm|].
      now constructor.
Qed.

Lemma sortByX_sorted l : StronglySorted ascendingX (sortByX l).
Proof.
  induction l as [|s r IH]; simpl; [constructor|].
  now apply insertByX_sorted.
Qed.

Lemma last_cons {A : Type} (a : A) (r : list A) (p : A) : last (a :: r) p = last r a.
Proof.
  revert a p. induction r as [|b r IH]; intros a p; [reflexivity|].
  change (last (a :: b :: r) p) with (last (b :: r) p).
  now rewrite !IH.
Qed.

Lemma taskLoop_ids l st :
  map node_id (tl_nodes (fold_left taskLoopBody l st))
  = map node_id (tl_nodes st) ++ map taskId l.
Proof.
  revert st. induction l as [|s r IH]; intros st; simpl.
  - now rewrite app_nil_r.
  - rewrite IH. simpl. rewrite map_app, <- app_assoc. reflexivity.
Qed.

Lemma taskLoop_types l st :
  map node_type (tl_nodes (fold_left taskLoopBody l st))
  = map node_type (tl_nodes st) ++ repeat TASK (length l).
Proof.
  revert st. induction l as [|s r IH]; intros st; simpl.
  - now rewrite app_nil_r.
  - rewrite IH. simpl. rewrite map_app, <- app_assoc. reflexivity.
Qed.

Lemma taskLoop_previous l st :
  tl_previousNodeId (fold_left taskLoopBody l st)
  = last (map taskId l) (tl_previousNodeId st).
Proof.
  revert st. induction l as [|s r IH]; intros st; simpl; [reflexivity|].
  rewrite IH. cbn [taskLoopBody tl_previousNodeId map].
  symmetry. apply (last_cons (taskId s)).
Qed.

Lemma taskLoop_ends l st :
  map ends (tl_edges (fold_left taskLoopBody l st))
  = map ends (tl_edges st) ++ chainPairs (tl_previousNodeId st) (map taskId l).
Proof.
  revert st. induction l as [|s r IH]; intros st; simpl.
  - now rewrite app_nil_r.
  - rewrite IH. simpl. rewrite map_app, <- app_assoc. reflexivity.
Qed.

Lemma chainPairs_snoc p l e :
  chainPairs p l ++ [(last l p, e)] = combine (p :: l) (l ++ [e]).
Proof.
  revert p. induction l as [|a r IH]; intros p; [reflexivity|].
  rewrite last_cons. cbn [chainPairs app combine].
  f_equal. apply IH.
Qed.

(** C1. For a value-stream diagram with k steps of role process, the lift
    returns k+2 nodes (the start event, one task per process step, the end
    event) and k+1 edges, the i-th edge leading from the i-th node to the
    next one; the tasks are the process steps in ascending order of x. *)
Theorem convertVsmToBpmn_linear_chain (vsm : VSMData) :
  let k := length (filter isProcessStep (steps vsm)) in
  let out := convertVsmToBpmn vsm in
  let ids := map node_id (nodes out) in
  exists tasks : list VSMStep,
    Permutation tasks (filter isProcessStep (steps vsm))
    /\ StronglySorted ascendingX tasks
    /\ ids = ("StartEvent_1"%string :: map taskId tasks) ++ ["EndEvent_1"%string]
    /\ map node_type (nodes out) = (START :: repeat TASK k) ++ [END]
    /\ length (nodes out) = (k + 2)%nat
    /\ length (edges out) = (k + 1)%nat
    /\ map ends (edges out) = combine (removelast ids) (tl ids).
Proof.
  intros k out ids.
  exists (processStepsOf vsm).
  assert (Hperm : Permutation (processStepsOf vsm) (filter isProcessStep (steps vsm)))
    by apply sortByX_perm.
  assert (Hlen : length (processStepsOf vsm) = k)
    by (now apply Permutation_length).
  assert (Hids : ids = ("StartEvent_1"%string :: map taskId (processStepsOf vsm))
                       ++ ["EndEvent_1"%string]).
  { unfold ids, out, convertVsmToBpmn. cbn [nodes].
    rewrite map_app, taskLoop_ids. reflexivity. }
  assert (Htypes : map node_type (nodes out) = (START :: repeat TASK k) ++ [END]).
  { unfold out, convertVsmToBpmn. cbn [nodes].
    rewrite map_app, taskLoop_types, Hlen. reflexivity. }
  split; [exact Hperm|].
  split; [apply sortByX_sorted|].
  split; [exact Hids|].
  split; [exact Htypes|].
  split.
  { rewrite <- (length_map node_type), Htypes, length_app. simpl.
    rewrite repeat_length. lia. }
  split.
  { rewrite <- (length_map ends). unfold out, convertVsmToBpmn. cbn [edges].
    rewrite map_app, taskLoop_ends, !length_app. simpl.
    assert (Hc : forall p l, length (chainPairs p l) = length l).
    { intros p l. revert p. induction l; intros; simpl; auto. }
    rewrite Hc, length_map, Hlen. lia. }
  rewrite Hids, removelast_last. cbn [tl app].
  rewrite <- chainPairs_snoc.
  unfold out, convertVsmToBpmn. cbn [edges].
  rewrite map_app, taskLoop_ends, taskLoop_previous. reflexivity.
Qed.

End VsmToBpmn.

(** ** Routing and cycle time *)

Section Routing.

Import BpmnConverter.
Local Open Scope Q_scope.



End Routing.

Section CycleTime.

Import BpmnConverter.
Local Open Scope Q_scope.

Lemma div100 (z : Q) : z / 100 == z * (1 # 100).
Proof. field. Qed.

Lemma toFixed2_rounded (q : Q) : roundedTo2 q (toFixed2 q).
Proof.
  unfold roundedTo2, toFixed2.
  destruct (Qle_bool 0 q) eqn:E.
  - pose proof (Qfloor_le (q * 100 + (1 # 2))) as H1.
    pose proof (Qlt_floor (q * 100 + (1 # 2))) as H2.
    rewrite inject_Z_plus in H2. change (inject_Z 1) with 1 in H2.
    set (n := Qfloor (q * 100 + (1 # 2))) in *.
    split; [exists n; reflexivity|].
    generalize dependent (inject_Z n). intros z H1 H2.
    rewrite div100. apply Qabs_Qle_condition. split; lra.
  - pose proof (Qfloor_le (- q * 100 + (1 # 2))) as H1.
    pose proof (Qlt_floor (- q * 100 + (1 # 2))) as H2.
    rewrite inject_Z_plus in H2. change (inject_Z 1) with 1 in H2.
    set (n := Qfloor (- q * 100 + (1 # 2))) in *.
    split; [exists (- n)%Z; rewrite inject_Z_opp; field|].
    generalize dependent (inject_Z n). intros z H1 H2.
    rewrite div100. apply Qabs_Qle_condition. split; lra.
Qed.

Lemma cycleTimeMin_rounded (step : VSMStep) (d : VSMStepData) (ct : Q) :
  step_data step = Some d -> step_cycleTime d = Some ct ->
  roundedTo2 (ct / 60) (cycleTimeMin step).
Proof.
  intros Hd Hct. unfold cycleTimeMin. rewrite Hd, Hct.
  unfold truthy. destruct (Qeq_bool ct 0) eqn:E; simpl.
  - apply Qeq_bool_iff in E. split; [exists 0%Z; reflexivity|].
    rewrite E. apply Qabs_Qle_condition. split; vm_compute; discriminate.
  - apply toFixed2_rounded.
Qed.

Lemma taskLoop_nodes_in step l st :
  In step l ->
  exists x, In (taskNode step x yFixed) (tl_nodes (fold_left taskLoopBody l st)).
Proof.
  revert st. induction l as [|s r IH]; intros st Hin; [contradiction|].
  destruct Hin as [->|Hin]; simpl.
  - exists (tl_xOffset st).
    assert (Hkeep : forall l' st' n, In n (tl_nodes st') ->
                                     In n (tl_nodes (fold_left taskLoopBody l' st'))).
    { induction l' as [|s' r' IH']; intros st' n Hn; simpl; [exact Hn|].
      apply IH'. simpl. apply in_or_app. now left. }
    apply Hkeep. simpl. apply in_or_app. right. now left.
  - now apply IH.
Qed.

(** C3. The task created for a process step carries, as cycle time, the
    cycle time of the step divided by 60 and rounded to two decimal places,
    and, as changeover time and uptime, the values of the step. *)
Theorem convertVsmToBpmn_task_metrics
    (vsm : VSMData) (step : VSMStep) (d : VSMStepData) (ct co up : Q) :
  In step (steps vsm) ->
  step_role step = process ->
  step_data step = Some d ->
  step_cycleTime d = Some ct ->
  step_changeoverTime d = Some co ->
  step_uptime d = Some up ->
  exists (node : ProcessNode) (m : Metrics) (r : Q),
    In node (nodes (convertVsmToBpmn vsm))
    /\ node_id node = taskId step
    /\ node_type node = TASK
    /\ node_label node = step_name step
    /\ node_metrics node = Some m
    /\ cycleTime m = Some r /\ roundedTo2 (ct / 60) r
    /\ changeoverTime m = Some co
    /\ uptime m = Some up.
Proof.
  intros Hin Hrole Hd Hct Hco Hup.
  assert (Hp : In step (processStepsOf vsm)).
  { unfold processStepsOf.
    eapply Permutation_in; [symmetry; apply sortByX_perm|].
    apply filter_In. split; [exact Hin|]. now rewrite Hrole. }
  destruct (taskLoop_nodes_in step (processStepsOf vsm)
              {| tl_nodes := [vsmStartNode]; tl_edges := [];
                 tl_previousNodeId := "StartEvent_1"; tl_xOffset := 150 + 150 |} Hp)
    as [x Hx].
  exists (taskNode step x yFixed). eexists. exists (cycleTimeMin step).
  split.
  { unfold convertVsmToBpmn. cbn [nodes]. apply in_or_app. left. exact Hx. }
  repeat (split; [reflexivity|]).
  split; [now apply (cycleTimeMin_rounded step d)|].
  split; cbn [changeoverTime uptime]; f_equal.
  - unfold stepChangeoverTime. now rewrite Hd, Hco.
  - unfold stepUptime. now rewrite Hd, Hup.
Qed.

Lemma convertVsmToBpmn_task_metrics_witness :
  exists (node : ProcessNode) (m : Metrics) (r : Q),
    In node (nodes (convertVsmToBpmn timedVsm))
    /\ node_id node = taskId timedStep
    /\ node_type node = TASK
    /\ node_label node = step_name timedStep
    /\ node_metrics node = Some m
    /\ cycleTime m = Some r /\ roundedTo2 (90 / 60) r
    /\ changeoverTime m = Some 5
    /\ uptime m = Some 95.
Proof.
  apply (convertVsmToBpmn_task_metrics timedVsm timedStep timedData 90 5 95).
  - left. reflexivity.
  - reflexivity.
  - reflexivity.
  - reflexivity.
  - reflexivity.
  - reflexivity.
Defined.

End CycleTime.

(** ** The scope lifts *)

Section ScopeLiftProperties.

Import BpmnConverter.
Local Open Scope Q_scope.

Lemma sameDraws_S c1 c2 i1 i2 : sameDraws c1 c2 i1 i2 -> sameDraws c1 c2 (S i1) (S i2).
Proof.
  intros H n. specialize (H (S n)). now rewrite !Nat.add_succ_r in H.
Qed.

Lemma sameDraws_head c1 c2 i1 i2 : sameDraws c1 c2 i1 i2 -> c1 i1 = c2 i2.
Proof.
  intros H. specialize (H 0%nat). now rewrite !Nat.add_0_r in H.
Qed.

Lemma foldM_cons {A S : Type} (body : S -> A -> Rand.M S) a r s i :
  Rand.foldM body (a :: r) s i
  = Rand.foldM body r (fst (body s a i)) (snd (body s a i)).
Proof.
  cbn [Rand.foldM]. unfold Rand.bind. now destruct (body s a i).
Qed.

(** *** The task loop of convertSipocToBpmn *)

Lemma bpmnLoopBody_run c st pName i :
  bpmnLoopBody c st pName i
  = ({| bl_nodes := bl_nodes st
                    ++ [sipocNode ("Task_" ++ substring 0 5 (c i)) TASK pName (bl_x st) sipocY];
        bl_edges := bl_edges st
                    ++ [flowEdge (bl_prevId st) ("Task_" ++ substring 0 5 (c i))
                                 (Some EmptyString)];
        bl_prevId := "Task_" ++ substring 0 5 (c i);
        bl_x := bl_x st + 180 |}, S i).
Proof. reflexivity. Qed.

Lemma bpmnLoop_rel c1 c2 l :
  forall s1 s2 i1 i2,
    bpmnLoopRel s1 s2 ->
    bpmnLoopRel (fst (Rand.foldM (bpmnLoopBody c1) l s1 i1))
                (fst (Rand.foldM (bpmnLoopBody c2) l s2 i2)).
Proof.
  induction l as [|p r IH]; intros s1 s2 i1 i2 HR; [exact HR|].
  rewrite !foldM_cons, !bpmnLoopBody_run. cbn [fst snd].
  apply IH. destruct HR as (Hn & He & Hx).
  unfold bpmnLoopRel. cbn [bl_nodes bl_edges bl_x].
  rewrite !map_app, Hn, He, Hx. repeat split.
Qed.

Lemma bpmnLoop_same c1 c2 l :
  forall s i1 i2,
    sameDraws c1 c2 i1 i2 ->
    fst (Rand.foldM (bpmnLoopBody c1) l s i1) = fst (Rand.foldM (bpmnLoopBody c2) l s i2).
Proof.
  induction l as [|p r IH]; intros s i1 i2 HS; [reflexivity|].
  rewrite !foldM_cons, !bpmnLoopBody_run. cbn [fst snd].
  rewrite (sameDraws_head _ _ _ _ HS).
  apply IH. now apply sameDraws_S.
Qed.

(** *** The process loop of convertSipocToVsm *)

Lemma vsmLoopBody_run c st pName i :
  vsmLoopBody c st pName i
  = if opt_str_truthy (vl_prevProcessId st)
    then ({| vl_steps := vl_steps st ++ [vsmStep (c i) pName process (vl_x st) processY];
             vl_connectors := vl_connectors st
                              ++ [connector (c (S i)) (prevOr (vl_prevProcessId st)) (c i) push];
             vl_prevProcessId := Some (c i);
             vl_x := vl_x st + 200 |}, S (S i))
    else ({| vl_steps := vl_steps st ++ [vsmStep (c i) pName process (vl_x st) processY];
             vl_connectors := vl_connectors st;
             vl_prevProcessId := Some (c i);
             vl_x := vl_x st + 200 |}, S i).
Proof.
  unfold vsmLoopBody, Rand.bind, Rand.ret, randomUUID.
  now destruct (opt_str_truthy (vl_prevProcessId st)).
Qed.

Lemma vsmLoop_rel c1 c2 l :
  nonEmptyDraws c1 -> nonEmptyDraws c2 ->
  forall s1 s2 i1 i2,
    vsmLoopRel s1 s2 ->
    vsmLoopRel (fst (Rand.foldM (vsmLoopBody c1) l s1 i1))
               (fst (Rand.foldM (vsmLoopBody c2) l s2 i2)).
Proof.
  intros N1 N2.
  induction l as [|p r IH]; intros s1 s2 i1 i2 HR; [exact HR|].
  rewrite !foldM_cons, !vsmLoopBody_run.
  destruct HR as (Hs & Hc & Hx & Hp). rewrite Hp.
  destruct (opt_str_truthy (vl_prevProcessId s2)); cbn [fst snd]; apply IH;
    unfold vsmLoopRel; cbn [vl_steps vl_connectors vl_x vl_prevProcessId opt_str_truthy];
    rewrite ?map_app, Hs, Hc, Hx, N1, N2; repeat split.
Qed.

Lemma vsmLoop_same c1 c2 l :
  forall s i1 i2,
    sameDraws c1 c2 i1 i2 ->
    fst (Rand.foldM (vsmLoopBody c1) l s i1) = fst (Rand.foldM (vsmLoopBody c2) l s i2)
    /\ sameDraws c1 c2 (snd (Rand.foldM (vsmLoopBody c1) l s i1))
                       (snd (Rand.foldM (vsmLoopBody c2) l s i2)).
Proof.
  induction l as [|p r IH]; intros s i1 i2 HS; [now split|].
  rewrite !foldM_cons, !vsmLoopBody_run.
  pose proof (sameDraws_head _ _ _ _ HS) as H0.
  pose proof (sameDraws_head _ _ _ _ (sameDraws_S _ _ _ _ HS)) as H1.
  destruct (opt_str_truthy (vl_prevProcessId s)); cbn [fst snd]; rewrite H0, ?H1;
    apply IH; auto using sameDraws_S.
Qed.

Lemma convertSipocToVsm_run c sipoc i :
  convertSipocToVsm c sipoc i
  = let r := Rand.foldM (vsmLoopBody c) (vsmProcessList sipoc) (vsmStart c sipoc i) (S (S i)) in
    vsmFinish c sipoc (fst r) (snd r).
Proof.
  unfold convertSipocToVsm, Rand.bind at 1 2. unfold randomUUID at 1 2.
  unfold Rand.bind at 1. cbn [app].
  change {| vl_steps := _; vl_connectors := []; vl_prevProcessId := None; vl_x := 100 |}
    with (vsmStart c sipoc i).
  destruct (Rand.foldM (vsmLoopBody c) (vsmProcessList sipoc) (vsmStart c sipoc i) (S (S i)))
    as [st j].
  cbn [fst snd]. unfold vsmFinish, Rand.bind, Rand.ret, randomUUID.
  now destruct (opt_str_truthy (vl_prevProcessId st)).
Qed.

Lemma convertSipocToBpmn_run c sipoc i :
  fst (convertSipocToBpmn c sipoc i)
  = let st := fst (Rand.foldM (bpmnLoopBody c) (bpmnProcessList sipoc)
                     {| bl_nodes := [sipocNode "StartEvent_SIPOC" START (startLabel sipoc)
                                               150 sipocY];
                        bl_edges := []; bl_prevId := "StartEvent_SIPOC";
                        bl_x := 150 + 180 |} i) in
    {| nodes := bl_nodes st ++ [sipocNode "EndEvent_SIPOC" END (endLabel sipoc) (bl_x st) sipocY];
       edges := bl_edges st ++ [flowEdge (bl_prevId st) "EndEvent_SIPOC" (Some EmptyString)];
       xml := None |}.
Proof.
  unfold convertSipocToBpmn, Rand.bind, Rand.ret.
  now destruct (Rand.foldM _ _ _ i).
Qed.

Lemma convertSipocToVsm_run_fst c sipoc i :
  fst (convertSipocToVsm c sipoc i)
  = fst (vsmFinish c sipoc
           (fst (Rand.foldM (vsmLoopBody c) (vsmProcessList sipoc) (vsmStart c sipoc i)
                   (S (S i))))
           (snd (Rand.foldM (vsmLoopBody c) (vsmProcessList sipoc) (vsmStart c sipoc i)
                   (S (S i))))).
Proof. now rewrite convertSipocToVsm_run. Qed.

Lemma convertSipocToVsm_same c1 c2 sipoc i1 i2 :
  sameDraws c1 c2 i1 i2 ->
  fst (convertSipocToVsm c1 sipoc i1) = fst (convertSipocToVsm c2 sipoc i2).
Proof.
  intros H. rewrite !convertSipocToVsm_run_fst.
  assert (E0 : vsmStart c1 sipoc i1 = vsmStart c2 sipoc i2).
  { unfold vsmStart.
    rewrite (sameDraws_head _ _ _ _ H), (sameDraws_head _ _ _ _ (sameDraws_S _ _ _ _ H)).
    reflexivity. }
  destruct (vsmLoop_same c1 c2 (vsmProcessList sipoc) (vsmStart c2 sipoc i2)
              (S (S i1)) (S (S i2))) as [E1 E2]; [auto using sameDraws_S|].
  rewrite E0, E1.
  unfold vsmFinish.
  rewrite (sameDraws_head _ _ _ _ E2), (sameDraws_head _ _ _ _ (sameDraws_S _ _ _ _ E2)).
  now destruct (opt_str_truthy _).
Qed.

Lemma convertSipocToVsm_shape c1 c2 sipoc i1 i2 :
  nonEmptyDraws c1 -> nonEmptyDraws c2 ->
  let v1 := fst (convertSipocToVsm c1 sipoc i1) in
  let v2 := fst (convertSipocToVsm c2 sipoc i2) in
  map stepShape (steps v1) = map stepShape (steps v2)
  /\ map conn_type (connectors v1) = map conn_type (connectors v2)
  /\ vsmTotals v1 = vsmTotals v2.
Proof.
  intros N1 N2. cbv zeta. rewrite !convertSipocToVsm_run_fst.
  destruct (vsmLoop_rel c1 c2 (vsmProcessList sipoc) N1 N2
              (vsmStart c1 sipoc i1) (vsmStart c2 sipoc i2) (S (S i1)) (S (S i2)))
    as (Hs & Hc & Hx & Hp); [repeat split|].
  unfold vsmFinish. rewrite Hp.
  match goal with |- context [if ?t then _ else _] => destruct t end;
    cbn [fst steps connectors]; rewrite ?map_app, Hs, Hc, Hx; repeat split.
Qed.

Lemma convertSipocToBpmn_shape c1 c2 sipoc i1 i2 :
  let b1 := fst (convertSipocToBpmn c1 sipoc i1) in
  let b2 := fst (convertSipocToBpmn c2 sipoc i2) in
  map nodeShape (nodes b1) = map nodeShape (nodes b2)
  /\ map edge_label (edges b1) = map edge_label (edges b2).
Proof.
  cbv zeta. rewrite !convertSipocToBpmn_run. cbv zeta.
  match goal with
  | |- context [Rand.foldM (bpmnLoopBody c1) ?l ?s i1] =>
      destruct (bpmnLoop_rel c1 c2 l s s i1 i2) as (Hn & He & Hx); [repeat split|]
  end.
  cbn [nodes edges]. rewrite !map_app, Hn, He. cbn [map nodeShape sipocNode node_x].
  rewrite Hx. split; reflexivity.
Qed.

Lemma convertSipocToBpmn_same c1 c2 sipoc i1 i2 :
  sameDraws c1 c2 i1 i2 ->
  fst (convertSipocToBpmn c1 sipoc i1) = fst (convertSipocToBpmn c2 sipoc i2).
Proof.
  intros H. rewrite !convertSipocToBpmn_run. cbv zeta.
  now rewrite (bpmnLoop_same c1 c2 _ _ i1 i2 H).
Qed.

(** C4, as stated, fails: two invocations of the direct scope lift on the
    same scope diagram return different diagrams when the identifier source
    returns different values. *)
Lemma convertSipocToBpmn_depends_on_draws :
  fst (convertSipocToBpmn drawsA sipocExample 0%nat)
  <> fst (convertSipocToBpmn drawsB sipocExample 0%nat).
Proof.
  intros H.
  apply (f_equal (fun m => map node_id (nodes m))) in H.
  vm_compute in H. discriminate H.
Qed.

(** C4, amended. The value-stream to execution-flow lift is a function of its
    source diagram alone. The two scope lifts take their source diagram and
    the values drawn from the identifier source, and nothing else: two
    invocations on the same scope diagram return diagrams that agree in
    everything except the generated identifiers, and are equal when the
    values drawn are the same. *)
Theorem lifts_deterministic_up_to_generated_ids
    (sipoc : SIPOCData) (c1 c2 : nat -> string) (i1 i2 : nat) :
  nonEmptyDraws c1 -> nonEmptyDraws c2 ->
  let v1 := fst (convertSipocToVsm c1 sipoc i1) in
  let v2 := fst (convertSipocToVsm c2 sipoc i2) in
  let b1 := fst (convertSipocToBpmn c1 sipoc i1) in
  let b2 := fst (convertSipocToBpmn c2 sipoc i2) in
  (forall vsm vsm', vsm = vsm' -> convertVsmToBpmn vsm = convertVsmToBpmn vsm')
  /\ map stepShape (steps v1) = map stepShape (steps v2)
  /\ map conn_type (connectors v1) = map conn_type (connectors v2)
  /\ vsmTotals v1 = vsmTotals v2
  /\ map nodeShape (nodes b1) = map nodeShape (nodes b2)
  /\ map edge_label (edges b1) = map edge_label (edges b2)
  /\ (sameDraws c1 c2 i1 i2 -> v1 = v2 /\ b1 = b2).
Proof.
  intros N1 N2 v1 v2 b1 b2.
  destruct (convertSipocToVsm_shape c1 c2 sipoc i1 i2 N1 N2) as (Hs & Hc & Ht).
  destruct (convertSipocToBpmn_shape c1 c2 sipoc i1 i2) as (Hn & He).
  split; [now intros ? ? ->|].
  split; [exact Hs|]. split; [exact Hc|]. split; [exact Ht|].
  split; [exact Hn|]. split; [exact He|].
  intros H. split.
  - now apply convertSipocToVsm_same.
  - now apply convertSipocToBpmn_same.
Qed.

Lemma lifts_deterministic_up_to_generated_ids_witness :
  map nodeShape (nodes (fst (convertSipocToBpmn drawsA sipocExample 0%nat)))
  = map nodeShape (nodes (fst (convertSipocToBpmn drawsB sipocExample 0%nat))).
Proof.
  refine (proj1 (proj2 (proj2 (proj2 (proj2
    (lifts_deterministic_up_to_generated_ids sipocExample drawsA drawsB 0%nat 0%nat _ _)))))).
  - intros n. reflexivity.
  - intros n. reflexivity.
Defined.

End ScopeLiftProperties.

(** ** The wire export and dangling edges *)

Section WireExport.

Import BpmnConverter.
Local Open Scope string_scope.

Lemma append_empty_r (s : string) : s ++ EmptyString = s.
Proof. induction s as [|a s IH]; simpl; [reflexivity|now rewrite IH]. Qed.

Lemma existsb_id_false {A : Type} (key : A -> string) (l : list A) (i : string) :
  ~ In i (map key l) -> existsb (fun n => String.eqb (key n) i) l = false.
Proof.
  induction l as [|a l IH]; intros H; simpl; [reflexivity|].
  simpl in H. destruct (String.eqb_spec (key a) i) as [E|E].
  - exfalso. apply H. now left.
  - apply IH. intros Hin. apply H. now right.
Qed.

Lemma find_id_none {A : Type} (key : A -> string) (l : list A) (i : string) :
  ~ In i (map key l) -> find (fun n => String.eqb (key n) i) l = None.
Proof.
  induction l as [|a l IH]; intros H; simpl; [reflexivity|].
  simpl in H. destruct (String.eqb_spec (key a) i) as [E|E].
  - exfalso. apply H. now left.
  - apply IH. intros Hin. apply H. now right.
Qed.

Lemma appendEach_drop {A : Type} (f : A -> string) (l1 l2 : list A) (a : A) (acc : string) :
  f a = EmptyString ->
  appendEach f (l1 ++ a :: l2)%list acc = appendEach f (l1 ++ l2)%list acc.
Proof.
  intros H. unfold appendEach. rewrite !fold_left_app. cbn [fold_left].
  now rewrite H, append_empty_r.
Qed.

Lemma sequenceFlowXml_dangling data edge :
  danglingEdge data edge -> sequenceFlowXml data edge = EmptyString.
Proof.
  intros [H|H]; unfold sequenceFlowXml, nodeExists.
  - now rewrite (existsb_id_false node_id _ _ H).
  - rewrite (existsb_id_false node_id _ _ H). now rewrite andb_false_r.
Qed.

Lemma edgeShapeXml_dangling showNum data edge :
  danglingEdge data edge -> edgeShapeXml showNum data edge = EmptyString.
Proof.
  intros [H|H]; unfold edgeShapeXml, findNode.
  - now rewrite (find_id_none node_id _ _ H).
  - rewrite (find_id_none node_id _ _ H). now destruct (find _ _).
Qed.

Lemma occurs_append (c : ascii) (s t : string) :
  occurs c (s ++ t) = occurs c s || occurs c t.
Proof.
  induction s as [|a s IH]; simpl; [reflexivity|].
  now rewrite IH, orb_assoc.
Qed.

Lemma replaceAll_removes (c : ascii) (by_ s : string) :
  occurs c by_ = false -> occurs c (replaceAll c by_ s) = false.
Proof.
  intros H. induction s as [|a s IH]; simpl; [reflexivity|].
  destruct (Ascii.eqb a c) eqn:E.
  - now rewrite occurs_append, H, IH.
  - simpl. now rewrite E, IH.
Qed.

Lemma replaceAll_keeps_absent (c d : ascii) (by_ s : string) :
  occurs c by_ = false -> occurs c s = false -> occurs c (replaceAll d by_ s) = false.
Proof.
  intros H. induction s as [|a s IH]; simpl; [reflexivity|].
  intros Hs. apply orb_false_elim in Hs. destruct Hs as [Ha Hs].
  destruct (Ascii.eqb a d).
  - now rewrite occurs_append, H, IH.
  - simpl. now rewrite Ha, IH.
Qed.

(** What each of the two label texts does escape: no angle bracket is left
    in the text of a node label, no double quote in that of an edge label. *)
Lemma sanitizedLabel_no_angle_bracket (label : string) :
  occurs "<" (sanitizedLabel label) = false /\ occurs ">" (sanitizedLabel label) = false.
Proof.
  unfold sanitizedLabel. split.
  - apply replaceAll_keeps_absent; [reflexivity|].
    now apply replaceAll_removes.
  - now apply replaceAll_removes.
Qed.

Lemma edgeLabelText_no_quote (label : string) :
  occurs "034" (edgeLabelText label) = false.
Proof. now apply replaceAll_removes. Qed.

(** C7. At a node whose label holds a double quote the export writes the
    quote unescaped into the name attribute, and at an edge whose label
    holds an ampersand and angle brackets it writes them unescaped. *)
Theorem export_leaves_reserved_characters :
  flowElementXml quotedNode
  = nl ++ "    <bpmn:task id=" ++ dq ++ "n1" ++ dq
       ++ " name=" ++ dq ++ "a" ++ dq ++ "b" ++ dq ++ " />"
  /\ occurs "034" (sanitizedLabel (node_label quotedNode)) = true
  /\ nameAttr markupEdge = " name=" ++ dq ++ "a<b&c>" ++ dq
  /\ occurs "&" (edgeLabelText "a<b&c>") = true
  /\ occurs "<" (edgeLabelText "a<b&c>") = true
  /\ occurs ">" (edgeLabelText "a<b&c>") = true.
Proof. repeat split; reflexivity. Qed.

(** C8. An edge one of whose ends names no node is dropped: the export
    appends nothing for it, neither a sequence flow nor an edge record, so
    that the exported text is that of the diagram without the edge; the
    value-stream editor and the case editor draw nothing for it. Every one of
    these functions is total. *)
Theorem dangling_edges_are_dropped :
  (forall (showNum : Q -> string) (crypto : nat -> string) (i : nat)
          (data : ProcessMap) (l1 l2 : list ProcessEdge) (edge : ProcessEdge),
      edges data = (l1 ++ edge :: l2)%list ->
      danglingEdge data edge ->
      sequenceFlowXml data edge = EmptyString
      /\ edgeShapeXml showNum data edge = EmptyString
      /\ jsonToBpmnXml showNum crypto data i
         = jsonToBpmnXml showNum crypto (withEdges data (l1 ++ l2)%list) i)
  /\ (forall (showNum : Q -> string) (Math_sqrt : Q -> Q)
             (st : VSMEditor.State) (conn : VSMConnector),
         danglingConnector (VSMEditor.data st) conn ->
         VSMEditor.renderConnector showNum Math_sqrt st conn = None)
  /\ (forall (st : CMMNEditor.State) (edge : CMMNEdge),
         danglingCaseEdge (CMMNEditor.data st) edge ->
         CMMNEditor.renderEdge st edge = None).
Proof.
  split; [|split].
  - intros showNum crypto i data l1 l2 edge Hedges Hd.
    pose proof (sequenceFlowXml_dangling data edge Hd) as H1.
    pose proof (edgeShapeXml_dangling showNum data edge Hd) as H2.
    split; [exact H1|]. split; [exact H2|].
    unfold jsonToBpmnXml, Rand.bind, Rand.ret, randomUUID.
    cbn [withEdges nodes edges]. rewrite Hedges. do 2 f_equal.
    rewrite (appendEach_drop (edgeShapeXml showNum data) l1 l2 edge _ H2).
    rewrite (appendEach_drop (sequenceFlowXml data) l1 l2 edge _ H1).
    reflexivity.
  - intros showNum Math_sqrt st conn [H|H]; unfold VSMEditor.renderConnector.
    + now rewrite (find_id_none step_id _ _ H).
    + rewrite (find_id_none step_id _ _ H). now destruct (find _ _).
  - intros st edge [H|H]; unfold CMMNEditor.renderEdge.
    + now rewrite (find_id_none cnode_id _ _ H).
    + rewrite (find_id_none cnode_id _ _ H). now destruct (find _ _).
Qed.

Lemma dangling_edges_are_dropped_witness :
  (sequenceFlowXml danglingMap (plainEdge "e1" "n1" "ghost" None) = EmptyString
   /\ edgeShapeXml (fun _ => "0") danglingMap (plainEdge "e1" "n1" "ghost" None) = EmptyString
   /\ jsonToBpmnXml (fun _ => "0") (fun _ => "u") danglingMap 0%nat
      = jsonToBpmnXml (fun _ => "0") (fun _ => "u") (withEdges danglingMap ([] ++ [])%list) 0%nat)
  /\ VSMEditor.renderConnector (fun _ => "0") (fun x => x)
       (VSMEditor.initialState danglingVsm)
       {| conn_id := "c1"; conn_source := "s1"; conn_target := "ghost"; conn_type := push |}
     = None
  /\ CMMNEditor.renderEdge (CMMNEditor.initialState danglingCase)
       {| cedge_id := "d1"; cedge_source := "ghost"; cedge_target := "k1";
          cedge_type := dependency |}
     = None.
Proof.
  destruct dangling_edges_are_dropped as (H1 & H2 & H3).
  split; [|split].
  - apply (H1 (fun _ => "0") (fun _ => "u") 0%nat danglingMap [] []); [reflexivity|].
    right. intros [H|[]]. discriminate H.
  - apply H2. right. intros [H|[]]. discriminate H.
  - apply H3. left. intros [H|[]]. discriminate H.
Defined.

End WireExport.

(** ** Snapping and fit to content *)

Section Snapping.

Local Open Scope Q_scope.

Lemma Math_round_snap (r : Q) : snapOf r (Math_round (r / 10) * 10).
Proof.
  unfold snapOf, onGrid, Math_round.
  pose proof (Qfloor_le (r / 10 + (1 # 2))) as H1.
  pose proof (Qlt_floor (r / 10 + (1 # 2))) as H2.
  rewrite inject_Z_plus in H2. change (inject_Z 1) with 1 in H2.
  split; [now exists (Qfloor (r / 10 + (1 # 2)))|].
  generalize dependent (inject_Z (Qfloor (r / 10 + (1 # 2)))). intros z H1 H2.
  assert (E : r / 10 == r * (1 # 10)) by field.
  rewrite E in H1, H2.
  apply Qabs_Qle_condition. split; lra.
Qed.

(** C5, as stated, fails: while step s1 is being dragged, a pointer move to
    (13, 27) puts the step at the snapped position (10, 30), not at the
    position of the pointer. *)
Lemma handleMouseMove_snaps_during_drag :
  VSMEditor.isPanning draggingS1 = false
  /\ VSMEditor.draggedStepId draggingS1 = Some "s1"%string
  /\ reduced (vsmRawPosition originRefs (pointerAt 13 27) draggingS1) = (13, 27)
  /\ positions (VSMEditor.data
                  (VSMEditor.handleMouseMove originRefs (pointerAt 13 27) draggingS1))
     = [(10, 30)].
Proof. repeat split; vm_compute; reflexivity. Qed.

(** C5, amended. In both editors every pointer move made while a node is
    being dragged puts the node at the pointer position, less the grab
    offset, rounded on each axis to the nearest multiple of 10; the end of
    the drag leaves the diagram as the last move left it. *)
Theorem drag_snaps_on_every_move :
  (forall (refs : Dom.Refs) (e : Dom.MouseEvent) (st : VSMEditor.State) (s : VSMStep),
      VSMEditor.isPanning st = false ->
      opt_str_truthy (VSMEditor.draggedStepId st) = true ->
      ~ view_scale (VSMEditor.viewState st) == 0 ->
      In s (steps (VSMEditor.data (VSMEditor.handleMouseMove refs e st))) ->
      VSMEditor.draggedStepId st = Some (step_id s) ->
      snapOf (fst (vsmRawPosition refs e st)) (step_x s)
      /\ snapOf (snd (vsmRawPosition refs e st)) (step_y s))
  /\ (forall st : VSMEditor.State,
         VSMEditor.data (VSMEditor.handleMouseUp st) = VSMEditor.data st)
  /\ (forall (refs : Dom.Refs) (e : Dom.MouseEvent) (st : CMMNEditor.State) (n : CMMNNode),
         CMMNEditor.isPanning st = false ->
         opt_str_truthy (CMMNEditor.draggedNodeId st) = true ->
         ~ view_scale (CMMNEditor.viewState st) == 0 ->
         In n (cmmn_nodes (CMMNEditor.data (CMMNEditor.handleMouseMove refs e st))) ->
         CMMNEditor.draggedNodeId st = Some (cnode_id n) ->
         snapOf (fst (cmmnRawPosition refs e st)) (cnode_x n)
         /\ snapOf (snd (cmmnRawPosition refs e st)) (cnode_y n))
  /\ (forall st : CMMNEditor.State,
         CMMNEditor.data (CMMNEditor.handleMouseUp st) = CMMNEditor.data st).
Proof.
  split; [|split; [reflexivity|split; [|reflexivity]]].
  - intros refs e st s Hpan Hdrag _ Hin Hid.
    unfold VSMEditor.handleMouseMove in Hin. rewrite Hpan, Hdrag in Hin.
    cbn [VSMEditor.data VSMEditor.withSteps steps] in Hin.
    apply in_map_iff in Hin. destruct Hin as (s0 & Hs & _).
    destruct (VSMEditor.isDragged (VSMEditor.draggedStepId st) (step_id s0)) eqn:E.
    + subst s. cbn [VSMEditor.moveStep step_x step_y]. unfold vsmRawPosition.
      cbn [fst snd]. unfold VSMEditor.GRID_SIZE. split; apply Math_round_snap.
    + subst s0. rewrite Hid in E. cbn in E. now rewrite String.eqb_refl in E.
  - intros refs e st n Hpan Hdrag _ Hin Hid.
    unfold CMMNEditor.handleMouseMove in Hin. rewrite Hpan, Hdrag in Hin.
    cbn [CMMNEditor.data cmmn_nodes] in Hin.
    apply in_map_iff in Hin. destruct Hin as (n0 & Hn & _).
    destruct (CMMNEditor.isDragged (CMMNEditor.draggedNodeId st) (cnode_id n0)) eqn:E.
    + subst n. cbn [CMMNEditor.moveNode cnode_x cnode_y]. unfold cmmnRawPosition.
      cbn [fst snd]. unfold CMMNEditor.GRID_SIZE. split; apply Math_round_snap.
    + subst n0. rewrite Hid in E. cbn in E. now rewrite String.eqb_refl in E.
Qed.

Lemma drag_snaps_on_every_move_witness :
  snapOf (fst (vsmRawPosition originRefs (pointerAt 13 27) draggingS1)) (step_x movedS1)
  /\ snapOf (snd (vsmRawPosition originRefs (pointerAt 13 27) draggingS1)) (step_y movedS1).
Proof.
  apply (proj1 drag_snaps_on_every_move originRefs (pointerAt 13 27) draggingS1 movedS1).
  - reflexivity.
  - reflexivity.
  - vm_compute. discriminate.
  - left. reflexivity.
  - reflexivity.
Defined.

End Snapping.

Section FitView.

Local Open Scope Q_scope.

(** C9, as stated, fails: in the case editor, fit-to-content on an empty
    diagram leaves a panned view as it is. *)
Lemma cmmn_handleFitView_keeps_view :
  cmmn_nodes (CMMNEditor.data pannedEmptyCase) = []
  /\ view_x (CMMNEditor.viewState (CMMNEditor.handleFitView originRefs pannedEmptyCase)) == 5
  /\ view_y (CMMNEditor.viewState (CMMNEditor.handleFitView originRefs pannedEmptyCase)) == 7
  /\ ~ view_x (CMMNEditor.viewState (CMMNEditor.handleFitView originRefs pannedEmptyCase))
        == view_x identityView.
Proof.
  split; [reflexivity|]. split; [reflexivity|]. split; [reflexivity|].
  vm_compute. discriminate.
Qed.

(** C9, amended. Fit-to-content on a diagram without nodes yields the
    identity view in the value-stream editor and leaves the view unchanged in
    the case editor. *)
Theorem handleFitView_without_nodes :
  (forall (refs : Dom.Refs) (st : VSMEditor.State),
      steps (VSMEditor.data st) = [] ->
      VSMEditor.viewState (VSMEditor.handleFitView refs st) = identityView)
  /\ (forall (refs : Dom.Refs) (st : CMMNEditor.State),
         cmmn_nodes (CMMNEditor.data st) = [] ->
         CMMNEditor.viewState (CMMNEditor.handleFitView refs st) = CMMNEditor.viewState st).
Proof.
  split; intros refs st H.
  - unfold VSMEditor.handleFitView. now rewrite H.
  - unfold CMMNEditor.handleFitView. now rewrite H.
Qed.

Lemma handleFitView_without_nodes_witness :
  VSMEditor.viewState
    (VSMEditor.handleFitView originRefs
       (VSMEditor.handleCanvasMouseDown (pointerAt 0 0)
          (VSMEditor.initialState
             {| steps := []; connectors := [];
                totalLeadTime := 0; totalProcessTime := 0; efficiency := 0;
                customerDemand := None; availableTime := None |})))
  = identityView
  /\ CMMNEditor.viewState (CMMNEditor.handleFitView originRefs pannedEmptyCase)
     = CMMNEditor.viewState pannedEmptyCase.
Proof.
  split.
  - apply (proj1 handleFitView_without_nodes). reflexivity.
  - apply (proj2 handleFitView_without_nodes). reflexivity.
Defined.

End FitView.

(** ** Process health *)

Section ProcessHealth.

Import App.
Local Open Scope string_scope.
Local Open Scope Q_scope.

Lemma or_else_nonzero (x : Q) : ~ or_else x 1 == 0.
Proof.
  unfold or_else, truthy. destruct (Qeq_bool x 0) eqn:E; simpl.
  - discriminate.
  - intros H. apply Qeq_bool_iff in H. congruence.
Qed.

Lemma baseMetrics_names data m :
  In m (baseMetrics data) -> metric_name m <> "Process Health".
Proof.
  unfold baseMetrics, vsmMetrics, processMapMetrics. intros H.
  apply in_app_or in H. destruct H as [H|H].
  - destruct (vsm data) as [v|]; [|contradiction].
    destruct (steps v); [contradiction|].
    apply in_app_or in H. destruct H as [[<-|[<-|[]]]|H]; try discriminate.
    destruct (_ && _); [|contradiction].
    destruct H as [<-|[]]. discriminate.
  - destruct (processMap data) as [pm|]; [|contradiction].
    destruct (nodes pm); [contradiction|].
    destruct H as [<-|[<-|[]]]; discriminate.
Qed.

Lemma or_else_kept (x d : Q) : ~ x == 0 -> or_else x d = x.
Proof.
  intros H. unfold or_else, truthy. destruct (Qeq_bool x 0) eqn:E; [|reflexivity].
  apply Qeq_bool_iff in E. contradiction.
Qed.

Lemma or_else_replaced (x d : Q) : x == 0 -> or_else x d = d.
Proof.
  intros H. unfold or_else, truthy. apply Qeq_bool_iff in H. now rewrite H.
Qed.

Lemma healthTakt_cases (ms : list MetricData) :
  ~ healthTakt ms == 0
  /\ (valueOf ms "Takt Time" = None -> healthTakt ms = 100)
  /\ (forall t, valueOf ms "Takt Time" = Some t -> t == 0 -> healthTakt ms = 100)
  /\ (forall t, valueOf ms "Takt Time" = Some t -> ~ t == 0 -> healthTakt ms = t).
Proof.
  unfold healthTakt. destruct (valueOf ms "Takt Time") as [t|]; cbn [opt_or_else].
  - destruct (Qeq_dec t 0) as [Z|N].
    + rewrite (or_else_replaced t 100 Z).
      split; [discriminate|]. split; [discriminate|].
      split; [reflexivity|]. intros t' [= <-] N. contradiction.
    + rewrite (or_else_kept t 100 N).
      split; [exact N|]. split; [discriminate|].
      split; [intros t' [= <-] Z; contradiction|]. now intros t' [= <-] _.
  - split; [discriminate|]. split; [reflexivity|]. split; discriminate.
Qed.

(** C10, as stated, fails: in a project whose value stream has an available
    time of 2 and a customer demand of 7 the Takt Time metric is 0, and the
    takt time by which the health computation divides is 100, not 1. *)
Lemma zero_takt_time_becomes_100 :
  option_map Qred (valueOf (baseMetrics idleProject) "Takt Time") = Some 0
  /\ Qred (healthTakt (baseMetrics idleProject)) = 100
  /\ Qred (taktDivisor (baseMetrics idleProject)) = 100
  /\ ~ taktDivisor (baseMetrics idleProject) == 1.
Proof.
  split; [vm_compute; reflexivity|]. split; [vm_compute; reflexivity|].
  split; [vm_compute; reflexivity|]. vm_compute. discriminate.
Qed.

(** C10, amended. A Process Health entry among the derived metrics has a
    whole number of at most 100 as its value, although the weighted formula
    behind it can exceed 100, and neither of the two divisors of the formula
    is zero. The takt time that enters the formula is 100 when the Takt Time
    metric is missing or zero and the metric otherwise, so it is never zero
    and the replacement of a zero takt time by 1 never takes effect; the
    takt ratio is at most 1.2, and the formula divides by it unless it is
    zero, and by 1 then. *)
Theorem process_health_capped_and_division_safe (data : ProjectData) (m : MetricData) :
  In m (calculateDynamicMetrics data) ->
  metric_name m = "Process Health" ->
  metric_value m <= 100
  /\ (exists k : Z, metric_value m == inject_Z k)
  /\ 100 < healthFormula (baseMetrics briskProject)
  /\ ~ taktDivisor (baseMetrics data) == 0
  /\ ~ ratioDivisor (baseMetrics data) == 0
  /\ (valueOf (baseMetrics data) "Takt Time" = None -> taktDivisor (baseMetrics data) = 100)
  /\ (forall t, valueOf (baseMetrics data) "Takt Time" = Some t -> t == 0 ->
                taktDivisor (baseMetrics data) = 100)
  /\ (forall t, valueOf (baseMetrics data) "Takt Time" = Some t -> ~ t == 0 ->
                taktDivisor (baseMetrics data) = t)
  /\ taktDivisor (baseMetrics data) = healthTakt (baseMetrics data)
  /\ taktRatio (baseMetrics data) <= 1.2
  /\ ((taktRatio (baseMetrics data) == 0 /\ ratioDivisor (baseMetrics data) = 1)
      \/ (~ taktRatio (baseMetrics data) == 0
          /\ ratioDivisor (baseMetrics data) = taktRatio (baseMetrics data))).
Proof.
  intros Hin Hname.
  assert (Hm : m = metric "Process Health"
                     (Qmin 100 (health (baseMetrics data))) "Score").
  { unfold calculateDynamicMetrics in Hin. fold (baseMetrics data) in Hin.
    destruct (2 <=? length (baseMetrics data))%nat.
    - destruct Hin as [<-|Hin]; [reflexivity|].
      exfalso. exact (baseMetrics_names data m Hin Hname).
    - exfalso. exact (baseMetrics_names data m Hin Hname). }
  subst m. cbn [metric metric_value].
  destruct (healthTakt_cases (baseMetrics data)) as (T0 & T1 & T2 & T3).
  assert (TD : taktDivisor (baseMetrics data) = healthTakt (baseMetrics data))
    by (unfold taktDivisor; now apply or_else_kept).
  split; [apply Q.le_min_l|].
  split.
  { unfold health, Math_round.
    destruct (Q.min_dec 100 (inject_Z (Qfloor (healthFormula (baseMetrics data) + (1 # 2)))))
      as [E|E]; [exists 100%Z; exact E|eexists; exact E]. }
  split; [vm_compute; reflexivity|].
  split; [apply or_else_nonzero|]. split; [apply or_else_nonzero|].
  split; [intros H; rewrite TD; now apply T1|].
  split; [intros t H Z; rewrite TD; now apply (T2 t)|].
  split; [intros t H N; rewrite TD; now apply (T3 t)|].
  split; [exact TD|].
  split; [unfold taktRatio; apply Q.le_min_l|].
  unfold ratioDivisor. destruct (Qeq_dec (taktRatio (baseMetrics data)) 0) as [Z|N].
  - left. split; [exact Z|now apply or_else_replaced].
  - right. split; [exact N|now apply or_else_kept].
Qed.

Lemma process_health_capped_and_division_safe_witness :
  metric_value briskHealth <= 100.
Proof.
  apply (process_health_capped_and_division_safe briskProject briskHealth).
  - left. reflexivity.
  - reflexivity.
Defined.

End ProcessHealth.

(** ** Pointer listeners *)

Section Listeners.

Import Dom Lifecycle.

Section Generic.

Variable UI : Type.
Variable handle : Event -> UI -> UI.
Variable effect cleanup : nat -> nat -> list Listener -> list Listener.

Hypothesis effect_fresh :
  forall m, effect m upId [] = [(mousemove, m); (mouseup, upId)].
Hypothesis cleanup_own :
  forall m, cleanup m upId [(mousemove, m); (mouseup, upId)] = [].

Lemma step_listenersFollowMount (c c' : Component UI) :
  step UI handle effect cleanup c c' ->
  listenersFollowMount c -> listenersFollowMount c'.
Proof.
  intros Hstep [Hon Hoff].
  destruct Hstep as [c Hm|c ev Hm _|c ev Hm _|c Hm]; split; cbn; intros H;
    try discriminate H; unfold attached; cbn.
  - rewrite (Hoff Hm). apply effect_fresh.
  - exact (Hon Hm).
  - rewrite (Hon Hm), cleanup_own. apply effect_fresh.
  - rewrite (Hon Hm). apply cleanup_own.
Qed.

Lemma reachable_listenersFollowMount (init : UI) (c : Component UI) :
  reachable UI handle effect cleanup init c -> listenersFollowMount c.
Proof.
  induction 1 as [|c c' _ IH Hstep].
  - split; cbn; [discriminate|reflexivity].
  - exact (step_listenersFollowMount c c' Hstep IH).
Qed.

End Generic.

Lemma vsmMounted_reachable : vsmReachable oneStep vsmMounted.
Proof.
  eapply reach_step; [apply reach_start|]. now apply step_mount.
Qed.

Lemma vsmAfterGesture_reachable : vsmReachable oneStep vsmAfterGesture.
Proof.
  apply (reach_step _ _ _ _ _ vsmPanning vsmAfterGesture).
  - apply (reach_step _ _ _ _ _ vsmMounted vsmPanning); [exact vsmMounted_reachable|].
    exact (step_renew _ _ _ _ vsmMounted (CanvasMouseDown (pointerAt 0 0)) eq_refl I).
  - exact (step_renew _ _ _ _ vsmPanning WindowMouseUp eq_refl
             (or_intror (or_introl eq_refl))).
Qed.

Lemma pointerEffect_fresh (m : nat) :
  addEventListener (mouseup, upId) (addEventListener (mousemove, m) [])
  = [(mousemove, m); (mouseup, upId)].
Proof. reflexivity. Qed.

Lemma pointerCleanup_own (m : nat) :
  removeEventListener (mouseup, upId)
    (removeEventListener (mousemove, m) [(mousemove, m); (mouseup, upId)]) = [].
Proof.
  unfold removeEventListener, listener_eqb. cbn. now rewrite Nat.eqb_refl.
Qed.

(** C6, as stated, fails: the value-stream editor has both listeners on the
    window as soon as it is mounted, and still has them after a complete
    gesture, although no gesture is in progress in either state. *)
Lemma listeners_attached_while_idle :
  vsmReachable oneStep vsmMounted
  /\ vsmIdle (ui vsmMounted)
  /\ window vsmMounted = [(mousemove, 0%nat); (mouseup, 0%nat)]
  /\ vsmReachable oneStep vsmAfterGesture
  /\ vsmIdle (ui vsmAfterGesture)
  /\ window vsmAfterGesture = [(mousemove, 2%nat); (mouseup, 0%nat)].
Proof.
  split; [exact vsmMounted_reachable|]. split; [now split|]. split; [reflexivity|].
  split; [exact vsmAfterGesture_reachable|]. split; [now split|reflexivity].
Qed.

(** C6, amended. In both editors the two pointer listeners are on the
    window for as long as the component is mounted, whatever the interaction
    state, and no listener of the component is left once it is removed. *)
Theorem pointer_listeners_follow_mount :
  (forall (d : VSMData) (c : Component VSMEditor.State),
      vsmReachable d c -> listenersFollowMount c)
  /\ (forall (d : CMMNModel) (c : Component CMMNEditor.State),
         cmmnReachable d c -> listenersFollowMount c).
Proof.
  split; intros d c H.
  - exact (reachable_listenersFollowMount _ vsmHandle VSMEditor.pointerEffect
             VSMEditor.pointerCleanup pointerEffect_fresh pointerCleanup_own _ c H).
  - exact (reachable_listenersFollowMount _ cmmnHandle CMMNEditor.pointerEffect
             CMMNEditor.pointerCleanup pointerEffect_fresh pointerCleanup_own _ c H).
Qed.

Lemma pointer_listeners_follow_mount_witness :
  listenersFollowMount vsmAfterGesture /\ listenersFollowMount cmmnMounted.
Proof.
  split.
  - apply (proj1 pointer_listeners_follow_mount oneStep).
    exact vsmAfterGesture_reachable.
  - apply (proj2 pointer_listeners_follow_mount emptyCase).
    eapply reach_step; [apply reach_start|]. now apply step_mount.
Defined.

End Listeners.

(** ** The import from the modelling widget *)

Section ImportBridge.

Import BpmnConverter.
Local Open Scope string_scope.

Lemma importElements_app existing l1 l2 acc :
  importElements existing (l1 ++ l2)%list acc
  = match importElements existing l1 acc with
    | Some acc' => importElements existing l2 acc'
    | None => None
    end.
Proof.
  revert acc. induction l1 as [|e l1 IH]; intros acc; simpl; [reflexivity|].
  destruct (importElement existing acc e); [apply IH|reflexivity].
Qed.

Lemma importElement_unread existing acc e :
  isRead e = false -> importElement existing acc e = Some acc.
Proof.
  unfold isRead, readTypes. cbn [existsb]. intros H.
  repeat (apply orb_false_elim in H; destruct H as [? H]).
  cbv beta zeta delta [importElement]. destruct acc as [ns es].
  repeat match goal with
         | E : String.eqb _ _ = false |- _ => rewrite E; clear E
         end.
  now destruct (String.eqb (el_type e) "bpmn:Process"), (String.eqb (el_type e) "label").
Qed.

Lemma importElement_openFlow existing acc e :
  isOpenFlow e = true -> importElement existing acc e = Some acc.
Proof.
  unfold isOpenFlow. intros H. apply andb_prop in H. destruct H as [Ht Hb].
  apply String.eqb_eq in Ht. unfold importElement. destruct acc as [ns es].
  rewrite Ht. cbn.
  destruct (el_businessObject e) as [bo|]; [|discriminate].
  now destruct (bo_sourceRef bo), (bo_targetRef bo).
Qed.

Lemma importElement_broken existing acc e :
  isRead e = true -> el_businessObject e = None -> importElement existing acc e = None.
Proof.
  unfold isRead. intros H Hbo. apply existsb_exists in H.
  destruct H as (tag & Hin & Ht). apply String.eqb_eq in Ht.
  unfold importElement. destruct acc as [ns es]. rewrite Ht, Hbo.
  unfold readTypes in Hin. cbn [In] in Hin.
  repeat (destruct Hin as [<-|Hin]; [reflexivity|]). contradiction.
Qed.

(** X1. One element of a type the import reads that has no business object
    makes the whole import return the empty diagram, whatever else the
    registry holds; so does a modeler that does not hand out its registry. *)
Theorem extract_broken_element_gives_empty
    (existing : list ProcessNode) (l1 l2 : list Element) (e : Element) :
  isRead e = true ->
  el_businessObject e = None ->
  extractProcessMapFromModeler (Some (l1 ++ e :: l2)%list) existing = emptyProcessMap
  /\ extractProcessMapFromModeler None existing = emptyProcessMap.
Proof.
  intros Hr Hbo. split; [|reflexivity].
  unfold extractProcessMapFromModeler. rewrite importElements_app.
  destruct (importElements existing l1 ([], [])) as [acc|]; [|reflexivity].
  cbn [importElements]. now rewrite (importElement_broken existing acc e Hr Hbo).
Qed.

Lemma extract_broken_element_gives_empty_witness :
  extractProcessMapFromModeler (Some brokenRegistry) [] = emptyProcessMap
  /\ extractProcessMapFromModeler None [] = emptyProcessMap.
Proof.
  apply (extract_broken_element_gives_empty []
           [{| el_type := "bpmn:Participant"; el_x := 0; el_y := 0;
               el_businessObject := None |};
            {| el_type := "bpmn:StartEvent"; el_x := 10; el_y := 20;
               el_businessObject := Some {| bo_id := "s"; bo_name := None;
                                            bo_sourceRef := None; bo_targetRef := None |} |}]
           []
           {| el_type := "bpmn:Task"; el_x := 100; el_y := 20; el_businessObject := None |});
    reflexivity.
Defined.

(** X2. An element of a type the import does not read, with or without a
    business object, and a sequence flow that lacks a reference, leave no
    trace: the import returns what it returns without them. *)
Theorem extract_skips_foreign_elements
    (existing : list ProcessNode) (l1 l2 : list Element) (e : Element) :
  isRead e = false \/ isOpenFlow e = true ->
  extractProcessMapFromModeler (Some (l1 ++ e :: l2)%list) existing
  = extractProcessMapFromModeler (Some (l1 ++ l2)%list) existing.
Proof.
  intros H. unfold extractProcessMapFromModeler. rewrite !importElements_app.
  destruct (importElements existing l1 ([], [])) as [acc|]; [|reflexivity].
  cbn [importElements].
  destruct H as [H|H].
  - now rewrite (importElement_unread existing acc e H).
  - now rewrite (importElement_openFlow existing acc e H).
Qed.

Lemma extract_skips_foreign_elements_witness :
  extractProcessMapFromModeler
    (Some ([] ++ {| el_type := "bpmn:Participant"; el_x := 0; el_y := 0;
                    el_businessObject := None |} :: mirror reviewMap)%list) []
  = extractProcessMapFromModeler (Some ([] ++ mirror reviewMap)%list) [].
Proof.
  apply (extract_skips_foreign_elements [] []). left. reflexivity.
Defined.

Lemma importElement_metrics existing ns es e ns' es' :
  importElement existing (ns, es) e = Some (ns', es') ->
  Forall (metricsRecovered existing) ns -> Forall (metricsRecovered existing) ns'.
Proof.
  unfold importElement. intros H Hall.
  repeat match type of H with
         | context [if ?b then _ else _] => destruct b
         | context [match el_businessObject e with _ => _ end] =>
             destruct (el_businessObject e) as [bo|]
         | context [match bo_sourceRef ?bo with _ => _ end] => destruct (bo_sourceRef bo)
         | context [match bo_targetRef ?bo with _ => _ end] => destruct (bo_targetRef bo)
         end;
    try discriminate H; injection H as <- <-; try exact Hall;
    apply Forall_app; (split; [exact Hall|]);
    (apply Forall_cons; [reflexivity|apply Forall_nil]).
Qed.

Lemma importElements_metrics existing l :
  forall ns es ns' es',
    importElements existing l (ns, es) = Some (ns', es') ->
    Forall (metricsRecovered existing) ns -> Forall (metricsRecovered existing) ns'.
Proof.
  induction l as [|e l IH]; intros ns es ns' es' H Hall.
  - injection H as <- <-. exact Hall.
  - cbn [importElements] in H.
    destruct (importElement existing (ns, es) e) as [[ns1 es1]|] eqn:E; [|discriminate H].
    exact (IH _ _ _ _ H (importElement_metrics _ _ _ _ _ _ E Hall)).
Qed.

Lemma getMetrics_found existing n m :
  NoDup (map node_id existing) -> In n existing -> node_metrics n = Some m ->
  getMetrics existing (node_id n) = m.
Proof.
  unfold getMetrics. intros Hnd Hin Hm.
  induction existing as [|a l IH]; [contradiction|].
  cbn [find]. inversion Hnd as [|? ? Hna Hnd']; subst.
  destruct Hin as [->|Hin].
  - now rewrite String.eqb_refl, Hm.
  - destruct (String.eqb_spec (node_id a) (node_id n)) as [E|E].
    + exfalso. apply Hna. rewrite E. now apply in_map.
    + now apply IH.
Qed.

Lemma getMetrics_missing existing i :
  ~ In i (map node_id existing) -> getMetrics existing i = defaultMetrics.
Proof.
  intros H. unfold getMetrics.
  induction existing as [|a l IH]; [reflexivity|].
  cbn [find]. destruct (String.eqb_spec (node_id a) i) as [E|E].
  - exfalso. apply H. left. exact E.
  - apply IH. intros Hin. apply H. now right.
Qed.

(** X3. Every node the import returns carries the metrics of the node of the
    same identifier in the previous snapshot; the documented default when the
    snapshot has no such node; and no metrics at all when it is a gateway,
    whatever the snapshot says. *)
Theorem extract_recovers_metrics
    (modeler : option (list Element)) (existing : list ProcessNode) (n : ProcessNode) :
  In n (nodes (extractProcessMapFromModeler modeler existing)) ->
  (node_type n = GATEWAY -> node_metrics n = None)
  /\ (node_type n <> GATEWAY ->
      (forall old m, NoDup (map node_id existing) -> In old existing ->
                     node_id old = node_id n -> node_metrics old = Some m ->
                     node_metrics n = Some m)
      /\ (~ In (node_id n) (map node_id existing) ->
          node_metrics n = Some defaultMetrics)).
Proof.
  intros Hin.
  assert (HP : metricsRecovered existing n).
  { unfold extractProcessMapFromModeler in Hin.
    destruct modeler as [registry|]; [|contradiction].
    destruct (importElements existing registry ([], [])) as [[ns es]|] eqn:E;
      [|contradiction].
    pose proof (importElements_metrics existing registry [] [] ns es E (Forall_nil _)) as H.
    rewrite Forall_forall in H. exact (H n Hin). }
  unfold metricsRecovered in HP. split.
  - intros Ht. now rewrite Ht in HP.
  - intros Ht.
    assert (HM : node_metrics n = Some (getMetrics existing (node_id n))).
    { destruct (node_type n); congruence. }
    split.
    + intros old m Hnd Hold Hid Hm. rewrite HM, <- Hid. f_equal.
      now apply getMetrics_found.
    + intros Hmiss. rewrite HM. f_equal. now apply getMetrics_missing.
Qed.

Lemma extract_recovers_metrics_witness :
  node_metrics (importedNode {| bo_id := "g"; bo_name := Some "Ok?";
                                bo_sourceRef := None; bo_targetRef := None |}
                             GATEWAY "Gateway" (elementOf (plainNode "g" "Ok?")) None)
  = None.
Proof.
  apply (proj1 (extract_recovers_metrics
                  (Some [{| el_type := "bpmn:InclusiveGateway"; el_x := 0; el_y := 0;
                            el_businessObject :=
                              Some {| bo_id := "g"; bo_name := Some "Ok?";
                                      bo_sourceRef := None; bo_targetRef := None |} |}])
                  [plainNode "g" "Ok?"]
                  (importedNode {| bo_id := "g"; bo_name := Some "Ok?";
                                   bo_sourceRef := None; bo_targetRef := None |}
                                GATEWAY "Gateway" (elementOf (plainNode "g" "Ok?")) None)
                  (or_introl eq_refl))).
  reflexivity.
Defined.

Lemma importElements_nodes existing l :
  forall ns es,
    importElements existing (map elementOf l) (ns, es)
    = Some ((ns ++ map (fun n =>
                          {| node_id := node_id n; node_type := node_type n;
                             node_label := nameOr (Some (node_label n))
                                             match node_type n with
                                             | START => "Start"
                                             | END => "End"
                                             | GATEWAY => "Gateway"
                                             | TASK => "Task"
                                             end;
                             node_x := node_x n; node_y := node_y n;
                             node_metrics := match node_type n with
                                             | GATEWAY => None
                                             | _ => Some (getMetrics existing (node_id n))
                                             end |}) l)%list, es).
Proof.
  induction l as [|n l IH]; intros ns es; cbn [map importElements].
  - now rewrite app_nil_r.
  - destruct n as [i t lbl x y m]. destruct t; cbn; cbn in IH; rewrite IH;
      cbn; now rewrite <- app_assoc.
Qed.

Lemma importElements_flows existing l :
  forall ns es,
    importElements existing (map flowOf l) (ns, es)
    = Some (ns, (es ++ map (fun e => {| edge_id := edge_id e; edge_source := edge_source e;
                                        edge_target := edge_target e;
                                        edge_label := edge_label e;
                                        edge_probability := None |}) l)%list).
Proof.
  induction l as [|e l IH]; intros ns es; cbn [map importElements].
  - now rewrite app_nil_r.
  - cbn. cbn in IH. rewrite IH. cbn. now rewrite <- app_assoc.
Qed.

(** X4. Round trip through the modelling widget. When the registry presents
    every node of a diagram as an element of its kind with the same
    identifier, name and position, and every edge as a sequence flow, the
    import with the nodes of the diagram as snapshot returns the diagram:
    same nodes in the same order with their labels and metrics, same edges. *)
Theorem extract_mirror_round_trip (d : ProcessMap) :
  importableMap d ->
  extractProcessMapFromModeler (Some (mirror d)) (nodes d) = d.
Proof.
  intros (Hnd & Hn & He & Hx).
  unfold extractProcessMapFromModeler, mirror.
  rewrite importElements_app, importElements_nodes, importElements_flows.
  destruct d as [ns es x]. cbn [nodes edges xml] in *. subst x. f_equal.
  - cbn [app]. etransitivity; [apply map_ext_in with (g := fun n => n)|apply map_id].
    intros n Hin. rewrite Forall_forall in Hn.
    destruct (Hn n Hin) as [Hl Hm].
    destruct n as [i t lbl nx ny m]. cbn in *. unfold nameOr. rewrite Hl. f_equal.
    destruct t; try (symmetry; exact Hm);
      (destruct m as [m|]; [|congruence]); f_equal;
      apply (getMetrics_found ns {| node_id := i; node_type := _; node_label := lbl;
                                    node_x := nx; node_y := ny; node_metrics := Some m |} m
               Hnd Hin eq_refl).
  - cbn [app]. etransitivity; [apply map_ext_in with (g := fun e => e)|apply map_id].
    intros e Hin. rewrite Forall_forall in He.
    specialize (He e Hin). destruct e as [i s t l p]. cbn in *. now subst p.
Qed.

Lemma extract_mirror_round_trip_witness :
  extractProcessMapFromModeler (Some (mirror reviewMap)) (nodes reviewMap) = reviewMap.
Proof.
  apply extract_mirror_round_trip.
  split; [|split; [|split; [|reflexivity]]].
  - repeat constructor; cbn; intuition discriminate.
  - repeat constructor; cbn; discriminate.
  - repeat constructor.
Defined.

End ImportBridge.

(** ** The text of the wire export *)

Section ExportText.

Import BpmnConverter.
Local Open Scope string_scope.

Lemma string_append_assoc (s t u : string) : (s ++ t) ++ u = s ++ (t ++ u).
Proof. induction s as [|a s IH]; simpl; [reflexivity|now rewrite IH]. Qed.

Lemma replaceAll_append (c : ascii) (by_ s t : string) :
  replaceAll c by_ (s ++ t) = replaceAll c by_ s ++ replaceAll c by_ t.
Proof.
  induction s as [|a s IH]; [reflexivity|].
  cbn [append replaceAll]. destruct (Ascii.eqb a c); rewrite IH.
  - now rewrite string_append_assoc.
  - reflexivity.
Qed.

Lemma sanitizedLabel_escapeText (label : string) :
  sanitizedLabel label = escapeText label.
Proof.
  unfold sanitizedLabel. induction label as [|c r IH]; [reflexivity|].
  cbn [replaceAll escapeText]. unfold escapeChar.
  destruct (Ascii.eqb_spec c "&") as [->|Hamp].
  - rewrite !replaceAll_append, IH. reflexivity.
  - cbn [replaceAll]. destruct (Ascii.eqb_spec c "<") as [->|Hlt].
    + rewrite !replaceAll_append, IH. reflexivity.
    + cbn [replaceAll]. destruct (Ascii.eqb_spec c ">") as [->|Hgt].
      * rewrite IH. reflexivity.
      * now rewrite IH.
Qed.

Lemma unescapeText_escapeText (s : string) : unescapeText (escapeText s) = s.
Proof.
  induction s as [|c r IH]; [reflexivity|].
  cbn [escapeText]. unfold escapeChar.
  destruct (Ascii.eqb_spec c "&") as [->|Hamp]; [cbn; now rewrite IH|].
  destruct (Ascii.eqb_spec c "<") as [->|Hlt]; [cbn; now rewrite IH|].
  destruct (Ascii.eqb_spec c ">") as [->|Hgt]; [cbn; now rewrite IH|].
  cbn [append unescapeText].
  destruct (Ascii.eqb_spec c "&") as [E|_]; [contradiction|]. now rewrite IH.
Qed.

Lemma escapeText_plain (s : string) : plainText s -> escapeText s = s.
Proof.
  unfold plainText. induction s as [|c r IH]; [reflexivity|].
  cbn [occurs escapeText]. intros (Ha & Hl & Hg).
  apply orb_false_elim in Ha, Hl, Hg.
  destruct Ha as [Ha Ha'], Hl as [Hl Hl'], Hg as [Hg Hg'].
  unfold escapeChar. rewrite Ha, Hl, Hg. cbn. now rewrite IH.
Qed.

(** X5. The name attribute the export writes for a node determines the label:
    two different labels never give the same text, the three entities read
    back give the label, and a label without ampersand and angle brackets is
    written unchanged. *)
Theorem sanitizedLabel_injective (a b : string) :
  (sanitizedLabel a = sanitizedLabel b -> a = b)
  /\ unescapeText (sanitizedLabel a) = a
  /\ (plainText a -> sanitizedLabel a = a).
Proof.
  split; [|split].
  - intros H. rewrite <- (unescapeText_escapeText a), <- (unescapeText_escapeText b).
    now rewrite <- !sanitizedLabel_escapeText, H.
  - now rewrite sanitizedLabel_escapeText, unescapeText_escapeText.
  - intros H. rewrite sanitizedLabel_escapeText. now apply escapeText_plain.
Qed.

Lemma sanitizedLabel_injective_witness : sanitizedLabel "Pack" = "Pack".
Proof.
  apply (sanitizedLabel_injective "Pack" "Pack"). repeat split.
Defined.








End ExportText.

(** ** The structure of the lifted diagrams *)

Section LiftStructure.

Import BpmnConverter.
Local Open Scope Q_scope.

Lemma num_S (j : nat) : num (S j) == num j + 1.
Proof.
  unfold num. rewrite Nat2Z.inj_succ. unfold Z.succ. now rewrite inject_Z_plus.
Qed.

Lemma taskLoop_nodes l st :
  tl_nodes (fold_left taskLoopBody l st) = tl_nodes st ++ taskNodesFrom (tl_xOffset st) l
  /\ tl_xOffset (fold_left taskLoopBody l st) = offsetAfter (tl_xOffset st) l.
Proof.
  revert st. induction l as [|s r IH]; intros st; cbn [fold_left taskNodesFrom offsetAfter].
  - now rewrite app_nil_r.
  - destruct (IH (taskLoopBody st s)) as [H1 H2]. rewrite H1, H2.
    cbn [taskLoopBody tl_nodes tl_xOffset]. now rewrite <- app_assoc.
Qed.

Lemma taskNodesFrom_nth l : forall x j n,
  nth_error (taskNodesFrom x l) j = Some n ->
  node_x n == x + 180 * num j /\ node_y n = 250 /\ node_type n = TASK.
Proof.
  induction l as [|s r IH]; intros x j n H; [destruct j; discriminate H|].
  destruct j as [|j]; cbn in H.
  - injection H as <-. cbn. repeat split. unfold num. cbn. ring.
  - destruct (IH _ _ _ H) as (Hx & Hy & Ht). repeat split; auto.
    rewrite Hx, num_S. ring.
Qed.

Lemma offsetAfter_value l : forall x, offsetAfter x l == x + 180 * num (length l).
Proof.
  induction l as [|s r IH]; intros x; cbn [offsetAfter length].
  - unfold num. cbn. ring.
  - rewrite IH, num_S. ring.
Qed.

Lemma taskNodesFrom_length l : forall x, length (taskNodesFrom x l) = length l.
Proof. induction l as [|s r IH]; intros x; cbn; [reflexivity|now rewrite IH]. Qed.

(** X7. The layout of the lifted diagram: every node lies on the line y = 250;
    the start event is at x = 150 and the i-th node after it, task or end
    event, at x = 120 + 180 i, so that the nodes follow each other from
    left to right in the order of the chain. *)
Theorem convertVsmToBpmn_layout (vsm : VSMData) (i : nat) (n : ProcessNode) :
  nth_error (nodes (convertVsmToBpmn vsm)) i = Some n ->
  node_y n = 250
  /\ node_x n == (if Nat.eqb i 0 then 150 else 120 + 180 * num i).
Proof.
  unfold convertVsmToBpmn. cbn [nodes].
  destruct (taskLoop_nodes (processStepsOf vsm)
              {| tl_nodes := [vsmStartNode]; tl_edges := [];
                 tl_previousNodeId := "StartEvent_1"; tl_xOffset := 150 + 150 |}) as [H1 H2].
  rewrite H1, H2. cbn [tl_nodes tl_xOffset app].
  destruct i as [|i]; cbn [nth_error Nat.eqb].
  - intros H. injection H as <-. split; reflexivity.
  - intros H.
    destruct (Nat.lt_ge_cases i (length (taskNodesFrom (150 + 150) (processStepsOf vsm))))
      as [Hlt|Hge].
    + rewrite nth_error_app1 in H by exact Hlt.
      destruct (taskNodesFrom_nth _ _ _ _ H) as (Hx & Hy & _).
      split; [exact Hy|]. rewrite Hx, num_S. ring.
    + rewrite nth_error_app2 in H by exact Hge.
      rewrite taskNodesFrom_length in H, Hge.
      destruct (i - length (processStepsOf vsm))%nat as [|d] eqn:E;
        [|destruct d; discriminate H].
      injection H as <-. cbn [vsmEndNode node_x node_y]. split; [reflexivity|].
      assert (i = length (processStepsOf vsm)) as -> by lia.
      rewrite offsetAfter_value, num_S. ring.
Qed.

Lemma convertVsmToBpmn_layout_witness :
  node_y (taskNode packStep (150 + 150 + 180) yFixed) = 250
  /\ node_x (taskNode packStep (150 + 150 + 180) yFixed) == 120 + 180 * num 2.
Proof.
  apply (convertVsmToBpmn_layout shuffledVsm 2). reflexivity.
Defined.




Lemma vsmLoopBody_steps c st pName i :
  vl_steps (fst (vsmLoopBody c st pName i))
  = (vl_steps st ++ [vsmStep (c i) pName process (vl_x st) processY])%list
  /\ vl_x (fst (vsmLoopBody c st pName i)) = vl_x st + 200
  /\ vl_prevProcessId (fst (vsmLoopBody c st pName i)) = Some (c i).
Proof.
  rewrite vsmLoopBody_run. now destruct (opt_str_truthy (vl_prevProcessId st)).
Qed.

Lemma vsmLoop_inv c base x0 l :
  forall done st i,
    vsmLoopInv c base x0 done st ->
    vsmLoopInv c base x0 (done ++ l) (fst (Rand.foldM (vsmLoopBody c) l st i)).
Proof.
  induction l as [|p r IH]; intros done st i H.
  - now rewrite app_nil_r.
  - rewrite foldM_cons.
    replace (done ++ p :: r)%list with ((done ++ [p]) ++ r)%list
      by now rewrite <- app_assoc.
    apply IH.
    destruct (vsmLoopBody_steps c st p i) as (Hs & Hx & _).
    destruct H as (Hr & Hn & Hd & Hvx & Hpos & Hlen).
    unfold vsmLoopInv. rewrite Hs, Hx, !map_app, Hr, Hn, !length_app, Hlen.
    cbn [map length vsmStep step_role step_name].
    split; [|split; [|split; [|split; [|split]]]].
    + rewrite repeat_app, <- app_assoc. reflexivity.
    + now rewrite <- app_assoc.
    + apply Forall_app. split; [exact Hd|]. now constructor.
    + rewrite Hvx. replace (length done + 1)%nat with (S (length done)) by lia.
      rewrite num_S. ring.
    + intros j s Hnth.
      destruct (Nat.lt_ge_cases j (length done)) as [Hlt|Hge].
      * rewrite nth_error_app1 in Hnth by lia. exact (Hpos j s Hnth).
      * rewrite nth_error_app2 in Hnth by lia.
        destruct (length base + j - length (vl_steps st))%nat as [|d] eqn:E;
          [|destruct d; discriminate Hnth].
        injection Hnth as <-. cbn. assert (j = length done) as -> by lia.
        split; [exact Hvx|reflexivity].
    + lia.
Qed.

Lemma chainPairs_last p l e :
  chainPairs p (l ++ [e]) = (chainPairs p l ++ [(last l p, e)])%list.
Proof.
  revert p. induction l as [|a r IH]; intros p; [reflexivity|].
  rewrite last_cons. cbn [app chainPairs]. now rewrite IH.
Qed.

Lemma last_snoc {A : Type} (l : list A) (a d : A) : last (l ++ [a]) d = a.
Proof.
  revert d. induction l as [|b l IH]; intros d; [reflexivity|].
  cbn [app]. rewrite last_cons. apply IH.
Qed.

Lemma vsmLoopBody_chain c st pName i :
  nonEmptyDraws c -> vsmChainInv st -> vsmChainInv (fst (vsmLoopBody c st pName i)).
Proof.
  intros N H. rewrite vsmLoopBody_run. unfold vsmChainInv in *.
  destruct (processIds (vl_steps st)) as [|p0 rest] eqn:E.
  - destruct H as [Hc Hp]. rewrite Hp. cbn [opt_str_truthy fst vl_steps].
    unfold processIds in *. rewrite filter_app, map_app, E. cbn.
    rewrite Hc. repeat split. apply N.
  - destruct H as (Hc & Ht & Hp & Htr). rewrite Hp. cbn [opt_str_truthy]. rewrite Htr.
    cbn [fst vl_steps vl_connectors vl_prevProcessId].
    unfold processIds in *. rewrite filter_app, map_app, E. cbn [filter isProcessStep
      vsmStep step_role role_is_process map step_id app].
    rewrite !map_app, Hc, Ht. cbn [map connEnds connector conn_source conn_target
      conn_type prevOr].
    rewrite chainPairs_last, length_app, repeat_app, last_snoc. repeat split. apply N.
Qed.

Lemma vsmLoop_chain c l :
  nonEmptyDraws c ->
  forall st i, vsmChainInv st -> vsmChainInv (fst (Rand.foldM (vsmLoopBody c) l st i)).
Proof.
  intros N. induction l as [|p r IH]; intros st i H; [exact H|].
  rewrite foldM_cons. apply IH. now apply vsmLoopBody_chain.
Qed.

Lemma vsmLoop_processIds_length c l :
  forall st i,
    length (processIds (vl_steps (fst (Rand.foldM (vsmLoopBody c) l st i))))
    = (length (processIds (vl_steps st)) + length l)%nat.
Proof.
  induction l as [|p r IH]; intros st i; [cbn; lia|].
  rewrite foldM_cons, IH.
  destruct (vsmLoopBody_steps c st p i) as (Hs & _ & _). rewrite Hs.
  unfold processIds. rewrite filter_app, map_app, length_app. cbn. lia.
Qed.

Lemma chainPairs_in p l a b :
  In (a, b) (chainPairs p l) -> In a (p :: l) /\ In b l.
Proof.
  revert p. induction l as [|x r IH]; intros p H; [contradiction|].
  destruct H as [H|H].
  - injection H as <- <-. split; [now left|now left].
  - destruct (IH _ H) as [Ha Hb]. split; right; assumption.
Qed.

Lemma vsmStart_inv c sipoc i :
  vsmLoopInv c (vl_steps (vsmStart c sipoc i)) 100 [] (vsmStart c sipoc i).
Proof.
  unfold vsmLoopInv. cbn [vsmStart vl_steps vl_x length app repeat].
  rewrite !app_nil_r. split; [reflexivity|]. split; [reflexivity|].
  split; [repeat constructor|]. split; [unfold num; cbn; ring|].
  split; [|reflexivity].
  intros j s H. destruct j as [|j]; [discriminate H|destruct j; discriminate H].
Qed.

(** X9. The skeleton that the scope to value-stream lift builds, whatever the
    identifiers drawn: a supplier, a production control and a customer named
    after the first supplier and customer of the scope or by default, and
    between them one process step per process name, or one placeholder, on
    the line y = 400 at x = 100, 300, 500, ...; the customer stands at the
    right of the last process step and never left of x = 800. *)
Theorem convertSipocToVsm_skeleton (c : nat -> string) (sipoc : SIPOCData) (i : nat) :
  let v := fst (convertSipocToVsm c sipoc i) in
  let names := vsmProcessList sipoc in
  (0 < length names)%nat
  /\ (process_steps sipoc <> [] -> names = process_steps sipoc)
  /\ map step_role (steps v)
     = (supplier :: production_control :: repeat process (length names)) ++ [customer]
  /\ map step_name (steps v)
     = (first_or (suppliers sipoc) "Supplier" :: "Production Control"%string :: names)
       ++ [first_or (customers sipoc) "Customer"]
  /\ Forall (fun s => step_data s = Some emptyStepData) (steps v)
  /\ (forall j s, nth_error (steps v) (2 + j) = Some s -> (j < length names)%nat ->
                  step_x s == 100 + 200 * num j /\ step_y s = 400)
  /\ (forall s, nth_error (steps v) (2 + length names) = Some s ->
                step_x s == Qmax (100 + 200 * num (length names)) 800
                /\ 800 <= step_x s /\ 100 + 200 * num (length names) <= step_x s
                /\ step_y s = 100)
  /\ length (steps v) = (3 + length names)%nat.
Proof.
  intros v names.
  assert (Hpos : (0 < length names)%nat).
  { unfold names, vsmProcessList. destruct (process_steps sipoc); cbn; lia. }
  split; [exact Hpos|].
  split; [unfold names, vsmProcessList; now destruct (process_steps sipoc)|].
  pose proof (vsmLoop_inv c _ 100 names [] _ (S (S i)) (vsmStart_inv c sipoc i)) as H.
  cbn [app] in H. destruct H as (Hr & Hn & Hd & Hx & Hp & Hlen).
  assert (Hsteps : steps v
                   = (vl_steps (fst (Rand.foldM (vsmLoopBody c) names (vsmStart c sipoc i)
                                       (S (S i))))
                      ++ [vsmStep (c (snd (Rand.foldM (vsmLoopBody c) names
                                             (vsmStart c sipoc i) (S (S i)))))
                                  (first_or (customers sipoc) "Customer") customer
                                  (Qmax (vl_x (fst (Rand.foldM (vsmLoopBody c) names
                                                      (vsmStart c sipoc i) (S (S i))))) 800)
                                  topY])%list).
  { unfold v. rewrite convertSipocToVsm_run_fst. unfold vsmFinish.
    now destruct (opt_str_truthy _). }
  rewrite Hsteps, !map_app, Hr, Hn, length_app, Hlen.
  cbn [vsmStart vl_steps map step_role step_name vsmStep length app].
  split; [reflexivity|]. split; [reflexivity|].
  split; [apply Forall_app; split; [exact Hd|now constructor]|].
  split; [|split; [|lia]].
  - intros j s Hnth Hj. rewrite nth_error_app1 in Hnth by (rewrite Hlen; cbn; lia).
    exact (Hp j s Hnth).
  - intros s Hnth. rewrite nth_error_app2 in Hnth by (rewrite Hlen; cbn; lia).
    rewrite Hlen in Hnth. cbn [vsmStart vl_steps length] in Hnth.
    replace (2 + length names - (2 + length names))%nat with 0%nat in Hnth by lia.
    injection Hnth as <-. cbn [step_x step_y vsmStep].
    assert (E : Qmax (vl_x (fst (Rand.foldM (vsmLoopBody c) names (vsmStart c sipoc i)
                                   (S (S i))))) 800
                == Qmax (100 + 200 * num (length names)) 800).
    { apply Q.max_compat; [exact Hx|reflexivity]. }
    split; [exact E|]. split; [apply Q.le_max_r|].
    split; [rewrite E; apply Q.le_max_l|reflexivity].
Qed.

Lemma vsmStart_chain c sipoc i : vsmChainInv (vsmStart c sipoc i).
Proof. unfold vsmChainInv. cbn. now split. Qed.

(** X10. The connectors of the scope to value-stream lift, the identifiers drawn
    being non-empty: a push connector leads from every process step to the
    next one and a transport connector from the last process step to the
    customer; every connector joins two steps of the diagram. *)
Theorem convertSipocToVsm_connectors (c : nat -> string) (sipoc : SIPOCData) (i : nat) :
  nonEmptyDraws c ->
  let v := fst (convertSipocToVsm c sipoc i) in
  exists (p0 : string) (rest : list string) (customerId : string),
    processIds (steps v) = p0 :: rest
    /\ last (map step_id (steps v)) EmptyString = customerId
    /\ map connEnds (connectors v) = chainPairs p0 (rest ++ [customerId])
    /\ map conn_type (connectors v) = repeat push (length rest) ++ [transport_link]
    /\ length (connectors v) = length (vsmProcessList sipoc)
    /\ (forall conn, In conn (connectors v) -> ~ danglingConnector v conn).
Proof.
  intros N v.
  set (R := Rand.foldM (vsmLoopBody c) (vsmProcessList sipoc) (vsmStart c sipoc i) (S (S i))).
  pose proof (vsmLoop_chain c (vsmProcessList sipoc) N _ (S (S i))
                (vsmStart_chain c sipoc i)) as H.
  pose proof (vsmLoop_processIds_length c (vsmProcessList sipoc) (vsmStart c sipoc i)
                (S (S i))) as Hlen.
  fold R in H, Hlen. unfold vsmChainInv in H.
  destruct (processIds (vl_steps (fst R))) as [|p0 rest] eqn:E.
  { exfalso. cbn in Hlen. unfold vsmProcessList in Hlen.
    destruct (process_steps sipoc); cbn in Hlen; lia. }
  destruct H as (Hc & Ht & Hp & Htr).
  assert (Hv : v = {| steps := vl_steps (fst R)
                               ++ [vsmStep (c (snd R)) (first_or (customers sipoc) "Customer")
                                           customer (Qmax (vl_x (fst R)) 800) topY];
                      connectors := vl_connectors (fst R)
                                    ++ [connector (c (S (snd R))) (last rest p0) (c (snd R))
                                                  transport_link];
                      totalLeadTime := 0; totalProcessTime := 0; efficiency := 0;
                      customerDemand := Some 100; availableTime := Some 27000 |}).
  { unfold v. rewrite convertSipocToVsm_run_fst. fold R. unfold vsmFinish.
    rewrite Hp. cbn [opt_str_truthy prevOr]. now rewrite Htr. }
  exists p0, rest, (c (snd R)).
  assert (Hpids : processIds (steps v) = p0 :: rest).
  { rewrite Hv. cbn [steps]. unfold processIds in *.
    rewrite filter_app, map_app, E. cbn. now rewrite app_nil_r. }
  assert (Hends : map connEnds (connectors v) = chainPairs p0 (rest ++ [c (snd R)])).
  { rewrite Hv. cbn [connectors]. rewrite map_app, Hc, chainPairs_last. reflexivity. }
  split; [exact Hpids|].
  split; [rewrite Hv; cbn [steps]; rewrite map_app; apply last_snoc|].
  split; [exact Hends|].
  split; [rewrite Hv; cbn [connectors]; now rewrite map_app, Ht|].
  split.
  { rewrite <- (length_map connEnds), Hends.
    assert (Hcl : forall p l, length (chainPairs p l) = length l).
    { intros p l. revert p. induction l; intros; cbn; auto. }
    rewrite Hcl, length_app. cbn in Hlen |- *. lia. }
  intros conn Hin Hd.
  assert (Hpair : In (connEnds conn) (chainPairs p0 (rest ++ [c (snd R)]))).
  { rewrite <- Hends. now apply in_map. }
  apply chainPairs_in in Hpair. destruct Hpair as [Hs Ht'].
  assert (Hsub : forall x, In x ((p0 :: rest) ++ [c (snd R)]) ->
                           In x (map step_id (steps v))).
  { intros x Hx. apply in_app_or in Hx. destruct Hx as [Hx|[<-|[]]].
    - rewrite <- Hpids in Hx. unfold processIds in Hx.
      apply in_map_iff in Hx. destruct Hx as (s & <- & Hs').
      apply filter_In in Hs'. apply in_map. tauto.
    - rewrite Hv. cbn [steps]. rewrite map_app. apply in_or_app. right. now left. }
  destruct Hd as [Hd|Hd]; apply Hd, Hsub.
  - change (In (conn_source conn) (p0 :: (rest ++ [c (snd R)]))). exact Hs.
  - change (In (conn_target conn) (p0 :: (rest ++ [c (snd R)]))). right. exact Ht'.
Qed.

Lemma convertSipocToVsm_connectors_witness :
  exists (p0 : string) (rest : list string) (customerId : string),
    processIds (steps (fst (convertSipocToVsm drawsA sipocExample 0%nat))) = p0 :: rest
    /\ last (map step_id (steps (fst (convertSipocToVsm drawsA sipocExample 0%nat)))) EmptyString
       = customerId
    /\ map connEnds (connectors (fst (convertSipocToVsm drawsA sipocExample 0%nat)))
       = chainPairs p0 (rest ++ [customerId])
    /\ map conn_type (connectors (fst (convertSipocToVsm drawsA sipocExample 0%nat)))
       = repeat push (length rest) ++ [transport_link]
    /\ length (connectors (fst (convertSipocToVsm drawsA sipocExample 0%nat)))
       = length (vsmProcessList sipocExample)
    /\ (forall conn, In conn (connectors (fst (convertSipocToVsm drawsA sipocExample 0%nat))) ->
                     ~ danglingConnector (fst (convertSipocToVsm drawsA sipocExample 0%nat)) conn).
Proof.
  apply (convertSipocToVsm_connectors drawsA sipocExample 0%nat).
  intros n. reflexivity.
Defined.

Lemma bpmnLoop_closed c l :
  forall st i,
    bl_nodes (fst (Rand.foldM (bpmnLoopBody c) l st i))
    = bl_nodes st ++ sipocTasksFrom c i (bl_x st) l
    /\ bl_edges (fst (Rand.foldM (bpmnLoopBody c) l st i))
       = bl_edges st ++ sipocFlowsFrom c i (bl_prevId st) l
    /\ bl_prevId (fst (Rand.foldM (bpmnLoopBody c) l st i))
       = last (map node_id (sipocTasksFrom c i (bl_x st) l)) (bl_prevId st)
    /\ bl_x (fst (Rand.foldM (bpmnLoopBody c) l st i)) == bl_x st + 180 * num (length l).
Proof.
  induction l as [|p r IH]; intros st i.
  - cbn. rewrite !app_nil_r. repeat split. unfold num. cbn. ring.
  - rewrite foldM_cons, bpmnLoopBody_run. cbn [fst snd].
    destruct (IH {| bl_nodes := bl_nodes st
                                ++ [sipocNode ("Task_" ++ substring 0 5 (c i)) TASK p
                                              (bl_x st) sipocY];
                    bl_edges := bl_edges st
                                ++ [flowEdge (bl_prevId st) ("Task_" ++ substring 0 5 (c i))
                                             (Some EmptyString)];
                    bl_prevId := "Task_" ++ substring 0 5 (c i);
                    bl_x := bl_x st + 180 |} (S i)) as (H1 & H2 & H3 & H4).
    rewrite H1, H2, H3, H4. cbn [bl_nodes bl_edges bl_prevId bl_x].
    cbn [sipocTasksFrom sipocFlowsFrom map length]. rewrite <- !app_assoc.
    split; [reflexivity|]. split; [reflexivity|]. split.
    + cbn [node_id sipocNode]. symmetry. apply last_cons.
    + rewrite num_S. ring.
Qed.

Lemma sipocTasksFrom_facts c l :
  forall i x,
    map node_label (sipocTasksFrom c i x l) = l
    /\ map node_type (sipocTasksFrom c i x l) = repeat TASK (length l)
    /\ map node_id (sipocTasksFrom c i x l)
       = map (fun j => sipocTaskId (c j)) (seq i (length l))
    /\ Forall (fun n => node_metrics n = Some sipocMetrics /\ node_y n = 250)
              (sipocTasksFrom c i x l)
    /\ (forall j n, nth_error (sipocTasksFrom c i x l) j = Some n ->
                    node_x n == x + 180 * num j).
Proof.
  induction l as [|p r IH]; intros i x.
  - cbn. repeat split; [constructor|]. intros j n H. destruct j; discriminate H.
  - destruct (IH (S i) (x + 180)) as (H1 & H2 & H3 & H4 & H5).
    cbn [sipocTasksFrom map length repeat seq]. rewrite H1, H2, H3.
    split; [reflexivity|]. split; [reflexivity|]. split; [reflexivity|].
    split; [constructor; [now split|exact H4]|].
    intros j n H. destruct j as [|j]; cbn in H.
    + injection H as <-. cbn. unfold num. cbn. ring.
    + rewrite (H5 _ _ H), num_S. ring.
Qed.

Lemma sipocFlowsFrom_facts c l :
  forall i x prev,
    map ends (sipocFlowsFrom c i prev l)
    = chainPairs prev (map node_id (sipocTasksFrom c i x l))
    /\ Forall (fun e => edge_label e = Some EmptyString) (sipocFlowsFrom c i prev l).
Proof.
  induction l as [|p r IH]; intros i x prev; [now split|].
  destruct (IH (S i) (x + 180) (sipocTaskId (c i))) as [H1 H2].
  cbn [sipocFlowsFrom sipocTasksFrom map chainPairs]. rewrite H1.
  split; [reflexivity|]. now constructor.
Qed.

(** X11. The diagram of the direct scope lift: a start event labelled after the
    first input, one task per process name, or one placeholder, and an end
    event labelled after the first output, 180 apart on the line y = 250; the
    i-th edge leads from the i-th node to the next one; every node has zero
    cycle and waiting time and no other metric; a task is identified by the
    first five characters of the value drawn for it. *)
Theorem convertSipocToBpmn_chain (c : nat -> string) (sipoc : SIPOCData) (i : nat) :
  let b := fst (convertSipocToBpmn c sipoc i) in
  let names := bpmnProcessList sipoc in
  let ids := map node_id (nodes b) in
  (0 < length names)%nat
  /\ (process_steps sipoc <> [] -> names = process_steps sipoc)
  /\ map node_label (nodes b) = (startLabel sipoc :: names) ++ [endLabel sipoc]
  /\ map node_type (nodes b) = (START :: repeat TASK (length names)) ++ [END]
  /\ ids = ("StartEvent_SIPOC"%string
            :: map (fun j => sipocTaskId (c j)) (seq i (length names)))
           ++ ["EndEvent_SIPOC"%string]
  /\ map ends (edges b) = combine (removelast ids) (tl ids)
  /\ length (edges b) = (length names + 1)%nat
  /\ Forall (fun n => node_metrics n = Some sipocMetrics /\ node_y n = 250) (nodes b)
  /\ Forall (fun e => edge_label e = Some EmptyString) (edges b)
  /\ (forall j n, nth_error (nodes b) j = Some n -> node_x n == 150 + 180 * num j).
Proof.
  intros b names ids.
  assert (Hpos : (0 < length names)%nat).
  { unfold names, bpmnProcessList. destruct (process_steps sipoc); cbn; lia. }
  split; [exact Hpos|].
  split; [unfold names, bpmnProcessList; now destruct (process_steps sipoc)|].
  set (st0 := {| bl_nodes := [sipocNode "StartEvent_SIPOC" START (startLabel sipoc)
                                        150 sipocY];
                 bl_edges := []; bl_prevId := "StartEvent_SIPOC"; bl_x := 150 + 180 |}).
  destruct (bpmnLoop_closed c names st0 i) as (Hn & He & Hp & Hx).
  destruct (sipocTasksFrom_facts c names i (150 + 180)) as (F1 & F2 & F3 & F4 & F5).
  destruct (sipocFlowsFrom_facts c names i (150 + 180) "StartEvent_SIPOC") as (G1 & G2).
  assert (Hb : b = {| nodes := bl_nodes (fst (Rand.foldM (bpmnLoopBody c) names st0 i))
                               ++ [sipocNode "EndEvent_SIPOC" END (endLabel sipoc)
                                     (bl_x (fst (Rand.foldM (bpmnLoopBody c) names st0 i)))
                                     sipocY];
                      edges := bl_edges (fst (Rand.foldM (bpmnLoopBody c) names st0 i))
                               ++ [flowEdge (bl_prevId (fst (Rand.foldM (bpmnLoopBody c)
                                                               names st0 i)))
                                            "EndEvent_SIPOC" (Some EmptyString)];
                      xml := None |}).
  { unfold b. now rewrite convertSipocToBpmn_run. }
  cbn [st0 bl_nodes bl_edges bl_prevId bl_x] in Hn, He, Hp.
  assert (Hids : ids = ("StartEvent_SIPOC"%string
                        :: map (fun j => sipocTaskId (c j)) (seq i (length names)))
                       ++ ["EndEvent_SIPOC"%string]).
  { unfold ids. rewrite Hb. cbn [nodes]. rewrite Hn, !map_app. cbn [map app].
    now rewrite F3. }
  assert (Hends : map ends (edges b) = combine (removelast ids) (tl ids)).
  { rewrite Hids, removelast_last. cbn [tl app]. rewrite <- chainPairs_snoc.
    rewrite Hb. cbn [edges]. rewrite He, Hp, map_app. cbn [app map].
    now rewrite G1, F3. }
  split; [rewrite Hb; cbn [nodes]; rewrite Hn, !map_app; cbn [map app]; now rewrite F1|].
  split; [rewrite Hb; cbn [nodes]; rewrite Hn, !map_app; cbn [map app]; now rewrite F2|].
  split; [exact Hids|]. split; [exact Hends|].
  split.
  { rewrite <- (length_map ends), Hends, Hids, removelast_last. cbn [tl app].
    rewrite length_combine. cbn [length].
    rewrite ?length_app, ?length_map, ?length_seq. cbn [length]. lia. }
  split.
  { rewrite Hb. cbn [nodes]. rewrite Hn. apply Forall_app. split.
    - constructor; [now split|exact F4].
    - constructor; [now split|constructor]. }
  split.
  { rewrite Hb. cbn [edges]. rewrite He. apply Forall_app. split; [exact G2|].
    now constructor. }
  intros j n Hnth. rewrite Hb in Hnth. cbn [nodes] in Hnth. rewrite Hn in Hnth.
  destruct j as [|j]; cbn [app nth_error] in Hnth.
  - injection Hnth as <-. cbn. unfold num. cbn. ring.
  - assert (Hl : length (sipocTasksFrom c i (150 + 180) names) = length names).
    { rewrite <- (length_map node_label). now rewrite F1. }
    destruct (Nat.lt_ge_cases j (length names)) as [Hlt|Hge].
    + rewrite nth_error_app1 in Hnth by lia. rewrite (F5 _ _ Hnth), num_S. ring.
    + rewrite nth_error_app2 in Hnth by lia. rewrite Hl in Hnth.
      destruct (j - length names)%nat as [|d] eqn:E; [|destruct d; discriminate Hnth].
      injection Hnth as <-. cbn [node_x sipocNode].
      assert (j = length names) as -> by lia. rewrite Hx, num_S. cbn [st0 bl_x]. ring.
Qed.

Lemma StronglySorted_snoc {A : Type} (R : A -> A -> Prop) (l : list A) (a : A) :
  StronglySorted R l -> Forall (fun b => R b a) l -> StronglySorted R (l ++ [a]).
Proof.
  induction 1 as [|b l Hl IH Hb]; intros Ha; cbn [app].
  - repeat constructor.
  - inversion Ha as [|? ? Hba Ha']; subst. constructor; [now apply IH|].
    apply Forall_app. split; [exact Hb|now constructor].
Qed.

Lemma vsmLoop_order c l :
  forall done st i,
    vsmOrderInv done st ->
    vsmOrderInv (done ++ l) (fst (Rand.foldM (vsmLoopBody c) l st i)).
Proof.
  induction l as [|p r IH]; intros done st i H.
  - now rewrite app_nil_r.
  - rewrite foldM_cons.
    replace (done ++ p :: r)%list with ((done ++ [p]) ++ r)%list
      by now rewrite <- app_assoc.
    apply IH. destruct (vsmLoopBody_steps c st p i) as (Hs & Hx & _).
    destruct H as (Hsorted & Hle & Hn).
    unfold vsmOrderInv. rewrite Hs, Hx, filter_app.
    cbn [filter isProcessStep vsmStep step_role role_is_process].
    split; [|split].
    + apply StronglySorted_snoc; [exact Hsorted|]. exact Hle.
    + apply Forall_app. split.
      * eapply Forall_impl; [|exact Hle]. intros s Hs'. cbn in Hs'.
        apply Qle_trans with (vl_x st); [exact Hs'|]. lra.
      * constructor; [cbn; lra|constructor].
    + now rewrite map_app, Hn.
Qed.

Lemma sortByX_sorted_id (l : list VSMStep) :
  StronglySorted ascendingX l -> sortByX l = l.
Proof.
  induction 1 as [|a l Hl IH Ha]; [reflexivity|].
  cbn [sortByX]. rewrite IH. destruct l as [|b r]; [reflexivity|].
  cbn [insertByX]. inversion Ha as [|? ? Hab _]; subst.
  apply Qle_bool_iff in Hab. now rewrite Hab.
Qed.

Lemma taskLoop_labels l st :
  map node_label (tl_nodes (fold_left taskLoopBody l st))
  = map node_label (tl_nodes st) ++ map step_name l.
Proof.
  revert st. induction l as [|s r IH]; intros st; simpl.
  - now rewrite app_nil_r.
  - rewrite IH. simpl. rewrite map_app, <- app_assoc. reflexivity.
Qed.

Lemma taskNodesFrom_zero_metrics l :
  Forall (fun s => step_data s = Some emptyStepData) l ->
  forall x, Forall (fun n => node_metrics n = Some eventMetrics) (taskNodesFrom x l).
Proof.
  induction 1 as [|s l Hs Hl IH]; intros x; cbn [taskNodesFrom]; constructor.
  - unfold taskNode, cycleTimeMin, stepChangeoverTime, stepUptime. now rewrite Hs.
  - apply IH.
Qed.

(** X12. The two lifts in a row. The execution-flow diagram lifted from the
    value-stream diagram lifted from a scope consists of the start event,
    one task per process name of the scope in the order of the scope (one
    placeholder task when the scope names none) and the end event, and every
    node of it has the metrics of an empty task. *)
Theorem scope_pipeline_keeps_process_order
    (c : nat -> string) (sipoc : SIPOCData) (i : nat) :
  let b := convertVsmToBpmn (fst (convertSipocToVsm c sipoc i)) in
  map node_label (nodes b)
  = ("Process Start"%string :: vsmProcessList sipoc) ++ ["Process End"%string]
  /\ (process_steps sipoc <> [] ->
      map node_label (nodes b)
      = ("Process Start"%string :: process_steps sipoc) ++ ["Process End"%string])
  /\ Forall (fun n => node_metrics n = Some eventMetrics) (nodes b)
  /\ length (nodes b) = (length (vsmProcessList sipoc) + 2)%nat.
Proof.
  intros b.
  set (R := Rand.foldM (vsmLoopBody c) (vsmProcessList sipoc) (vsmStart c sipoc i) (S (S i))).
  assert (Hsteps : steps (fst (convertSipocToVsm c sipoc i))
                   = (vl_steps (fst R)
                      ++ [vsmStep (c (snd R)) (first_or (customers sipoc) "Customer")
                                  customer (Qmax (vl_x (fst R)) 800) topY])%list).
  { rewrite convertSipocToVsm_run_fst. fold R. unfold vsmFinish.
    now destruct (opt_str_truthy _). }
  assert (H0 : vsmOrderInv [] (vsmStart c sipoc i)).
  { unfold vsmOrderInv. cbn. repeat split; constructor. }
  pose proof (vsmLoop_order c (vsmProcessList sipoc) [] _ (S (S i)) H0) as H.
  fold R in H. cbn [app] in H. destruct H as (Hsorted & _ & Hnames).
  pose proof (vsmLoop_inv c _ 100 (vsmProcessList sipoc) [] _ (S (S i))
                (vsmStart_inv c sipoc i)) as Hinv.
  fold R in Hinv. destruct Hinv as (_ & _ & Hdata & _).
  assert (Hproc : processStepsOf (fst (convertSipocToVsm c sipoc i))
                  = filter isProcessStep (vl_steps (fst R))).
  { unfold processStepsOf. rewrite Hsteps, filter_app. cbn. rewrite app_nil_r.
    now apply sortByX_sorted_id. }
  assert (Hlabels : map node_label (nodes b)
                    = ("Process Start"%string :: vsmProcessList sipoc)
                      ++ ["Process End"%string]).
  { unfold b, convertVsmToBpmn. cbn [nodes]. rewrite map_app, taskLoop_labels, Hproc.
    cbn [map tl_nodes app vsmStartNode vsmEndNode node_label].
    fold isProcessStep. now rewrite Hnames. }
  split; [exact Hlabels|].
  split.
  { intros Hne. rewrite Hlabels. unfold vsmProcessList.
    now destruct (process_steps sipoc). }
  split.
  { unfold b, convertVsmToBpmn. cbn [nodes].
    destruct (taskLoop_nodes (processStepsOf (fst (convertSipocToVsm c sipoc i)))
                {| tl_nodes := [vsmStartNode]; tl_edges := [];
                   tl_previousNodeId := "StartEvent_1"; tl_xOffset := 150 + 150 |})
      as [H1 _].
    rewrite H1. cbn [tl_nodes]. apply Forall_app. split; [|now repeat constructor].
    constructor; [reflexivity|]. apply taskNodesFrom_zero_metrics. rewrite Hproc.
    rewrite Forall_forall in Hdata |- *. intros s Hs. apply Hdata.
    apply filter_In in Hs. tauto. }
  rewrite <- (length_map node_label), Hlabels, length_app. cbn. lia.
Qed.

End LiftStructure.

(** ** View geometry: zoom, pan, drag and fit *)

Section ViewGeometry.

Local Open Scope Q_scope.

Lemma clamp_range (x : Q) : 0.2 <= Qmax 0.2 (Qmin 3 x) /\ Qmax 0.2 (Qmin 3 x) <= 3.
Proof.
  split; [apply Q.le_max_l|].
  apply Q.max_lub; [vm_compute; discriminate|apply Q.le_min_l].
Qed.

Lemma clamp_inside (x : Q) : 0.2 <= x -> x <= 3 -> Qmax 0.2 (Qmin 3 x) == x.
Proof.
  intros H1 H2. rewrite (Q.min_r 3 x H2). now apply Q.max_r.
Qed.

(** X13. Zooming keeps the scale between 0.2 and 3, whatever the step and
    whatever the scale was, adds the step when the sum lies in that range,
    and touches neither the offsets of the view nor the diagram; a turn of
    the wheel is a zoom by a tenth. *)
Theorem handleZoom_clamps_scale (delta : Q) :
  (forall st : VSMEditor.State,
      let st' := VSMEditor.handleZoom delta st in
      0.2 <= view_scale (VSMEditor.viewState st') <= 3
      /\ (0.2 <= view_scale (VSMEditor.viewState st) + delta <= 3 ->
          view_scale (VSMEditor.viewState st')
          == view_scale (VSMEditor.viewState st) + delta)
      /\ view_x (VSMEditor.viewState st') = view_x (VSMEditor.viewState st)
      /\ view_y (VSMEditor.viewState st') = view_y (VSMEditor.viewState st)
      /\ VSMEditor.data st' = VSMEditor.data st
      /\ 0.2 <= view_scale (VSMEditor.viewState (VSMEditor.handleWheel delta st)) <= 3
      /\ (VSMEditor.handleWheel delta st = VSMEditor.handleZoom (- 0.1) st
          \/ VSMEditor.handleWheel delta st = VSMEditor.handleZoom 0.1 st))
  /\ (forall st : CMMNEditor.State,
         let st' := CMMNEditor.handleZoom delta st in
         0.2 <= view_scale (CMMNEditor.viewState st') <= 3
         /\ (0.2 <= view_scale (CMMNEditor.viewState st) + delta <= 3 ->
             view_scale (CMMNEditor.viewState st')
             == view_scale (CMMNEditor.viewState st) + delta)
         /\ view_x (CMMNEditor.viewState st') = view_x (CMMNEditor.viewState st)
         /\ view_y (CMMNEditor.viewState st') = view_y (CMMNEditor.viewState st)
         /\ CMMNEditor.data st' = CMMNEditor.data st).
Proof.
  split; intros st st'.
  - split; [apply clamp_range|]. split; [intros [H1 H2]; now apply clamp_inside|].
    split; [reflexivity|]. split; [reflexivity|]. split; [reflexivity|].
    split; [apply clamp_range|].
    unfold VSMEditor.handleWheel. destruct (Qlt_le_dec 0 delta); [now left|now right].
  - split; [apply clamp_range|]. split; [intros [H1 H2]; now apply clamp_inside|].
    repeat split.
Qed.

(** X14. Reading a pointer position back into model space undoes the transform
    with which the surface draws: a model point drawn on the screen and read
    back is itself, and a screen point read and drawn again is itself, for
    every view whose scale is not zero. *)
Theorem toLocalCoordinates_inverts_drawing
    (refs : Dom.Refs) (rect : Dom.Point) (v : ViewState) (p : Q * Q) :
  Dom.svgRect refs = Some rect ->
  ~ view_scale v == 0 ->
  Dom.px (VSMEditor.toLocalCoordinates refs v (fst (toScreen rect v p))
            (snd (toScreen rect v p))) == fst p
  /\ Dom.py (VSMEditor.toLocalCoordinates refs v (fst (toScreen rect v p))
               (snd (toScreen rect v p))) == snd p
  /\ fst (toScreen rect v
            (Dom.px (VSMEditor.toLocalCoordinates refs v (fst p) (snd p)),
             Dom.py (VSMEditor.toLocalCoordinates refs v (fst p) (snd p)))) == fst p
  /\ snd (toScreen rect v
            (Dom.px (VSMEditor.toLocalCoordinates refs v (fst p) (snd p)),
             Dom.py (VSMEditor.toLocalCoordinates refs v (fst p) (snd p)))) == snd p
  /\ CMMNEditor.toLocalCoordinates refs v (fst p) (snd p)
     = VSMEditor.toLocalCoordinates refs v (fst p) (snd p).
Proof.
  intros Hr Hs. unfold VSMEditor.toLocalCoordinates, CMMNEditor.toLocalCoordinates, toScreen.
  rewrite Hr. cbn [Dom.px Dom.py fst snd].
  repeat split; field; exact Hs.
Qed.

Lemma toLocalCoordinates_inverts_drawing_witness :
  Dom.px (VSMEditor.toLocalCoordinates originRefs halfView
            (fst (toScreen {| Dom.px := 0; Dom.py := 0 |} halfView (120, 80)))
            (snd (toScreen {| Dom.px := 0; Dom.py := 0 |} halfView (120, 80)))) == 120.
Proof.
  apply (toLocalCoordinates_inverts_drawing originRefs {| Dom.px := 0; Dom.py := 0 |}
           halfView (120, 80)).
  - reflexivity.
  - vm_compute. discriminate.
Defined.

Lemma last_pointer (r : list Dom.MouseEvent) (e : Dom.MouseEvent) :
  Dom.clientX (last r (pointerAt (Dom.clientX e) (Dom.clientY e))) = Dom.clientX (last r e)
  /\ Dom.clientY (last r (pointerAt (Dom.clientX e) (Dom.clientY e)))
     = Dom.clientY (last r e).
Proof.
  destruct r as [|m r]; [split; reflexivity|]. rewrite !last_cons. split; reflexivity.
Qed.

Lemma vsmPan_moves refs moves :
  forall st,
    VSMEditor.isPanning st = true ->
    let st' := fold_left (fun s e => VSMEditor.handleMouseMove refs e s) moves st in
    VSMEditor.isPanning st' = true
    /\ VSMEditor.data st' = VSMEditor.data st
    /\ view_scale (VSMEditor.viewState st') = view_scale (VSMEditor.viewState st)
    /\ Dom.px (VSMEditor.lastMousePos st')
       = Dom.clientX (last moves (pointerAt (Dom.px (VSMEditor.lastMousePos st))
                                            (Dom.py (VSMEditor.lastMousePos st))))
    /\ Dom.py (VSMEditor.lastMousePos st')
       = Dom.clientY (last moves (pointerAt (Dom.px (VSMEditor.lastMousePos st))
                                            (Dom.py (VSMEditor.lastMousePos st))))
    /\ view_x (VSMEditor.viewState st') - Dom.px (VSMEditor.lastMousePos st')
       == view_x (VSMEditor.viewState st) - Dom.px (VSMEditor.lastMousePos st)
    /\ view_y (VSMEditor.viewState st') - Dom.py (VSMEditor.lastMousePos st')
       == view_y (VSMEditor.viewState st) - Dom.py (VSMEditor.lastMousePos st).
Proof.
  induction moves as [|e r IH]; intros st Hp; cbn [fold_left].
  - cbn. split; [exact Hp|]. do 4 (split; [reflexivity|]). split; reflexivity.
  - assert (Hstep : VSMEditor.handleMouseMove refs e st
                    = {| VSMEditor.data := VSMEditor.data st;
                         VSMEditor.selectedStepId := VSMEditor.selectedStepId st;
                         VSMEditor.selectedConnectorId := VSMEditor.selectedConnectorId st;
                         VSMEditor.viewState :=
                           {| view_x := view_x (VSMEditor.viewState st)
                                        + (Dom.clientX e - Dom.px (VSMEditor.lastMousePos st));
                              view_y := view_y (VSMEditor.viewState st)
                                        + (Dom.clientY e - Dom.py (VSMEditor.lastMousePos st));
                              view_scale := view_scale (VSMEditor.viewState st) |};
                         VSMEditor.isPanning := true;
                         VSMEditor.lastMousePos :=
                           {| Dom.px := Dom.clientX e; Dom.py := Dom.clientY e |};
                         VSMEditor.hasPanningMoved := true;
                         VSMEditor.draggedStepId := VSMEditor.draggedStepId st;
                         VSMEditor.dragOffset := VSMEditor.dragOffset st;
                         VSMEditor.connectMode := VSMEditor.connectMode st;
                         VSMEditor.connectionSource := VSMEditor.connectionSource st |}).
    { unfold VSMEditor.handleMouseMove. now rewrite Hp. }
    rewrite Hstep.
    match goal with |- context [fold_left _ r ?s] => specialize (IH s eq_refl) end.
    cbv zeta in IH. destruct IH as (I1 & I2 & I3 & I4 & I5 & I6 & I7).
    cbn [VSMEditor.data VSMEditor.viewState VSMEditor.lastMousePos view_x view_y
         view_scale Dom.px Dom.py] in I2, I3, I4, I5, I6, I7.
    split; [exact I1|]. split; [exact I2|]. split; [exact I3|].
    split; [rewrite I4, (last_cons e r); apply last_pointer|].
    split; [rewrite I5, (last_cons e r); apply last_pointer|].
    split; [rewrite I6; ring|rewrite I7; ring].
Qed.

(** X15. Panning in the value-stream editor, every event being handled by the
    callbacks of the render that follows the event before it. After the
    pointer went down on the canvas and moved through any number of
    positions, the view has moved by exactly the way from the first to the
    last position of the pointer; scale and diagram are as they were;
    releasing the pointer keeps the view and ends the panning. *)
Theorem vsm_pan_follows_pointer
    (refs : Dom.Refs) (e0 : Dom.MouseEvent) (moves : list Dom.MouseEvent)
    (st : VSMEditor.State) :
  let st' := VSMEditor.handleMouseUp (vsmPan refs e0 moves st) in
  view_x (VSMEditor.viewState st')
  == view_x (VSMEditor.viewState st) + (Dom.clientX (last moves e0) - Dom.clientX e0)
  /\ view_y (VSMEditor.viewState st')
     == view_y (VSMEditor.viewState st) + (Dom.clientY (last moves e0) - Dom.clientY e0)
  /\ view_scale (VSMEditor.viewState st') = view_scale (VSMEditor.viewState st)
  /\ VSMEditor.data st' = VSMEditor.data st
  /\ VSMEditor.isPanning st' = false.
Proof.
  intros st'. unfold st', vsmPan. cbn [VSMEditor.handleMouseUp VSMEditor.viewState
    VSMEditor.data VSMEditor.isPanning].
  destruct (vsmPan_moves refs moves (VSMEditor.handleCanvasMouseDown e0 st) eq_refl)
    as (_ & I2 & I3 & I4 & I5 & I6 & I7).
  cbn [VSMEditor.handleCanvasMouseDown VSMEditor.data VSMEditor.viewState
       VSMEditor.lastMousePos Dom.px Dom.py] in I2, I3, I4, I5, I6, I7.
  destruct (last_pointer moves e0) as [E1 E2]. rewrite E1 in I4. rewrite E2 in I5.
  split; [|split; [|split; [exact I3|split; [exact I2|reflexivity]]]].
  - rewrite <- I4. lra.
  - rewrite <- I5. lra.
Qed.

Lemma cmmnPan_moves refs moves :
  forall st,
    CMMNEditor.isPanning st = true ->
    let st' := fold_left (fun s e => CMMNEditor.handleMouseMove refs e s) moves st in
    CMMNEditor.isPanning st' = true
    /\ CMMNEditor.data st' = CMMNEditor.data st
    /\ view_scale (CMMNEditor.viewState st') = view_scale (CMMNEditor.viewState st)
    /\ Dom.px (CMMNEditor.lastMousePos st')
       = Dom.clientX (last moves (pointerAt (Dom.px (CMMNEditor.lastMousePos st))
                                            (Dom.py (CMMNEditor.lastMousePos st))))
    /\ Dom.py (CMMNEditor.lastMousePos st')
       = Dom.clientY (last moves (pointerAt (Dom.px (CMMNEditor.lastMousePos st))
                                            (Dom.py (CMMNEditor.lastMousePos st))))
    /\ view_x (CMMNEditor.viewState st') - Dom.px (CMMNEditor.lastMousePos st')
       == view_x (CMMNEditor.viewState st) - Dom.px (CMMNEditor.lastMousePos st)
    /\ view_y (CMMNEditor.viewState st') - Dom.py (CMMNEditor.lastMousePos st')
       == view_y (CMMNEditor.viewState st) - Dom.py (CMMNEditor.lastMousePos st).
Proof.
  induction moves as [|e r IH]; intros st Hp; cbn [fold_left].
  - cbn. split; [exact Hp|]. do 4 (split; [reflexivity|]). split; reflexivity.
  - assert (Hstep : CMMNEditor.handleMouseMove refs e st
                    = {| CMMNEditor.data := CMMNEditor.data st;
                         CMMNEditor.selectedNodeId := CMMNEditor.selectedNodeId st;
                         CMMNEditor.selectedEdgeId := CMMNEditor.selectedEdgeId st;
                         CMMNEditor.viewState :=
                           {| view_x := view_x (CMMNEditor.viewState st)
                                        + (Dom.clientX e - Dom.px (CMMNEditor.lastMousePos st));
                              view_y := view_y (CMMNEditor.viewState st)
                                        + (Dom.clientY e - Dom.py (CMMNEditor.lastMousePos st));
                              view_scale := view_scale (CMMNEditor.viewState st) |};
                         CMMNEditor.isPanning := true;
                         CMMNEditor.lastMousePos :=
                           {| Dom.px := Dom.clientX e; Dom.py := Dom.clientY e |};
                         CMMNEditor.hasPanningMoved := true;
                         CMMNEditor.draggedNodeId := CMMNEditor.draggedNodeId st;
                         CMMNEditor.dragOffset := CMMNEditor.dragOffset st;
                         CMMNEditor.connectMode := CMMNEditor.connectMode st;
                         CMMNEditor.connectionSource := CMMNEditor.connectionSource st |}).
    { unfold CMMNEditor.handleMouseMove. now rewrite Hp. }
    rewrite Hstep.
    match goal with |- context [fold_left _ r ?s] => specialize (IH s eq_refl) end.
    cbv zeta in IH. destruct IH as (I1 & I2 & I3 & I4 & I5 & I6 & I7).
    cbn [CMMNEditor.data CMMNEditor.viewState CMMNEditor.lastMousePos view_x view_y
         view_scale Dom.px Dom.py] in I2, I3, I4, I5, I6, I7.
    split; [exact I1|]. split; [exact I2|]. split; [exact I3|].
    split; [rewrite I4, (last_cons e r); apply last_pointer|].
    split; [rewrite I5, (last_cons e r); apply last_pointer|].
    split; [rewrite I6; ring|rewrite I7; ring].
Qed.

Lemma cmmnIdle_moves refs moves :
  forall st,
    CMMNEditor.isPanning st = false ->
    CMMNEditor.draggedNodeId st = None ->
    fold_left (fun s e => CMMNEditor.handleMouseMove refs e s) moves st = st.
Proof.
  induction moves as [|e r IH]; intros st Hp Hd; cbn [fold_left]; [reflexivity|].
  assert (E : CMMNEditor.handleMouseMove refs e st = st).
  { unfold CMMNEditor.handleMouseMove. now rewrite Hp, Hd. }
  rewrite E. now apply IH.
Qed.

(** X16. Panning in the case editor starts with the primary button only. After a
    press with that button and any number of moves the view has moved by
    the way from the first to the last position of the pointer, scale and
    diagram being as they were; after a press with another button, on an
    editor that neither pans nor drags, the moves change nothing at all. *)
Theorem cmmn_pan_needs_primary_button
    (refs : Dom.Refs) (e0 : Dom.MouseEvent) (moves : list Dom.MouseEvent)
    (st : CMMNEditor.State) :
  (Dom.button e0 = 0%nat ->
   let st' := CMMNEditor.handleMouseUp (cmmnPan refs e0 moves st) in
   view_x (CMMNEditor.viewState st')
   == view_x (CMMNEditor.viewState st) + (Dom.clientX (last moves e0) - Dom.clientX e0)
   /\ view_y (CMMNEditor.viewState st')
      == view_y (CMMNEditor.viewState st) + (Dom.clientY (last moves e0) - Dom.clientY e0)
   /\ view_scale (CMMNEditor.viewState st') = view_scale (CMMNEditor.viewState st)
   /\ CMMNEditor.data st' = CMMNEditor.data st)
  /\ (Dom.button e0 <> 0%nat ->
      CMMNEditor.isPanning st = false ->
      CMMNEditor.draggedNodeId st = None ->
      cmmnPan refs e0 moves st = st).
Proof.
  split.
  - intros Hb st'. unfold st', cmmnPan.
    cbn [CMMNEditor.handleMouseUp CMMNEditor.viewState CMMNEditor.data].
    assert (Hdown : CMMNEditor.handleCanvasMouseDown e0 st
                    = {| CMMNEditor.data := CMMNEditor.data st;
                         CMMNEditor.selectedNodeId := CMMNEditor.selectedNodeId st;
                         CMMNEditor.selectedEdgeId := CMMNEditor.selectedEdgeId st;
                         CMMNEditor.viewState := CMMNEditor.viewState st;
                         CMMNEditor.isPanning := true;
                         CMMNEditor.lastMousePos :=
                           {| Dom.px := Dom.clientX e0; Dom.py := Dom.clientY e0 |};
                         CMMNEditor.hasPanningMoved := false;
                         CMMNEditor.draggedNodeId := CMMNEditor.draggedNodeId st;
                         CMMNEditor.dragOffset := CMMNEditor.dragOffset st;
                         CMMNEditor.connectMode := CMMNEditor.connectMode st;
                         CMMNEditor.connectionSource := CMMNEditor.connectionSource st |}).
    { unfold CMMNEditor.handleCanvasMouseDown. now rewrite Hb. }
    rewrite Hdown.
    match goal with |- context [fold_left _ moves ?s] =>
      destruct (cmmnPan_moves refs moves s eq_refl) as (_ & I2 & I3 & I4 & I5 & I6 & I7)
    end.
    cbn [CMMNEditor.data CMMNEditor.viewState CMMNEditor.lastMousePos Dom.px Dom.py]
      in I2, I3, I4, I5, I6, I7.
    destruct (last_pointer moves e0) as [E1 E2]. rewrite E1 in I4. rewrite E2 in I5.
    split; [|split; [|split; [exact I3|exact I2]]].
    + rewrite <- I4. lra.
    + rewrite <- I5. lra.
  - intros Hb Hp Hd. unfold cmmnPan.
    assert (Hdown : CMMNEditor.handleCanvasMouseDown e0 st = st).
    { unfold CMMNEditor.handleCanvasMouseDown.
      destruct (Nat.eqb_spec (Dom.button e0) 0); [contradiction|reflexivity]. }
    rewrite Hdown. now apply cmmnIdle_moves.
Qed.

Lemma cmmn_pan_needs_primary_button_witness :
  view_x (CMMNEditor.viewState
            (CMMNEditor.handleMouseUp
               (cmmnPan originRefs (pointerAt 5 5) [pointerAt 9 1; pointerAt 25 45]
                        (CMMNEditor.initialState wideCase))))
  == 0 + (25 - 5).
Proof.
  apply (proj1 (cmmn_pan_needs_primary_button originRefs (pointerAt 5 5)
                  [pointerAt 9 1; pointerAt 25 45] (CMMNEditor.initialState wideCase))).
  reflexivity.
Defined.

Lemma snapOf_compat (raw raw' x : Q) : raw == raw' -> snapOf raw x -> snapOf raw' x.
Proof.
  intros E [H1 H2]. split; [exact H1|]. now rewrite <- E.
Qed.

(** X17. Dragging follows the pointer. When a step (a case node) is grabbed at
    one pointer position and the pointer moves to another, every step with
    that id lands where it was plus the way of the pointer divided by the
    scale of the view, rounded on each axis to the nearest multiple of 10;
    all other steps and the connectors stay as they are. *)
Theorem drag_follows_pointer :
  (forall (refs : Dom.Refs) (rect : Dom.Point) (fresh : string)
          (e0 e1 : Dom.MouseEvent) (i : string) (s0 : VSMStep) (st : VSMEditor.State),
      VSMEditor.connectMode st = None ->
      VSMEditor.isPanning st = false ->
      Dom.svgRect refs = Some rect ->
      ~ view_scale (VSMEditor.viewState st) == 0 ->
      str_truthy i = true ->
      find (fun s => String.eqb (step_id s) i) (steps (VSMEditor.data st)) = Some s0 ->
      let st' := VSMEditor.handleMouseMove refs e1
                   (VSMEditor.handleNodeMouseDown refs fresh e0 i st) in
      exists x y : Q,
        snapOf (step_x s0 + (Dom.clientX e1 - Dom.clientX e0)
                            / view_scale (VSMEditor.viewState st)) x
        /\ snapOf (step_y s0 + (Dom.clientY e1 - Dom.clientY e0)
                               / view_scale (VSMEditor.viewState st)) y
        /\ steps (VSMEditor.data st')
           = map (fun s => if String.eqb (step_id s) i then VSMEditor.moveStep s x y else s)
                 (steps (VSMEditor.data st))
        /\ connectors (VSMEditor.data st') = connectors (VSMEditor.data st))
  /\ (forall (refs : Dom.Refs) (rect : Dom.Point) (fresh : string)
             (e0 e1 : Dom.MouseEvent) (i : string) (n0 : CMMNNode) (st : CMMNEditor.State),
         CMMNEditor.connectMode st = None ->
         CMMNEditor.isPanning st = false ->
         Dom.svgRect refs = Some rect ->
         ~ view_scale (CMMNEditor.viewState st) == 0 ->
         str_truthy i = true ->
         find (fun n => String.eqb (cnode_id n) i) (cmmn_nodes (CMMNEditor.data st))
         = Some n0 ->
         let st' := CMMNEditor.handleMouseMove refs e1
                      (CMMNEditor.handleNodeMouseDown refs fresh e0 i st) in
         exists x y : Q,
           snapOf (cnode_x n0 + (Dom.clientX e1 - Dom.clientX e0)
                                / view_scale (CMMNEditor.viewState st)) x
           /\ snapOf (cnode_y n0 + (Dom.clientY e1 - Dom.clientY e0)
                                  / view_scale (CMMNEditor.viewState st)) y
           /\ cmmn_nodes (CMMNEditor.data st')
              = map (fun n => if String.eqb (cnode_id n) i
                              then CMMNEditor.moveNode n x y else n)
                    (cmmn_nodes (CMMNEditor.data st))
           /\ cmmn_edges (CMMNEditor.data st') = cmmn_edges (CMMNEditor.data st)).
Proof.
  split.
  - intros refs rect fresh e0 e1 i s0 st Hc Hp Hr Hs Hi Hf st'.
    unfold st', VSMEditor.handleNodeMouseDown. rewrite Hc, Hf.
    unfold VSMEditor.handleMouseMove.
    cbn [VSMEditor.isPanning VSMEditor.draggedStepId VSMEditor.dragOffset
         VSMEditor.viewState VSMEditor.data opt_str_truthy].
    rewrite Hp, Hi. cbn [VSMEditor.data VSMEditor.withSteps steps connectors
                         VSMEditor.isDragged].
    unfold VSMEditor.toLocalCoordinates. rewrite Hr. cbn [Dom.px Dom.py].
    unfold VSMEditor.GRID_SIZE.
    eexists. eexists.
    split; [|split; [|split; [reflexivity|reflexivity]]].
    + eapply snapOf_compat; [|apply Math_round_snap]. field. exact Hs.
    + eapply snapOf_compat; [|apply Math_round_snap]. field. exact Hs.
  - intros refs rect fresh e0 e1 i n0 st Hc Hp Hr Hs Hi Hf st'.
    unfold st', CMMNEditor.handleNodeMouseDown. rewrite Hc, Hf.
    unfold CMMNEditor.handleMouseMove.
    cbn [CMMNEditor.isPanning CMMNEditor.draggedNodeId CMMNEditor.dragOffset
         CMMNEditor.viewState CMMNEditor.data opt_str_truthy].
    rewrite Hp, Hi. cbn [CMMNEditor.data cmmn_nodes cmmn_edges CMMNEditor.isDragged].
    unfold CMMNEditor.toLocalCoordinates. rewrite Hr. cbn [Dom.px Dom.py].
    unfold CMMNEditor.GRID_SIZE.
    eexists. eexists.
    split; [|split; [|split; [reflexivity|reflexivity]]].
    + eapply snapOf_compat; [|apply Math_round_snap]. field. exact Hs.
    + eapply snapOf_compat; [|apply Math_round_snap]. field. exact Hs.
Qed.

Lemma drag_follows_pointer_witness :
  exists x y : Q,
    snapOf (0 + (13 - 0) / 1) x
    /\ snapOf (0 + (27 - 0) / 1) y
    /\ steps (VSMEditor.data
                (VSMEditor.handleMouseMove originRefs (pointerAt 13 27) draggingS1))
       = map (fun s => if String.eqb (step_id s) "s1" then VSMEditor.moveStep s x y else s)
             (steps oneStep)
    /\ connectors (VSMEditor.data
                     (VSMEditor.handleMouseMove originRefs (pointerAt 13 27) draggingS1))
       = connectors oneStep.
Proof.
  apply (proj1 drag_follows_pointer originRefs {| Dom.px := 0; Dom.py := 0 |} "u"%string
           (pointerAt 0 0) (pointerAt 13 27) "s1"%string
           {| step_id := "s1"; step_name := "A"; step_role := process;
              step_x := 0; step_y := 0; step_data := None |}
           (VSMEditor.initialState oneStep)).
  - reflexivity.
  - reflexivity.
  - reflexivity.
  - vm_compute. discriminate.
  - reflexivity.
  - reflexivity.
Defined.

Lemma Math_min_le (l : list Q) :
  forall x, Math_min x l <= x /\ (forall y, In y l -> Math_min x l <= y).
Proof.
  unfold Math_min. induction l as [|a l IH]; intros x; cbn [fold_left].
  - split; [apply Qle_refl|intros y []].
  - destruct (IH (Qmin x a)) as [H1 H2]. split.
    + eapply Qle_trans; [exact H1|apply Q.le_min_l].
    + intros y [<-|Hy]; [eapply Qle_trans; [exact H1|apply Q.le_min_r]|now apply H2].
Qed.

Lemma Math_max_ge (l : list Q) :
  forall x, x <= Math_max x l /\ (forall y, In y l -> y <= Math_max x l).
Proof.
  unfold Math_max. induction l as [|a l IH]; intros x; cbn [fold_left].
  - split; [apply Qle_refl|intros y []].
  - destruct (IH (Qmax x a)) as [H1 H2]. split.
    + eapply Qle_trans; [apply Q.le_max_l|exact H1].
    + intros y [<-|Hy]; [eapply Qle_trans; [apply Q.le_max_r|exact H1]|now apply H2].
Qed.

Lemma Math_min_map {A : Type} (f : A -> Q) (a0 : A) (rest : list A) (a : A) :
  In a (a0 :: rest) -> Math_min (f a0) (map f rest) <= f a.
Proof.
  intros [<-|H]; [apply (proj1 (Math_min_le _ _))|].
  apply (proj2 (Math_min_le _ _)). now apply in_map.
Qed.

Lemma Math_max_map {A : Type} (f : A -> Q) (a0 : A) (rest : list A) (a : A) (extra : list Q) :
  In a (a0 :: rest) -> f a <= Math_max (f a0) (map f rest ++ extra).
Proof.
  intros [<-|H]; [apply (proj1 (Math_max_ge _ _))|].
  apply (proj2 (Math_max_ge _ _)). apply in_or_app. left. now apply in_map.
Qed.

Ltac halve :=
  repeat match goal with
         | |- context [?a / 2] =>
             let E := fresh in
             assert (E : a / 2 == a * (1 # 2)) by field; rewrite E; clear E
         end.

(** The scale a fit-to-content chooses: the smallest of the two ratios and
    one. It is positive, at most one, and the content scaled by it, margin
    included, is no larger than the container. *)
Lemma fit_scale (cw ch w h m : Q) :
  0 < cw -> 0 < ch -> 0 < w + m -> 0 < h + m ->
  let s := Math_min (cw / (w + m)) [ch / (h + m); 1] in
  0 < s /\ s <= 1 /\ s * (w + m) <= cw /\ s * (h + m) <= ch.
Proof.
  intros Hcw Hch Hw Hh s. unfold Math_min in s. cbn [fold_left] in s.
  assert (Ha : 0 < cw / (w + m)).
  { apply Qlt_shift_div_l; [exact Hw|]. lra. }
  assert (Hb : 0 < ch / (h + m)).
  { apply Qlt_shift_div_l; [exact Hh|]. lra. }
  assert (S1 : s <= cw / (w + m)).
  { unfold s. eapply Qle_trans; [apply Q.le_min_l|apply Q.le_min_l]. }
  assert (S2 : s <= ch / (h + m)).
  { unfold s. eapply Qle_trans; [apply Q.le_min_l|apply Q.le_min_r]. }
  split; [unfold s; apply Q.min_glb_lt; [apply Q.min_glb_lt; assumption|reflexivity]|].
  split; [unfold s; apply Q.le_min_r|]. split.
  - assert (E : cw / (w + m) * (w + m) == cw) by (field; lra).
    rewrite <- E. apply Qmult_le_compat_r; [exact S1|lra].
  - assert (E : ch / (h + m) * (h + m) == ch) by (field; lra).
    rewrite <- E. apply Qmult_le_compat_r; [exact S2|lra].
Qed.

(** X18. Fit-to-content of the case editor shows every node in full. In a
    container of positive size the chosen scale is positive and at most one,
    and a node of non-negative width and height is drawn between the left
    and the right border and between the top and the bottom border of the
    container; the diagram itself is not touched. *)
Theorem cmmn_handleFitView_shows_every_node
    (refs : Dom.Refs) (cw ch : Q) (st : CMMNEditor.State) (n : CMMNNode) :
  Dom.containerSize refs = Some (cw, ch) ->
  0 < cw -> 0 < ch ->
  In n (cmmn_nodes (CMMNEditor.data st)) ->
  0 <= effectiveWidth n -> 0 <= effectiveHeight n ->
  let v := CMMNEditor.viewState (CMMNEditor.handleFitView refs st) in
  0 < view_scale v /\ view_scale v <= 1
  /\ 0 <= view_x v + view_scale v * cnode_x n
  /\ view_x v + view_scale v * (cnode_x n + effectiveWidth n) <= cw
  /\ 0 <= view_y v + view_scale v * cnode_y n
  /\ view_y v + view_scale v * (cnode_y n + effectiveHeight n) <= ch
  /\ CMMNEditor.data (CMMNEditor.handleFitView refs st) = CMMNEditor.data st.
Proof.
  intros Hc Hcw Hch Hin Hw Hh v. unfold v, CMMNEditor.handleFitView.
  destruct (cmmn_nodes (CMMNEditor.data st)) as [|n0 rest] eqn:En; [destruct Hin|].
  rewrite Hc. cbv zeta.
  cbn [CMMNEditor.viewState CMMNEditor.setViewState CMMNEditor.data view_x view_y view_scale].
  pose proof (Math_min_map cnode_x n0 rest n Hin) as X1.
  pose proof (Math_max_map (fun n => cnode_x n + opt_or_else (cnode_width n) 120)
                n0 rest n [] Hin) as X2.
  pose proof (Math_min_map cnode_y n0 rest n Hin) as Y1.
  pose proof (Math_max_map (fun n => cnode_y n + opt_or_else (cnode_height n) 60)
                n0 rest n [] Hin) as Y2.
  rewrite app_nil_r in X2, Y2. cbv beta in X2, Y2.
  fold (effectiveWidth n) in X2. fold (effectiveHeight n) in Y2.
  set (minX := Math_min (cnode_x n0) (map cnode_x rest)) in *.
  set (maxX := Math_max _ (map (fun n => cnode_x n + _) rest)) in *.
  set (minY := Math_min (cnode_y n0) (map cnode_y rest)) in *.
  set (maxY := Math_max _ (map (fun n => cnode_y n + _) rest)) in *.
  assert (W0 : 0 < (maxX - minX) + 200) by lra.
  assert (H0 : 0 < (maxY - minY) + 200) by lra.
  destruct (fit_scale cw ch (maxX - minX) (maxY - minY) 200 Hcw Hch W0 H0)
    as (S0 & S1 & SW & SH).
  set (s := Math_min (cw / _) _) in *.
  pose proof (Qmult_le_0_compat s (cnode_x n - minX) (Qlt_le_weak _ _ S0)) as P1.
  pose proof (Qmult_le_0_compat s (maxX - (cnode_x n + effectiveWidth n))
                (Qlt_le_weak _ _ S0)) as P2.
  pose proof (Qmult_le_0_compat s (cnode_y n - minY) (Qlt_le_weak _ _ S0)) as P3.
  pose proof (Qmult_le_0_compat s (maxY - (cnode_y n + effectiveHeight n))
                (Qlt_le_weak _ _ S0)) as P4.
  assert (Q1 : 0 <= s * (cnode_x n - minX)) by (apply P1; lra).
  assert (Q2 : 0 <= s * (maxX - (cnode_x n + effectiveWidth n))) by (apply P2; lra).
  assert (Q3 : 0 <= s * (cnode_y n - minY)) by (apply P3; lra).
  assert (Q4 : 0 <= s * (maxY - (cnode_y n + effectiveHeight n))) by (apply P4; lra).
  clear P1 P2 P3 P4.
  split; [exact S0|]. split; [exact S1|].
  split; [halve; nra|]. split; [halve; nra|]. split; [halve; nra|].
  split; [halve; nra|reflexivity].
Qed.

Lemma cmmn_handleFitView_shows_every_node_witness :
  let v := CMMNEditor.viewState
             (CMMNEditor.handleFitView originRefs (CMMNEditor.initialState wideCase)) in
  0 <= view_x v + view_scale v * 2000
  /\ view_x v + view_scale v * (2000 + 120) <= 800.
Proof.
  pose proof (cmmn_handleFitView_shows_every_node originRefs 800 600
                (CMMNEditor.initialState wideCase)
                {| cnode_id := "k2"; cnode_type := MILESTONE; cnode_label := "Paid";
                   cnode_x := 2000; cnode_y := 900;
                   cnode_width := None; cnode_height := None |}) as H.
  cbv zeta in H. cbv zeta.
  destruct H as (_ & _ & H1 & H2 & _).
  - reflexivity.
  - reflexivity.
  - reflexivity.
  - right. left. reflexivity.
  - vm_compute. discriminate.
  - vm_compute. discriminate.
  - split; [exact H1|exact H2].
Defined.



End ViewGeometry.

(** ** Editing: delete, connect, totals, new elements, auto layout *)

Section Editing.

Local Open Scope string_scope.
Local Open Scope Q_scope.

Lemma negb_eqb_true (a b : string) : negb (String.eqb a b) = true <-> a <> b.
Proof.
  rewrite Bool.negb_true_iff. apply String.eqb_neq.
Qed.

(** X20. Deleting in the value-stream editor. With a step selected, exactly the
    steps with its id go, and with them every connector that starts or ends
    there, so that a value stream whose connectors all join steps stays so;
    with only a connector selected, exactly the connectors with its id go
    and the steps stay; with nothing selected nothing happens. *)
Theorem handleDeleteSelection_cascades (st : VSMEditor.State) :
  (forall i, VSMEditor.selectedStepId st = Some i -> str_truthy i = true ->
     let st' := VSMEditor.handleDeleteSelection st in
     (forall s, In s (steps (VSMEditor.data st'))
                <-> In s (steps (VSMEditor.data st)) /\ step_id s <> i)
     /\ (forall c, In c (connectors (VSMEditor.data st'))
                   <-> In c (connectors (VSMEditor.data st))
                       /\ conn_source c <> i /\ conn_target c <> i)
     /\ (closedVsm (VSMEditor.data st) -> closedVsm (VSMEditor.data st'))
     /\ VSMEditor.selectedStepId st' = None
     /\ VSMEditor.selectedConnectorId st' = VSMEditor.selectedConnectorId st)
  /\ (forall j, opt_str_truthy (VSMEditor.selectedStepId st) = false ->
        VSMEditor.selectedConnectorId st = Some j -> str_truthy j = true ->
        let st' := VSMEditor.handleDeleteSelection st in
        steps (VSMEditor.data st') = steps (VSMEditor.data st)
        /\ (forall c, In c (connectors (VSMEditor.data st'))
                      <-> In c (connectors (VSMEditor.data st)) /\ conn_id c <> j)
        /\ (closedVsm (VSMEditor.data st) -> closedVsm (VSMEditor.data st'))
        /\ VSMEditor.selectedConnectorId st' = None)
  /\ (opt_str_truthy (VSMEditor.selectedStepId st) = false ->
      opt_str_truthy (VSMEditor.selectedConnectorId st) = false ->
      VSMEditor.handleDeleteSelection st = st).
Proof.
  split; [|split].
  - intros i Hsel Hi st'. unfold st', VSMEditor.handleDeleteSelection.
    rewrite Hsel. cbn [opt_str_truthy]. rewrite Hi.
    cbn [VSMEditor.setSelection VSMEditor.setData VSMEditor.data
         VSMEditor.selectedStepId VSMEditor.selectedConnectorId steps connectors].
    assert (S : forall s, In s (filter (fun s => negb (String.eqb (step_id s) i))
                                       (steps (VSMEditor.data st)))
                          <-> In s (steps (VSMEditor.data st)) /\ step_id s <> i).
    { intros s. rewrite filter_In, negb_eqb_true. reflexivity. }
    assert (C : forall c, In c (filter (fun c => negb (String.eqb (conn_source c) i)
                                                 && negb (String.eqb (conn_target c) i))
                                       (connectors (VSMEditor.data st)))
                          <-> In c (connectors (VSMEditor.data st))
                              /\ conn_source c <> i /\ conn_target c <> i).
    { intros c. rewrite filter_In, Bool.andb_true_iff, !negb_eqb_true. reflexivity. }
    split; [exact S|]. split; [exact C|]. split; [|split; reflexivity].
    intros Hcl c Hc. cbn [steps connectors] in *. apply C in Hc.
    destruct Hc as (Hc & Hs & Ht). destruct (Hcl c Hc) as [(s & Hin & Es) (t & Hit & Et)].
    split; [exists s|exists t]; (split; [apply S; split; [assumption|congruence]|assumption]).
  - intros j Hnone Hsel Hj st'. unfold st', VSMEditor.handleDeleteSelection.
    rewrite Hnone, Hsel. cbn [opt_str_truthy]. rewrite Hj.
    cbn [VSMEditor.setSelection VSMEditor.setData VSMEditor.data VSMEditor.withConnectors
         VSMEditor.selectedStepId VSMEditor.selectedConnectorId steps connectors].
    assert (C : forall c, In c (filter (fun c => negb (String.eqb (conn_id c) j))
                                       (connectors (VSMEditor.data st)))
                          <-> In c (connectors (VSMEditor.data st)) /\ conn_id c <> j).
    { intros c. rewrite filter_In, negb_eqb_true. reflexivity. }
    split; [reflexivity|]. split; [exact C|]. split; [|reflexivity].
    intros Hcl c Hc. cbn [steps connectors] in *. apply C in Hc. now apply Hcl.
  - intros H1 H2. unfold VSMEditor.handleDeleteSelection. now rewrite H1, H2.
Qed.

Lemma handleDeleteSelection_cascades_witness :
  map conn_id (connectors (VSMEditor.data (VSMEditor.handleDeleteSelection deskP1Selected)))
  = []
  /\ VSMEditor.selectedStepId (VSMEditor.handleDeleteSelection deskP1Selected) = None.
Proof.
  destruct (proj1 (handleDeleteSelection_cascades deskP1Selected) "p1"%string)
    as (_ & _ & _ & H & _).
  - reflexivity.
  - reflexivity.
  - split; [reflexivity|exact H].
Defined.

(** X21. Deleting in the case editor: the same cascade. With a node selected,
    the nodes with its id go together with every edge that starts or ends
    there, and a case whose edges all join nodes stays so; with only an edge
    selected, the edges with its id go and the nodes stay; with nothing
    selected nothing happens. *)
Theorem deleteSelection_cascades (st : CMMNEditor.State) :
  (forall i, CMMNEditor.selectedNodeId st = Some i -> str_truthy i = true ->
     let st' := CMMNEditor.deleteSelection st in
     (forall n, In n (cmmn_nodes (CMMNEditor.data st'))
                <-> In n (cmmn_nodes (CMMNEditor.data st)) /\ cnode_id n <> i)
     /\ (forall e, In e (cmmn_edges (CMMNEditor.data st'))
                   <-> In e (cmmn_edges (CMMNEditor.data st))
                       /\ cedge_source e <> i /\ cedge_target e <> i)
     /\ (closedCase (CMMNEditor.data st) -> closedCase (CMMNEditor.data st'))
     /\ CMMNEditor.selectedNodeId st' = None)
  /\ (forall j, opt_str_truthy (CMMNEditor.selectedNodeId st) = false ->
        CMMNEditor.selectedEdgeId st = Some j -> str_truthy j = true ->
        let st' := CMMNEditor.deleteSelection st in
        cmmn_nodes (CMMNEditor.data st') = cmmn_nodes (CMMNEditor.data st)
        /\ (forall e, In e (cmmn_edges (CMMNEditor.data st'))
                      <-> In e (cmmn_edges (CMMNEditor.data st)) /\ cedge_id e <> j)
        /\ (closedCase (CMMNEditor.data st) -> closedCase (CMMNEditor.data st'))
        /\ CMMNEditor.selectedEdgeId st' = None)
  /\ (opt_str_truthy (CMMNEditor.selectedNodeId st) = false ->
      opt_str_truthy (CMMNEditor.selectedEdgeId st) = false ->
      CMMNEditor.deleteSelection st = st).
Proof.
  split; [|split].
  - intros i Hsel Hi st'. unfold st', CMMNEditor.deleteSelection.
    rewrite Hsel. cbn [opt_str_truthy]. rewrite Hi.
    cbn [CMMNEditor.setSelection CMMNEditor.setData CMMNEditor.data
         CMMNEditor.selectedNodeId cmmn_nodes cmmn_edges].
    assert (S : forall n, In n (filter (fun n => negb (String.eqb (cnode_id n) i))
                                       (cmmn_nodes (CMMNEditor.data st)))
                          <-> In n (cmmn_nodes (CMMNEditor.data st)) /\ cnode_id n <> i).
    { intros n. rewrite filter_In, negb_eqb_true. reflexivity. }
    assert (C : forall e, In e (filter (fun e => negb (String.eqb (cedge_source e) i)
                                                 && negb (String.eqb (cedge_target e) i))
                                       (cmmn_edges (CMMNEditor.data st)))
                          <-> In e (cmmn_edges (CMMNEditor.data st))
                              /\ cedge_source e <> i /\ cedge_target e <> i).
    { intros e. rewrite filter_In, Bool.andb_true_iff, !negb_eqb_true. reflexivity. }
    split; [exact S|]. split; [exact C|]. split; [|reflexivity].
    intros Hcl e He. cbn [cmmn_nodes cmmn_edges] in *. apply C in He.
    destruct He as (He & Hs & Ht). destruct (Hcl e He) as [(s & Hin & Es) (t & Hit & Et)].
    split; [exists s|exists t]; (split; [apply S; split; [assumption|congruence]|assumption]).
  - intros j Hnone Hsel Hj st'. unfold st', CMMNEditor.deleteSelection.
    rewrite Hnone, Hsel. cbn [opt_str_truthy]. rewrite Hj.
    cbn [CMMNEditor.setSelection CMMNEditor.setData CMMNEditor.data
         CMMNEditor.selectedEdgeId cmmn_nodes cmmn_edges].
    assert (C : forall e, In e (filter (fun e => negb (String.eqb (cedge_id e) j))
                                       (cmmn_edges (CMMNEditor.data st)))
                          <-> In e (cmmn_edges (CMMNEditor.data st)) /\ cedge_id e <> j).
    { intros e. rewrite filter_In, negb_eqb_true. reflexivity. }
    split; [reflexivity|]. split; [exact C|]. split; [|reflexivity].
    intros Hcl e He. cbn [cmmn_nodes cmmn_edges] in *. apply C in He. now apply Hcl.
  - intros H1 H2. unfold CMMNEditor.deleteSelection. now rewrite H1, H2.
Qed.

Lemma deleteSelection_cascades_witness :
  cmmn_edges (CMMNEditor.data (CMMNEditor.deleteSelection caseK1Selected)) = []
  /\ CMMNEditor.selectedNodeId (CMMNEditor.deleteSelection caseK1Selected) = None.
Proof.
  destruct (proj1 (deleteSelection_cascades caseK1Selected) "k1"%string)
    as (_ & _ & _ & H).
  - reflexivity.
  - reflexivity.
  - split; [reflexivity|exact H].
Defined.

(** X22. Drawing a connector. After the tool of a connector type has been chosen
    while no connector is selected, a press on one step and then on another
    appends one connector of that type from the first to the second and
    leaves the connect mode; two presses on the same step leave the connect
    mode without a connector, so that no connector from a step to itself is
    made. The steps are not touched and no drag starts. The case editor,
    once its connect mode is set, does the same with edges. *)
Theorem connect_gesture_adds_one_connector :
  (forall (refs : Dom.Refs) (f1 f2 : string) (e1 e2 : Dom.MouseEvent) (a b : string)
          (t : ConnectorType) (st : VSMEditor.State),
      opt_str_truthy (VSMEditor.selectedConnectorId st) = false ->
      VSMEditor.connectMode st = None ->
      VSMEditor.connectionSource st = None ->
      str_truthy a = true ->
      let st' := VSMEditor.handleNodeMouseDown refs f2 e2 b
                   (VSMEditor.handleNodeMouseDown refs f1 e1 a
                      (VSMEditor.handleToolbarTypeClick t st)) in
      connectors (VSMEditor.data st')
      = (if String.eqb a b then connectors (VSMEditor.data st)
         else connectors (VSMEditor.data st)
              ++ [{| conn_id := f2; conn_source := a; conn_target := b;
                     conn_type := t |}])%list
      /\ steps (VSMEditor.data st') = steps (VSMEditor.data st)
      /\ VSMEditor.connectMode st' = None
      /\ VSMEditor.connectionSource st' = None
      /\ VSMEditor.draggedStepId st' = VSMEditor.draggedStepId st
      /\ VSMEditor.selectedStepId st' = VSMEditor.selectedStepId st)
  /\ (forall (refs : Dom.Refs) (f1 f2 : string) (e1 e2 : Dom.MouseEvent) (a b : string)
             (t : CMMNEdgeType) (st : CMMNEditor.State),
         CMMNEditor.connectMode st = Some t ->
         CMMNEditor.connectionSource st = None ->
         str_truthy a = true ->
         let st' := CMMNEditor.handleNodeMouseDown refs f2 e2 b
                      (CMMNEditor.handleNodeMouseDown refs f1 e1 a st) in
         cmmn_edges (CMMNEditor.data st')
         = (if String.eqb a b then cmmn_edges (CMMNEditor.data st)
            else cmmn_edges (CMMNEditor.data st)
                 ++ [{| cedge_id := f2; cedge_source := a; cedge_target := b;
                        cedge_type := t |}])%list
         /\ cmmn_nodes (CMMNEditor.data st') = cmmn_nodes (CMMNEditor.data st)
         /\ CMMNEditor.connectMode st' = None
         /\ CMMNEditor.connectionSource st' = None
         /\ CMMNEditor.draggedNodeId st' = CMMNEditor.draggedNodeId st).
Proof.
  split.
  - intros refs f1 f2 e1 e2 a b t st Hsel Hm Hs Ha st'.
    unfold st', VSMEditor.handleToolbarTypeClick. rewrite Hsel, Hm.
    unfold VSMEditor.handleNodeMouseDown.
    cbn [VSMEditor.setConnectMode VSMEditor.connectMode VSMEditor.connectionSource].
    rewrite Hs.
    cbn [opt_str_truthy VSMEditor.connectMode VSMEditor.connectionSource VSMEditor.data
         VSMEditor.draggedStepId VSMEditor.selectedStepId].
    rewrite Ha.
    cbn [VSMEditor.connectMode VSMEditor.connectionSource VSMEditor.data
         VSMEditor.draggedStepId VSMEditor.selectedStepId].
    destruct (String.eqb a b); cbn [negb VSMEditor.withConnectors steps connectors];
      repeat split.
  - intros refs f1 f2 e1 e2 a b t st Hm Hs Ha st'.
    unfold st', CMMNEditor.handleNodeMouseDown. rewrite Hm, Hs.
    cbn [opt_str_truthy CMMNEditor.connectMode CMMNEditor.connectionSource CMMNEditor.data
         CMMNEditor.draggedNodeId].
    rewrite Ha.
    cbn [CMMNEditor.connectMode CMMNEditor.connectionSource CMMNEditor.data
         CMMNEditor.draggedNodeId].
    destruct (String.eqb a b); cbn [negb cmmn_nodes cmmn_edges]; repeat split.
Qed.

Lemma connect_gesture_adds_one_connector_witness :
  map conn_id
      (connectors
         (VSMEditor.data
            (VSMEditor.handleNodeMouseDown originRefs "u2" (pointerAt 700 55) "p2"
               (VSMEditor.handleNodeMouseDown originRefs "u1" (pointerAt 10 10) "cu"
                  (VSMEditor.handleToolbarTypeClick pull
                     (VSMEditor.initialState deskVsm))))))
  = ["c1"; "c2"; "u2"]%string.
Proof.
  destruct (proj1 connect_gesture_adds_one_connector originRefs "u1"%string "u2"%string
              (pointerAt 10 10) (pointerAt 700 55) "cu"%string "p2"%string pull
              (VSMEditor.initialState deskVsm)) as (H & _).
  - reflexivity.
  - reflexivity.
  - reflexivity.
  - reflexivity.
  - rewrite H. reflexivity.
Defined.

(** X23. The totals of a value stream. Unless a diagram is being generated, the
    effect leaves the total process time equal to the sum of the cycle times
    of the process steps and the total lead time equal to the sum of the
    lead times of all steps, leaves steps and connectors alone, and changes
    nothing when run again; while a diagram is being generated it changes
    nothing. *)
Theorem recalculateTotals_settles (st : VSMEditor.State) :
  let st' := VSMEditor.recalculateTotals false st in
  totalProcessTime (VSMEditor.data st') == VSMEditor.totalPT (VSMEditor.data st)
  /\ totalLeadTime (VSMEditor.data st') == VSMEditor.totalLT (VSMEditor.data st)
  /\ steps (VSMEditor.data st') = steps (VSMEditor.data st)
  /\ connectors (VSMEditor.data st') = connectors (VSMEditor.data st)
  /\ VSMEditor.recalculateTotals false st' = st'
  /\ VSMEditor.recalculateTotals true st = st.
Proof.
  intros st'. unfold st', VSMEditor.recalculateTotals. cbn [negb].
  set (d := VSMEditor.data st).
  destruct (negb (Qeq_bool (VSMEditor.totalPT d) (totalProcessTime d))
            || negb (Qeq_bool (VSMEditor.totalLT d) (totalLeadTime d))) eqn:E.
  - cbn [VSMEditor.setData VSMEditor.data VSMEditor.withTotals
         totalProcessTime totalLeadTime steps connectors].
    do 4 (split; [reflexivity|]). split; [|reflexivity].
    change (VSMEditor.totalPT (VSMEditor.withTotals d (VSMEditor.totalPT d)
                                 (VSMEditor.totalLT d)))
      with (VSMEditor.totalPT d).
    change (VSMEditor.totalLT (VSMEditor.withTotals d (VSMEditor.totalPT d)
                                 (VSMEditor.totalLT d)))
      with (VSMEditor.totalLT d).
    rewrite !Qeq_bool_refl. reflexivity.
  - fold d. rewrite E.
    apply Bool.orb_false_iff in E. destruct E as [E1 E2].
    apply Bool.negb_false_iff, Qeq_bool_iff in E1.
    apply Bool.negb_false_iff, Qeq_bool_iff in E2.
    split; [now symmetry|]. split; [now symmetry|]. repeat split.
Qed.




Lemma tidySteps_place (all : list VSMStep) :
  VSMEditor.tidySteps all
  = place (filter (inClass 0) all) (BpmnConverter.sortByX (filter (inClass 1) all))
          (filter (inClass 2) all) (filter (inClass 3) all) (filter (inClass 4) all).
Proof.
  unfold VSMEditor.tidySteps, place.
  rewrite (filter_ext (inClass 0) (fun s => VSMEditor.role_eqb (step_role s) supplier))
    by (intros s; unfold inClass; destruct (step_role s); reflexivity).
  rewrite (filter_ext (inClass 1)
             (fun s => VSMEditor.role_eqb (step_role s) process
                       || VSMEditor.role_eqb (step_role s) inventory))
    by (intros s; unfold inClass; destruct (step_role s); reflexivity).
  rewrite (filter_ext (inClass 2) (fun s => VSMEditor.role_eqb (step_role s) customer))
    by (intros s; unfold inClass; destruct (step_role s); reflexivity).
  rewrite (filter_ext (inClass 3)
             (fun s => VSMEditor.role_eqb (step_role s) production_control))
    by (intros s; unfold inClass; destruct (step_role s); reflexivity).
  rewrite (filter_ext (inClass 4)
             (fun s => negb (existsb (VSMEditor.role_eqb (step_role s))
                               [supplier; customer; production_control; process;
                                inventory])))
    by (intros s; unfold inClass; destruct (step_role s); reflexivity).
  reflexivity.
Qed.

Lemma mapiFrom_map {A B C : Type} (g : B -> C) (h : A -> C) (f : A -> nat -> B) :
  (forall a i, g (f a i) = h a) ->
  forall l k, map g (mapiFrom f k l) = map h l.
Proof.
  intros H. induction l as [|a l IH]; intros k; cbn [mapiFrom map]; [reflexivity|].
  now rewrite H, IH.
Qed.

Lemma mapiFrom_length {A B : Type} (f : A -> nat -> B) (l : list A) :
  forall k, length (mapiFrom f k l) = length l.
Proof.
  induction l as [|a l IH]; intros k; cbn [mapiFrom length]; [reflexivity|].
  now rewrite IH.
Qed.

Lemma mapiFrom_in {A B : Type} (f : A -> nat -> B) (l : list A) :
  forall k b, In b (mapiFrom f k l) ->
              exists a i, In a l /\ (k <= i)%nat /\ (i < k + length l)%nat /\ b = f a i.
Proof.
  induction l as [|a l IH]; intros k b; cbn [mapiFrom]; [intros []|].
  intros [<-|H].
  - exists a, k. cbn [length]. repeat split; [now left|lia|lia].
  - destruct (IH _ _ H) as (a' & i & Ha & Hk & Hi & ->).
    exists a', i. cbn [length]. repeat split; [now right|lia|lia].
Qed.

Lemma mapiFrom_idem {A : Type} (f : A -> nat -> A) :
  (forall a i, f (f a i) i = f a i) ->
  forall l k, mapiFrom f k (mapiFrom f k l) = mapiFrom f k l.
Proof.
  intros H. induction l as [|a l IH]; intros k; cbn [mapiFrom]; [reflexivity|].
  now rewrite H, IH.
Qed.

Lemma mapiFrom_positions (fx : nat -> Q) (y : Q) (l : list VSMStep) :
  forall k, map (fun s => (step_x s, step_y s))
                (mapiFrom (fun s i => VSMEditor.moveStep s (fx i) y) k l)
            = map (fun i => (fx i, y)) (seq k (length l)).
Proof.
  induction l as [|a l IH]; intros k; cbn [mapiFrom map length seq]; [reflexivity|].
  now rewrite IH.
Qed.

(** Moving the steps of one group keeps them in the group. *)
Lemma filter_moved (j c : nat) (fx : nat -> Q) (y : Q) (l : list VSMStep) :
  Forall (fun s => layoutClass (step_role s) = c) l ->
  forall k, filter (inClass j) (mapiFrom (fun s i => VSMEditor.moveStep s (fx i) y) k l)
            = if Nat.eqb c j
              then mapiFrom (fun s i => VSMEditor.moveStep s (fx i) y) k l
              else [].
Proof.
  induction 1 as [|a l Ha Hl IH]; intros k; cbn [mapiFrom filter].
  - now destruct (Nat.eqb c j).
  - unfold inClass at 1. cbn [VSMEditor.moveStep step_role]. rewrite Ha, IH.
    now destruct (Nat.eqb c j).
Qed.

Lemma filter_class (j : nat) (l : list VSMStep) :
  Forall (fun s => layoutClass (step_role s) = j) (filter (inClass j) l).
Proof.
  apply Forall_forall. intros s H. apply filter_In in H. destruct H as [_ H].
  now apply Nat.eqb_eq in H.
Qed.

Lemma sorted_class (j : nat) (l : list VSMStep) :
  Forall (fun s => layoutClass (step_role s) = j) l ->
  Forall (fun s => layoutClass (step_role s) = j) (BpmnConverter.sortByX l).
Proof.
  rewrite !Forall_forall. intros H s Hs. apply H.
  eapply Permutation_in; [apply sortByX_perm|exact Hs].
Qed.

(** The groups of a placement are the placed groups. *)
Lemma filter_place (l0 l1 l2 l3 l4 : list VSMStep) :
  Forall (fun s => layoutClass (step_role s) = 0%nat) l0 ->
  Forall (fun s => layoutClass (step_role s) = 1%nat) l1 ->
  Forall (fun s => layoutClass (step_role s) = 2%nat) l2 ->
  Forall (fun s => layoutClass (step_role s) = 3%nat) l3 ->
  Forall (fun s => layoutClass (step_role s) = 4%nat) l4 ->
  exists u0 u1 u2 u3 u4,
    place l0 l1 l2 l3 l4 = (u0 ++ u1 ++ u2 ++ u3 ++ u4)%list
    /\ (forall j, (j < 5)%nat ->
                  filter (inClass j) (place l0 l1 l2 l3 l4) = nth j [u0; u1; u2; u3; u4] [])
    /\ u0 = mapi (fun s i => VSMEditor.moveStep s (VSMEditor.START_X + num i * 150)
                               VSMEditor.TOP_Y) l0
    /\ u1 = mapi (fun s i => VSMEditor.moveStep s
                               (VSMEditor.START_X + num i * VSMEditor.SPACING_X)
                               VSMEditor.FLOW_Y) l1
    /\ u2 = mapi (fun s i => VSMEditor.moveStep s
                               (Qmax (last (map step_x u1) 0 + 200) 800 + num i * 150)
                               VSMEditor.TOP_Y) l2
    /\ u3 = mapi (fun s i => VSMEditor.moveStep s
                               ((VSMEditor.START_X
                                 + Qmax (last (map step_x u1) 0 + 200) 800) / 2
                                + num i * 150 - (num (length l3) - 1) * 75)
                               VSMEditor.TOP_Y) l3
    /\ u4 = mapi (fun s i => VSMEditor.moveStep s (VSMEditor.START_X + num i * 150)
                               (VSMEditor.FLOW_Y + 180)) l4.
Proof.
  intros H0 H1 H2 H3 H4.
  eexists. eexists. eexists. eexists. eexists.
  split; [|split; [|split; [reflexivity|split; [reflexivity|split;
    [reflexivity|split; [reflexivity|reflexivity]]]]]].
  - unfold place. cbv zeta. do 3 f_equal. f_equal. destruct l3; reflexivity.
  - intros j Hj. unfold place. cbv zeta. rewrite !filter_app.
    replace (match l3 with
             | [] => []
             | _ :: _ => mapi _ l3
             end)
      with (mapi (fun s i => VSMEditor.moveStep s
                               ((VSMEditor.START_X
                                 + Qmax (last (map step_x
                                                 (mapi (fun s i => VSMEditor.moveStep s
                                                          (VSMEditor.START_X
                                                           + num i * VSMEditor.SPACING_X)
                                                          VSMEditor.FLOW_Y) l1)) 0 + 200)
                                        800) / 2
                                + num i * 150 - (num (length l3) - 1) * 75)
                               VSMEditor.TOP_Y) l3)
      by (destruct l3; reflexivity).
    unfold mapi.
    rewrite (filter_moved j 0 _ _ l0 H0), (filter_moved j 1 _ _ l1 H1),
      (filter_moved j 2 _ _ l2 H2), (filter_moved j 3 _ _ l3 H3),
      (filter_moved j 4 _ _ l4 H4).
    destruct j as [|[|[|[|[|j]]]]]; cbn [Nat.eqb nth app]; rewrite ?app_nil_r;
      try reflexivity.
    lia.
Qed.

Lemma num_le (k i : nat) : (k <= i)%nat -> num k <= num i.
Proof.
  intros H. unfold num. rewrite <- Zle_Qle. lia.
Qed.

Lemma flow_row_sorted (l : list VSMStep) :
  forall k, StronglySorted ascendingX
              (mapiFrom (fun s i => VSMEditor.moveStep s
                                      (VSMEditor.START_X + num i * VSMEditor.SPACING_X)
                                      VSMEditor.FLOW_Y) k l).
Proof.
  induction l as [|a l IH]; intros k; cbn [mapiFrom]; constructor; [apply IH|].
  apply Forall_forall. intros b Hb.
  destruct (mapiFrom_in _ _ _ _ Hb) as (a' & i & _ & Hk & _ & ->).
  unfold ascendingX. cbn [VSMEditor.moveStep step_x].
  pose proof (num_le k i ltac:(lia)) as Hn.
  unfold VSMEditor.START_X, VSMEditor.SPACING_X. lra.
Qed.

Lemma perm_five {A : Type} (c : A -> nat) (l : list A) :
  (forall a, In a l -> (c a < 5)%nat) ->
  Permutation (filter (fun a => Nat.eqb (c a) 0) l
               ++ filter (fun a => Nat.eqb (c a) 1) l
               ++ filter (fun a => Nat.eqb (c a) 2) l
               ++ filter (fun a => Nat.eqb (c a) 3) l
               ++ filter (fun a => Nat.eqb (c a) 4) l) l.
Proof.
  induction l as [|a l IH]; intros H; [constructor|].
  assert (IH' := IH (fun x Hx => H x (or_intror Hx))). clear IH.
  pose proof (H a (or_introl eq_refl)) as Ha. cbn [filter].
  destruct (c a) as [|[|[|[|[|n]]]]]; cbn [Nat.eqb app]; [| | | | |lia].
  - now constructor.
  - symmetry. apply Permutation_cons_app. now symmetry.
  - symmetry. rewrite app_assoc. apply Permutation_cons_app. rewrite <- app_assoc.
    now symmetry.
  - symmetry. rewrite 2!app_assoc. apply Permutation_cons_app. rewrite <- 2!app_assoc.
    now symmetry.
  - symmetry. rewrite 3!app_assoc. apply Permutation_cons_app. rewrite <- 3!app_assoc.
    now symmetry.
Qed.

Lemma layoutClass_bound (r : VSMRole) : (layoutClass r < 5)%nat.
Proof. destruct r; cbn; lia. Qed.

Lemma place_identity (l0 l1 l2 l3 l4 : list VSMStep) :
  map stepIdentity (place l0 l1 l2 l3 l4)
  = map stepIdentity (l0 ++ l1 ++ l2 ++ l3 ++ l4).
Proof.
  unfold place. cbv zeta. rewrite !map_app. unfold mapi.
  rewrite !(mapiFrom_map stepIdentity stepIdentity) by reflexivity.
  do 3 f_equal. f_equal. destruct l3; [reflexivity|].
  now rewrite (mapiFrom_map stepIdentity stepIdentity) by reflexivity.
Qed.

(** X25. The auto layout loses no step and changes none but for its position.
    The steps of the result are those of the diagram, each with its id,
    name, role and data; the process and inventory steps stand in their
    former left-to-right order on one row at height 400, the first at 150
    and each next one 220 further right; every customer stands at height
    100 and at 800 or further right; the connectors are as they were; and a
    second layout leaves the diagram as the first one made it. *)
Theorem handleTidyDiagram_keeps_every_step (st : VSMEditor.State) :
  let all := steps (VSMEditor.data st) in
  let st' := VSMEditor.handleTidyDiagram st in
  let tidied := steps (VSMEditor.data st') in
  Permutation (map stepIdentity tidied) (map stepIdentity all)
  /\ map stepIdentity (filter isFlowStep tidied)
     = map stepIdentity (BpmnConverter.sortByX (filter isFlowStep all))
  /\ map (fun s => (step_x s, step_y s)) (filter isFlowStep tidied)
     = map (fun k => (150 + num k * 220, 400)) (seq 0 (length (filter isFlowStep all)))
  /\ (forall s, In s tidied -> step_role s = customer ->
                800 <= step_x s /\ step_y s = 100)
  /\ connectors (VSMEditor.data st') = connectors (VSMEditor.data st)
  /\ VSMEditor.data (VSMEditor.handleTidyDiagram st') = VSMEditor.data st'.
Proof.
  intros all st' tidied.
  assert (Et : tidied = VSMEditor.tidySteps all) by reflexivity.
  assert (Ef : forall l, filter isFlowStep l = filter (inClass 1) l).
  { intros l. apply filter_ext. intros s. unfold isFlowStep, inClass.
    destruct (step_role s); reflexivity. }
  set (l0 := filter (inClass 0) all).
  set (l1 := BpmnConverter.sortByX (filter (inClass 1) all)).
  set (l2 := filter (inClass 2) all).
  set (l3 := filter (inClass 3) all).
  set (l4 := filter (inClass 4) all).
  assert (Ep : tidied = place l0 l1 l2 l3 l4) by (rewrite Et; apply tidySteps_place).
  assert (C0 : Forall (fun s => layoutClass (step_role s) = 0%nat) l0) by apply filter_class.
  assert (C1 : Forall (fun s => layoutClass (step_role s) = 1%nat) l1)
    by (apply sorted_class, filter_class).
  assert (C2 : Forall (fun s => layoutClass (step_role s) = 2%nat) l2) by apply filter_class.
  assert (C3 : Forall (fun s => layoutClass (step_role s) = 3%nat) l3) by apply filter_class.
  assert (C4 : Forall (fun s => layoutClass (step_role s) = 4%nat) l4) by apply filter_class.
  split; [|split; [|split; [|split; [|split; [reflexivity|]]]]].
  - rewrite Ep, place_identity. apply Permutation_map.
    transitivity (l0 ++ filter (inClass 1) all ++ l2 ++ l3 ++ l4)%list.
    + apply Permutation_app_head. apply Permutation_app_tail. apply sortByX_perm.
    + apply (perm_five (fun s => layoutClass (step_role s)) all).
      intros s _. apply layoutClass_bound.
  - rewrite !Ef, Ep.
    destruct (filter_place l0 l1 l2 l3 l4 C0 C1 C2 C3 C4)
      as (u0 & u1 & u2 & u3 & u4 & _ & F & _ & E1 & _).
    rewrite (F 1%nat) by lia. cbn [nth]. rewrite E1. unfold mapi.
    now rewrite (mapiFrom_map stepIdentity stepIdentity) by reflexivity.
  - rewrite !Ef, Ep.
    destruct (filter_place l0 l1 l2 l3 l4 C0 C1 C2 C3 C4)
      as (u0 & u1 & u2 & u3 & u4 & _ & F & _ & E1 & _).
    rewrite (F 1%nat) by lia. cbn [nth]. rewrite E1. unfold mapi.
    rewrite (mapiFrom_positions (fun i => VSMEditor.START_X + num i * VSMEditor.SPACING_X)).
    unfold l1. rewrite (Permutation_length (sortByX_perm (filter (inClass 1) all))).
    reflexivity.
  - intros s Hs Hr.
    assert (Hin : In s (filter (inClass 2) tidied)).
    { apply filter_In. split; [exact Hs|]. unfold inClass. now rewrite Hr. }
    rewrite Ep in Hin.
    destruct (filter_place l0 l1 l2 l3 l4 C0 C1 C2 C3 C4)
      as (u0 & u1 & u2 & u3 & u4 & _ & F & _ & _ & E2 & _).
    rewrite (F 2%nat) in Hin by lia. cbn [nth] in Hin. rewrite E2 in Hin. unfold mapi in Hin.
    destruct (mapiFrom_in _ _ _ _ Hin) as (a & i & _ & _ & _ & ->).
    cbn [VSMEditor.moveStep step_x step_y]. split; [|reflexivity].
    pose proof (Q.le_max_r (last (map step_x u1) 0 + 200) 800) as Hm.
    pose proof (num_le 0 i ltac:(lia)) as Hn. change (num 0) with 0 in Hn.
    set (m := Qmax _ _) in *. lra.
  - assert (Ei : VSMEditor.tidySteps (VSMEditor.tidySteps all) = VSMEditor.tidySteps all).
    { rewrite <- Et. rewrite (tidySteps_place tidied).
      destruct (filter_place l0 l1 l2 l3 l4 C0 C1 C2 C3 C4)
        as (u0 & u1 & u2 & u3 & u4 & P & F & E0 & E1 & E2 & E3 & E4).
      rewrite Ep, (F 0%nat), (F 1%nat), (F 2%nat), (F 3%nat), (F 4%nat) by lia.
      cbn [nth]. rewrite <- Ep, Et.
      assert (S1 : BpmnConverter.sortByX u1 = u1).
      { apply sortByX_sorted_id. rewrite E1. apply flow_row_sorted. }
      rewrite S1, <- Et, Ep, P.
      assert (M1 : mapi (fun s i => VSMEditor.moveStep s
                                      (VSMEditor.START_X + num i * VSMEditor.SPACING_X)
                                      VSMEditor.FLOW_Y) u1 = u1).
      { rewrite E1 at 2. rewrite E1. apply mapiFrom_idem. reflexivity. }
      unfold place. cbv zeta. rewrite M1.
      f_equal; [rewrite E0 at 2; rewrite E0; apply mapiFrom_idem; reflexivity|].
      f_equal. f_equal; [rewrite E2 at 2; rewrite E2; apply mapiFrom_idem; reflexivity|].
      f_equal; [|rewrite E4 at 2; rewrite E4; apply mapiFrom_idem; reflexivity].
      assert (L3 : length u3 = length l3).
      { rewrite E3. apply mapiFrom_length. }
      destruct u3 as [|b u3]; [reflexivity|]. rewrite L3.
      rewrite E3 at 2. rewrite E3. apply mapiFrom_idem. reflexivity. }
    change (VSMEditor.data (VSMEditor.handleTidyDiagram (VSMEditor.handleTidyDiagram st))
            = VSMEditor.data (VSMEditor.handleTidyDiagram st)).
    unfold VSMEditor.handleTidyDiagram.
    cbn [VSMEditor.setData VSMEditor.data VSMEditor.withSteps steps connectors
         totalLeadTime totalProcessTime efficiency customerDemand availableTime
         VSMEditor.selectedStepId VSMEditor.selectedConnectorId VSMEditor.viewState
         VSMEditor.isPanning VSMEditor.lastMousePos VSMEditor.hasPanningMoved
         VSMEditor.draggedStepId VSMEditor.dragOffset VSMEditor.connectMode
         VSMEditor.connectionSource].
    fold all. rewrite Ei. reflexivity.
Qed.

End Editing.

(** ** The derived metrics *)

Section DerivedMetrics.

Import App.
Local Open Scope string_scope.
Local Open Scope Q_scope.

Lemma health_entry data m :
  In m (calculateDynamicMetrics data) ->
  metric_name m = "Process Health" ->
  m = metric "Process Health" (Qmin 100 (health (baseMetrics data))) "Score".
Proof.
  intros Hin Hname.
  unfold calculateDynamicMetrics in Hin. fold (baseMetrics data) in Hin.
  destruct (2 <=? length (baseMetrics data))%nat.
  - destruct Hin as [<-|Hin]; [reflexivity|].
    exfalso. exact (baseMetrics_names data m Hin Hname).
  - exfalso. exact (baseMetrics_names data m Hin Hname).
Qed.

Ltac distinct_names :=
  repeat (constructor; [cbn; intuition discriminate|]); constructor.

(** X26. The derived metrics of a project. There are none exactly when the value
    stream has no step and the process map has no node; otherwise the list
    starts with the Process Health score, of at most 100, followed by the
    metrics of the value stream and then those of the process map. The list
    has at most six entries, never just one or two, and no two entries have
    the same name. *)
Theorem calculateDynamicMetrics_shape (data : ProjectData) :
  let ms := calculateDynamicMetrics data in
  (ms = [] <-> hasSteps data = false /\ hasNodes data = false)
  /\ (ms <> [] ->
      exists h, h <= 100
                /\ ms = (metric "Process Health" h "Score"
                         :: vsmMetrics data ++ processMapMetrics data)%list)
  /\ (hasSteps data = false -> vsmMetrics data = [])
  /\ (hasNodes data = false -> processMapMetrics data = [])
  /\ (length ms = 0 \/ 3 <= length ms <= 6)%nat
  /\ NoDup (metricNames ms).
Proof.
  intros ms. unfold ms, calculateDynamicMetrics, vsmMetrics, processMapMetrics,
    hasSteps, hasNodes, metricNames.
  destruct (vsm data) as [v|]; [destruct (steps v) as [|s0 ss]|];
    (destruct (processMap data) as [pm|]; [destruct (nodes pm) as [|n0 ns]|]);
    try destruct (opt_truthy (customerDemand v) && opt_truthy (availableTime v));
    cbn [app length Nat.leb map metric_name metric].
  all: split; [split; [intros H; first [discriminate H|now split]
                      |intros [H1 H2];
                       first [discriminate H1|discriminate H2|reflexivity]]|].
  all: split; [intros H;
               first [now exfalso; apply H
                     |eexists; split; [apply Q.le_min_l|reflexivity]]|].
  all: split; [intros H; first [discriminate H|reflexivity]|].
  all: split; [intros H; first [discriminate H|reflexivity]|].
  all: split; [lia|distinct_names].
Qed.

Lemma Math_round_ge (z : Z) (x : Q) : inject_Z z <= x -> inject_Z z <= Math_round x.
Proof.
  intros H. unfold Math_round. rewrite <- Zle_Qle.
  rewrite <- (Qfloor_Z z). apply Qfloor_resp_le. lra.
Qed.

Lemma or_else_positive (x : Q) : 0 <= x -> 0 < or_else x 1 /\ (x <= 1.2 -> or_else x 1 <= 1.2).
Proof.
  intros H. unfold or_else, truthy. destruct (Qeq_bool x 0) eqn:E; cbn [negb].
  - split; [reflexivity|intros _; vm_compute; discriminate].
  - split; [|tauto]. apply Qeq_bool_neq in E. lra.
Qed.

(** X27. The Process Health score is at least 50 whenever the efficiency, the
    cycle time and the takt time that enter its formula are not negative:
    the takt ratio is capped at 1.2, so the second term of the formula
    contributes at least 50. *)
Theorem process_health_at_least_fifty (data : ProjectData) (m : MetricData) :
  In m (calculateDynamicMetrics data) ->
  metric_name m = "Process Health" ->
  0 <= healthEff (baseMetrics data) ->
  0 <= healthCycle (baseMetrics data) ->
  0 <= healthTakt (baseMetrics data) ->
  50 <= metric_value m.
Proof.
  intros Hin Hname He Hc Ht.
  rewrite (health_entry data m Hin Hname). cbn [metric metric_value].
  apply Q.min_glb; [vm_compute; discriminate|].
  unfold health. apply (Math_round_ge 50). unfold healthFormula.
  set (ms := baseMetrics data) in *.
  destruct (or_else_positive (healthTakt ms) Ht) as [Td _].
  fold (taktDivisor ms) in Td.
  assert (R0 : 0 <= taktRatio ms).
  { unfold taktRatio. apply Q.min_glb; [vm_compute; discriminate|].
    apply Qle_shift_div_l; [exact Td|]. lra. }
  assert (R1 : taktRatio ms <= 1.2) by (unfold taktRatio; apply Q.le_min_l).
  destruct (or_else_positive (taktRatio ms) R0) as [Rd Rm].
  specialize (Rm R1). fold (ratioDivisor ms) in Rd, Rm.
  assert (I : (5 # 6) <= 1 / ratioDivisor ms).
  { apply Qle_shift_div_l; [exact Rd|]. lra. }
  set (i := 1 / ratioDivisor ms) in *. change (inject_Z 50) with 50. lra.
Qed.

Lemma process_health_at_least_fifty_witness : 50 <= metric_value briskHealth.
Proof.
  apply (process_health_at_least_fifty briskProject briskHealth).
  - left. reflexivity.
  - reflexivity.
  - vm_compute. discriminate.
  - vm_compute. discriminate.
  - vm_compute. discriminate.
Defined.

(** X28. The Takt Time metric. It is listed exactly when the value stream has a
    step and both the customer demand and the available time are set and
    not zero; its value is then the takt time the value-stream editor shows,
    a whole number of seconds. *)
Theorem takt_time_metric_matches_editor (data : ProjectData) (v : VSMData) :
  vsm data = Some v ->
  ((exists m, In m (calculateDynamicMetrics data) /\ metric_name m = "Takt Time")
   <-> hasSteps data = true
       /\ opt_truthy (customerDemand v) = true /\ opt_truthy (availableTime v) = true)
  /\ (forall m, In m (calculateDynamicMetrics data) -> metric_name m = "Takt Time" ->
                metric_value m = VSMEditor.taktTime v
                /\ metric_unit m = "s"
                /\ exists k : Z, metric_value m = inject_Z k).
Proof.
  intros Hv.
  assert (Hin : forall m, In m (calculateDynamicMetrics data) ->
                          metric_name m = "Takt Time" ->
                          In m (vsmMetrics data)).
  { intros m H Hn. unfold calculateDynamicMetrics in H.
    destruct (2 <=? _)%nat;
      [destruct H as [<-|H]; [discriminate Hn|]|];
      (apply in_app_or in H; destruct H as [H|H]; [exact H|]);
      unfold processMapMetrics in H;
      (destruct (processMap data) as [pm|]; [|contradiction]);
      (destruct (nodes pm); [contradiction|]);
      destruct H as [<-|[<-|[]]]; discriminate Hn. }
  assert (Hout : forall m, In m (vsmMetrics data) -> In m (calculateDynamicMetrics data)).
  { intros m H. unfold calculateDynamicMetrics.
    destruct (2 <=? _)%nat; [right|]; apply in_or_app; now left. }
  unfold hasSteps, VSMEditor.taktTime. split.
  - split.
    + intros (m & Hm & Hn). specialize (Hin m Hm Hn). unfold vsmMetrics in Hin.
      rewrite Hv in *. destruct (steps v); [contradiction|].
      apply in_app_or in Hin. destruct Hin as [[<-|[<-|[]]]|Hin]; try discriminate Hn.
      destruct (opt_truthy (customerDemand v)), (opt_truthy (availableTime v));
        try contradiction. now repeat split.
    + rewrite Hv. intros (Hs & Hd & Ha).
      exists (metric "Takt Time"
                (Math_round (nullish (availableTime v) 0 / nullish (customerDemand v) 0))
                "s").
      split; [|reflexivity]. apply Hout. unfold vsmMetrics. rewrite Hv.
      destruct (steps v); [discriminate Hs|]. rewrite Hd, Ha. cbn [andb].
      apply in_or_app. right. now left.
  - intros m Hm Hn. specialize (Hin m Hm Hn). unfold vsmMetrics in Hin.
    rewrite Hv in Hin. destruct (steps v); [contradiction|].
    apply in_app_or in Hin. destruct Hin as [[<-|[<-|[]]]|Hin]; try discriminate Hn.
    destruct (opt_truthy (customerDemand v)), (opt_truthy (availableTime v));
      try contradiction.
    destruct Hin as [<-|[]]. cbn [metric metric_value metric_unit andb].
    split; [reflexivity|]. split; [reflexivity|]. unfold Math_round. now eexists.
Qed.

Lemma takt_time_metric_matches_editor_witness :
  exists m, In m (calculateDynamicMetrics {| vsm := Some deskVsm; processMap := None |})
            /\ metric_name m = "Takt Time".
Proof.
  apply (proj1 (takt_time_metric_matches_editor
                  {| vsm := Some deskVsm; processMap := None |} deskVsm eq_refl)).
  repeat split.
Defined.

End DerivedMetrics.

(** ** Drawing the connectors *)

Section Drawing.

Local Open Scope string_scope.
Local Open Scope Q_scope.

Lemma existsb_find {A : Type} (p : A -> bool) (l : list A) :
  existsb p l = match find p l with Some _ => true | None => false end.
Proof.
  induction l as [|a l IH]; [reflexivity|]. cbn [existsb find].
  destruct (p a); [reflexivity|exact IH].
Qed.

Lemma renderConnector_key (showNum : Q -> string) (Math_sqrt : Q -> Q)
    (st : VSMEditor.State) (c : VSMConnector) :
  option_map VSMEditor.cv_key (VSMEditor.renderConnector showNum Math_sqrt st c)
  = if resolvable (VSMEditor.data st) c then Some (conn_id c) else None.
Proof.
  unfold VSMEditor.renderConnector, resolvable. rewrite !existsb_find.
  destruct (find _ (steps (VSMEditor.data st))) as [s|]; [|reflexivity].
  destruct (find _ (steps (VSMEditor.data st))) as [t|]; [|reflexivity].
  destruct (VSMEditor.getConnectorPoints s t) as [[[x1 y1] x2] y2].
  destruct (conn_type c); reflexivity.
Qed.

Lemma renderEdge_key (st : CMMNEditor.State) (e : CMMNEdge) :
  option_map CMMNEditor.lv_key (CMMNEditor.renderEdge st e)
  = if resolvableEdge (CMMNEditor.data st) e then Some (cedge_id e) else None.
Proof.
  unfold CMMNEditor.renderEdge, resolvableEdge. rewrite !existsb_find.
  destruct (find _ (cmmn_nodes (CMMNEditor.data st))) as [s|]; [|reflexivity].
  destruct (find _ (cmmn_nodes (CMMNEditor.data st))) as [t|]; reflexivity.
Qed.

Lemma flat_map_keys {A B : Type} (f : A -> option B) (key : B -> string) (id : A -> string)
    (ok : A -> bool) (l : list A) :
  (forall a, option_map key (f a) = if ok a then Some (id a) else None) ->
  map key (flat_map (fun a => match f a with Some v => [v] | None => [] end) l)
  = map id (filter ok l).
Proof.
  intros H. induction l as [|a l IH]; [reflexivity|].
  cbn [flat_map filter]. rewrite map_app, IH. specialize (H a).
  destruct (f a), (ok a); cbn in *; congruence.
Qed.

Lemma filter_all {A : Type} (p : A -> bool) (l : list A) :
  (forall a, In a l -> p a = true) -> filter p l = l.
Proof.
  induction l as [|a l IH]; intros H; [reflexivity|]. cbn [filter].
  rewrite (H a (or_introl eq_refl)), IH; [reflexivity|].
  intros b Hb. apply H. now right.
Qed.

(** X29. What an editor draws of its connectors. The connectors drawn are, in
    the order of the diagram, exactly those whose two ends are steps; so a
    value stream whose connectors all join steps has every connector drawn,
    once. The same holds for the edges of the case editor. *)
Theorem closed_diagram_draws_every_connector :
  (forall (showNum : Q -> string) (Math_sqrt : Q -> Q) (st : VSMEditor.State),
      map VSMEditor.cv_key (VSMEditor.renderConnectors showNum Math_sqrt st)
      = map conn_id (filter (resolvable (VSMEditor.data st))
                            (connectors (VSMEditor.data st)))
      /\ (closedVsm (VSMEditor.data st) ->
          map VSMEditor.cv_key (VSMEditor.renderConnectors showNum Math_sqrt st)
          = map conn_id (connectors (VSMEditor.data st))))
  /\ (forall st : CMMNEditor.State,
         map CMMNEditor.lv_key (CMMNEditor.renderEdges st)
         = map cedge_id (filter (resolvableEdge (CMMNEditor.data st))
                                (cmmn_edges (CMMNEditor.data st)))
         /\ (closedCase (CMMNEditor.data st) ->
             map CMMNEditor.lv_key (CMMNEditor.renderEdges st)
             = map cedge_id (cmmn_edges (CMMNEditor.data st)))).
Proof.
  split.
  - intros showNum Math_sqrt st.
    assert (G : map VSMEditor.cv_key (VSMEditor.renderConnectors showNum Math_sqrt st)
                = map conn_id (filter (resolvable (VSMEditor.data st))
                                      (connectors (VSMEditor.data st)))).
    { unfold VSMEditor.renderConnectors. apply flat_map_keys.
      intros c. apply renderConnector_key. }
    split; [exact G|]. intros Hcl. rewrite G. f_equal. apply filter_all.
    intros c Hc. destruct (Hcl c Hc) as [(s & Hs & Es) (t & Ht & Et)].
    unfold resolvable. apply Bool.andb_true_iff. split; apply existsb_exists.
    + exists s. split; [exact Hs|]. rewrite Es. apply String.eqb_refl.
    + exists t. split; [exact Ht|]. rewrite Et. apply String.eqb_refl.
  - intros st.
    assert (G : map CMMNEditor.lv_key (CMMNEditor.renderEdges st)
                = map cedge_id (filter (resolvableEdge (CMMNEditor.data st))
                                       (cmmn_edges (CMMNEditor.data st)))).
    { unfold CMMNEditor.renderEdges. apply flat_map_keys.
      intros e. apply renderEdge_key. }
    split; [exact G|]. intros Hcl. rewrite G. f_equal. apply filter_all.
    intros e He. destruct (Hcl e He) as [(s & Hs & Es) (t & Ht & Et)].
    unfold resolvableEdge. apply Bool.andb_true_iff. split; apply existsb_exists.
    + exists s. split; [exact Hs|]. rewrite Es. apply String.eqb_refl.
    + exists t. split; [exact Ht|]. rewrite Et. apply String.eqb_refl.
Qed.

Lemma deskVsm_closed : closedVsm deskVsm.
Proof.
  intros c [<-|[<-|[]]]; split; cbn [conn_source conn_target].
  - exists (deskStep "p1" process 40 720). split; [cbn; tauto|reflexivity].
  - exists (deskStep "p2" process 700 55). split; [cbn; tauto|reflexivity].
  - exists (deskStep "su" supplier 900 300). split; [cbn; tauto|reflexivity].
  - exists (deskStep "p1" process 40 720). split; [cbn; tauto|reflexivity].
Defined.

Lemma closed_diagram_draws_every_connector_witness :
  map VSMEditor.cv_key
      (VSMEditor.renderConnectors (fun _ => "0") (fun x => x)
                                  (VSMEditor.initialState deskVsm))
  = ["c1"; "c2"].
Proof.
  apply (proj2 (proj1 closed_diagram_draws_every_connector (fun _ => "0") (fun x => x)
                  (VSMEditor.initialState deskVsm))).
  exact deskVsm_closed.
Defined.

Lemma Qabs_zero (x : Q) : Qabs x <= 0 -> x == 0.
Proof.
  intros H. apply Qabs_Qle_condition in H. lra.
Qed.

(** X30. A connector and its reverse lie on the same segment: unless the two
    steps stand at the same position, the end points of the connector from
    one step to the other are those of the connector back, exchanged. *)
Theorem getConnectorPoints_reversal (a b : VSMStep) :
  ~ (step_x a == step_x b /\ step_y a == step_y b) ->
  samePoints (VSMEditor.getConnectorPoints b a)
             (reversed (VSMEditor.getConnectorPoints a b)).
Proof.
  intros Hne. unfold VSMEditor.getConnectorPoints, VSMEditor.getSnapRect, Math_abs.
  destruct (match step_role a with
            | process => (120, 60) | supplier | customer => (90, 45)
            | production_control => (120, 40) | inventory => (30, 30)
            | kaizen => (50, 50) | transport => (40, 40)
            end) as [aw ah].
  destruct (match step_role b with
            | process => (120, 60) | supplier | customer => (90, 45)
            | production_control => (120, 40) | inventory => (30, 30)
            | kaizen => (50, 50) | transport => (40, 40)
            end) as [bw bh].
  pose proof (Qabs_Qminus (step_x a) (step_x b)) as Ex.
  pose proof (Qabs_Qminus (step_y a) (step_y b)) as Ey.
  pose proof (Qabs_nonneg (step_x a - step_x b)) as Nx.
  pose proof (Qabs_nonneg (step_y a - step_y b)) as Ny.
  assert (Zx : Qabs (step_x a - step_x b) <= 0 -> step_x a == step_x b).
  { intros H. apply Qabs_zero in H. lra. }
  assert (Zy : Qabs (step_y a - step_y b) <= 0 -> step_y a == step_y b).
  { intros H. apply Qabs_zero in H. lra. }
  assert (Px : 0 < step_x a - step_x b -> Qabs (step_x a - step_x b) == step_x a - step_x b)
    by (intros H; apply Qabs_pos; lra).
  assert (Py : 0 < step_y a - step_y b -> Qabs (step_y a - step_y b) == step_y a - step_y b)
    by (intros H; apply Qabs_pos; lra).
  destruct (Qlt_le_dec (Qabs (step_y a - step_y b)) (Qabs (step_x a - step_x b))) as [H1|H1];
    destruct (Qlt_le_dec (Qabs (step_y b - step_y a)) (Qabs (step_x b - step_x a))) as [H2|H2];
    rewrite <- ?Ex, <- ?Ey in H2;
    try (exfalso; generalize dependent (Qabs (step_x a - step_x b));
         generalize dependent (Qabs (step_y a - step_y b)); intros; lra).
  - destruct (Qlt_le_dec 0 (step_x a - step_x b)) as [D1|D1];
      destruct (Qlt_le_dec 0 (step_x b - step_x a)) as [D2|D2];
      cbn [reversed samePoints]; try (repeat split; reflexivity); exfalso.
    + lra.
    + assert (E : step_x a == step_x b) by lra.
      assert (Z : Qabs (step_x a - step_x b) == 0).
      { assert (E0 : step_x a - step_x b == 0) by lra. rewrite E0. reflexivity. }
      generalize dependent (Qabs (step_x a - step_x b)).
      generalize dependent (Qabs (step_y a - step_y b)). intros. lra.
  - destruct (Qlt_le_dec 0 (step_y a - step_y b)) as [D1|D1];
      destruct (Qlt_le_dec 0 (step_y b - step_y a)) as [D2|D2];
      cbn [reversed samePoints]; try (repeat split; reflexivity); exfalso.
    + lra.
    + assert (E : step_y a == step_y b) by lra.
      assert (Z : Qabs (step_y a - step_y b) == 0).
      { assert (E0 : step_y a - step_y b == 0) by lra. rewrite E0. reflexivity. }
      apply Hne. split; [|exact E]. apply Zx. rewrite Z in H1. exact H1.
Qed.

Lemma getConnectorPoints_reversal_witness :
  samePoints (VSMEditor.getConnectorPoints (deskStep "p2" process 700 55)
                                           (deskStep "p1" process 40 720))
             (reversed (VSMEditor.getConnectorPoints (deskStep "p1" process 40 720)
                                                     (deskStep "p2" process 700 55))).
Proof.
  apply (getConnectorPoints_reversal (deskStep "p1" process 40 720)
           (deskStep "p2" process 700 55)).
  intros [H _]. vm_compute in H. discriminate H.
Defined.

End Drawing.
